(** * Release matching, PR-to-release mapping and the pull request metrics

    A shallow embedding of
      - [athenian/api/controllers/miners/github/release.py]
        ([load_releases], the tag / branch / tag_or_branch matchers,
        [map_prs_to_releases], [_map_prs_to_releases], [_find_old_released_prs]),
      - [athenian/api/controllers/miners/github/contributors.py]
        (the pull request query of [_mine_contributors]),
      - [athenian/api/controllers/features/github/pull_request_metrics.py]
        (the calculators),
    together with the properties the specification states about them.

    Conventions of the embedding.
      - A timestamp is an integer number of seconds since the epoch ([Z]);
        [timedelta(minutes=1)] is [60] and [timedelta(weeks=4)] is [2419200].
      - A table of the metadata database is the list of its rows, in the
        order in which the engine scans them.  A [SELECT ... WHERE] is a
        [filter]; [ORDER BY] is a stable sort of the filtered rows: rows
        that compare equal stay in the order of the scan.
      - A pandas DataFrame is the list of its rows; a nullable column is an
        [option].
      - An exception is a value of [Exception]; code that may raise returns
        a [result].  [asyncio.gather(..., return_exceptions=True)] followed
        by re-raising the first exception is sequencing in the order of the
        task list.
      - A coroutine wrapped by [cached], and [extract_branches], which takes
        the cache client, are modelled by what they compute when the shared
        cache has no entry for them: the release matchers and
        [load_releases] have no cache among their parameters.  The cache of
        the releases of pull requests, which [map_prs_to_releases] reads and
        writes itself, is modelled.
      - A Python [float] is an IEEE-754 double ([SpecFloat] of the Standard
        Library).
      - Python's [re] module is not part of the repository: compiling a
        pattern is the section variable [re_compile] (it may raise
        [re.error]); the compiled pattern is the predicate "[match] at the
        start of the string succeeds". *)

From Stdlib Require Import List String Ascii ZArith QArith Bool Lia Arith Sorted.
From Stdlib Require Floats.SpecFloat.
Import ListNotations.

Local Open Scope string_scope.
Local Open Scope Z_scope.

Set Implicit Arguments.

(** ** Exceptions and results *)

Inductive Exception : Type :=
| KeyError (key : string)
| IndexError
| ValueError (what : string)
| TypeError
| ZeroDivisionError
| ReError (pattern : string).

Inductive result (A : Type) : Type :=
| Ok (a : A)
| Raise (e : Exception).

Arguments Ok {A} a.
Arguments Raise {A} e.

Definition bind {A B : Type} (c : result A) (k : A -> result B) : result B :=
  match c with
  | Ok a => k a
  | Raise e => Raise e
  end.

Notation "x <- c ;; k" := (bind c (fun x => k))
  (at level 61, c at next level, right associativity).

(** [for x in xs: ys.append(f(x))] where [f] may raise. *)
Fixpoint mapM {A B : Type} (f : A -> result B) (xs : list A) : result (list B) :=
  match xs with
  | [] => Ok []
  | x :: xs' =>
      y <- f x ;;
      ys <- mapM f xs' ;;
      Ok (y :: ys)
  end.

(** ** Python string operations used by the code *)

Module Str.

(** [s.endswith(p)] *)
Definition endswith (p s : string) : bool :=
  let n := String.length s in
  let m := String.length p in
  if (m <=? n)%nat then String.eqb (String.substring (n - m) m s) p else false.

(** [s.replace(old, new)] for a non-empty [old]: occurrences are replaced
    from the left and never overlap.  [skip] counts the characters of an
    occurrence that has just been replaced and are still to be dropped. *)
Fixpoint replace_from (skip : nat) (old new s : string) : string :=
  match s with
  | EmptyString => EmptyString
  | String c s' =>
      match skip with
      | S k => replace_from k old new s'
      | O =>
          if String.prefix old s
          then new ++ replace_from (String.length old - 1) old new s'
          else String c (replace_from O old new s')
      end
  end.

Definition replace (old new s : string) : string := replace_from O old new s.

(** [s.split(sep, 1)[1]] for a one-character separator: what follows the
    first separator; [IndexError] when there is none. *)
Fixpoint after_first (sep : ascii) (s : string) : result string :=
  match s with
  | EmptyString => Raise IndexError
  | String c s' => if Ascii.eqb c sep then Ok s' else after_first sep s'
  end.

(** [x in xs] for a collection of strings. *)
Definition mem (x : string) (xs : list string) : bool :=
  existsb (String.eqb x) xs.

(** [set(xs)], or SQL [DISTINCT]: first occurrences, in order. *)
Fixpoint distinct (xs : list string) : list string :=
  match xs with
  | [] => []
  | x :: xs' => x :: filter (fun y => negb (String.eqb y x)) (distinct xs')
  end.

End Str.

(** Equality of nullable text columns; SQL and pandas both make a comparison
    with NULL false. *)
Definition opt_is (o : option string) (s : string) : bool :=
  match o with
  | Some x => String.eqb x s
  | None => false
  end.

Definition is_some {A : Type} (o : option A) : bool :=
  match o with
  | Some _ => true
  | None => false
  end.

(** SQL [x BETWEEN lo AND hi]: both bounds are included. *)
Definition between (x lo hi : Z) : bool := (lo <=? x) && (x <=? hi).

(** [x BETWEEN lo AND hi] on a nullable column: NULL is never between. *)
Definition between_opt (x : option Z) (lo hi : Z) : bool :=
  match x with
  | Some v => between v lo hi
  | None => false
  end.

(** ** Generic frame operations *)

Section Frames.
Variable A : Type.

(** Stable insertion sort, the first row being the one [before] every
    other: [ORDER BY] with ties left in scan order.  [before x y] says that
    [x] need not come after [y]; [insert_by] puts [x], which was scanned
    before the rows of [l], in front of the first row that it need not come
    after, hence in front of the rows of equal rank. *)
Fixpoint insert_by (before : A -> A -> bool) (x : A) (l : list A) : list A :=
  match l with
  | [] => [x]
  | y :: l' => if before x y then x :: l else y :: insert_by before x l'
  end.

Fixpoint sort_by (before : A -> A -> bool) (l : list A) : list A :=
  match l with
  | [] => []
  | x :: l' => insert_by before x (sort_by before l')
  end.

(** [df[~df.index.duplicated(keep="first")]]: the first row of every key. *)
Fixpoint drop_duplicated (same : A -> A -> bool) (l : list A) : list A :=
  match l with
  | [] => []
  | x :: l' => x :: filter (fun y => negb (same x y)) (drop_duplicated same l')
  end.

End Frames.

(** [zip(range(len(l)), l)] starting at [i]: the rows with their positional
    index after [reset_index(drop=True)]. *)
Fixpoint enumerate_from {A : Type} (i : Z) (l : list A) : list (Z * A) :=
  match l with
  | [] => []
  | x :: l' => (i, x) :: enumerate_from (i + 1) l'
  end.

(** ** Release matching settings ([athenian.api.controllers.settings]) *)

(** [Match] is an [IntEnum]; a member compares equal to its value, and the
    [matched_by] column stores the value.  The [match] field of a setting is
    kept as the integer, so that a setting built with any other value can be
    told apart from the three members. *)
Module Match.
Definition branch : Z := 0.
Definition tag : Z := 1.
Definition tag_or_branch : Z := 2.

Definition is_member (v : Z) : bool :=
  (v =? branch) || (v =? tag) || (v =? tag_or_branch).

(** [Match(v)]: the member with value [v], [ValueError] when there is none. *)
Definition of_value (v : Z) : result Z :=
  if is_member v then Ok v else Raise (ValueError "not a valid Match").
End Match.

Record ReleaseMatchSetting : Type := {
  branches_of : string;
  tags : string;
  match_ : Z
}.

(** [Dict[str, ReleaseMatchSetting]]: keys in insertion order. *)
Definition Settings : Type := list (string * ReleaseMatchSetting).

Fixpoint dict_get {V : Type} (k : string) (d : list (string * V)) : option V :=
  match d with
  | [] => None
  | (k', v) :: d' => if String.eqb k k' then Some v else dict_get k d'
  end.

(** [d[k]] *)
Definition dict_item {V : Type} (d : list (string * V)) (k : string) : result V :=
  match dict_get k d with
  | Some v => Ok v
  | None => Raise (KeyError k)
  end.

(** [PREFIXES["github"]] of [athenian.api.models.metadata]. *)
Definition PREFIXES_github : string := "github.com/".

(** [default_branch_alias] of [athenian.api.controllers.settings]. *)
Definition default_branch_alias : string := "{{default}}".


(** ** Tables of the metadata store ([athenian.api.models.metadata.github]) *)

(** [github_releases_compat].  A row without [published_at] can satisfy no
    [BETWEEN] and is selected by no query below: the table is modelled on
    the rows that have it.  [tag] is a nullable column. *)
Module Release.
Record t : Type := {
  id : string;
  repository_full_name : string;
  author : string;
  name : option string;
  published_at : Z;
  tag : option string;
  url : option string;
  sha : string;
  commit_id : option string
}.
End Release.

(** The frame of releases that the matchers return: the columns of
    [Release] and [matched_by]. *)
Module ReleaseDF.
Record t : Type := {
  id : string;
  repository_full_name : string;
  author : option string;
  name : option string;
  published_at : Z;
  tag : option string;
  url : option string;
  sha : string;
  commit_id : option string;
  matched_by : Z
}.
End ReleaseDF.

(** [github_push_commits_compat]; [commit_date] is the textual column by
    which [_fetch_merge_commit_releases] orders. *)
Module PushCommit.
Record t : Type := {
  node_id : string;
  repository_full_name : string;
  sha : string;
  url : option string;
  author_login : option string;
  committer_login : option string;
  committer_name : option string;
  committer_email : option string;
  commit_date : string;
  committed_date : Z
}.
End PushCommit.

(** [github_pull_requests_compat]; [hidden] is a nullable Boolean. *)
Module PullRequest.
Record t : Type := {
  node_id : string;
  repository_full_name : string;
  user_login : option string;
  merged_by_login : option string;
  created_at : option Z;
  updated_at : option Z;
  closed_at : option Z;
  merged_at : option Z;
  merge_commit_id : option string;
  merge_commit_sha : option string;
  base_ref : string;
  hidden : option bool
}.
End PullRequest.

(** [github_branches_compat] *)
Module Branch.
Record t : Type := {
  repository_full_name : string;
  branch_name : string;
  is_default : bool;
  commit_id : string;
  commit_sha : string
}.
End Branch.

(** [github_node_commit] *)
Module NodeCommit.
Record t : Type := {
  id : string;
  oid : string;
  committed_date : option Z
}.
End NodeCommit.

(** [github_node_commit_parents]: [parent_id] is the later commit (the git
    child), [child_id] its git parent; [index = 0] is the first parent. *)
Module NodeCommitParent.
Record t : Type := {
  parent_id : string;
  child_id : string;
  index : Z
}.
End NodeCommitParent.

Record MetadataDB : Type := {
  github_releases : list Release.t;
  github_push_commits : list PushCommit.t;
  github_pull_requests : list PullRequest.t;
  github_branches : list Branch.t;
  github_node_commit : list NodeCommit.t;
  github_node_commit_parents : list NodeCommitParent.t
}.

Definition matched_by_column (r : ReleaseDF.t) : Z := ReleaseDF.matched_by r.

(** [_dummy_releases_df()]: the release columns and no row. *)
Definition _dummy_releases_df : list ReleaseDF.t := [].

Definition tag_by_branch_probe_lookaround : Z := 4 * 7 * 24 * 60 * 60.

(** [regexp if regexp.endswith("$") else regexp + "$"] *)
Definition anchor_at_end (regexp : string) : string :=
  if Str.endswith "$" regexp then regexp else regexp ++ "$".

(** [releases[matched_by_column] = Match.tag.value] on a row read from the
    [Release] table. *)
Definition tag_release (r : Release.t) : ReleaseDF.t :=
  {| ReleaseDF.id := Release.id r;
     ReleaseDF.repository_full_name := Release.repository_full_name r;
     ReleaseDF.author := Some (Release.author r);
     ReleaseDF.name := Release.name r;
     ReleaseDF.published_at := Release.published_at r;
     ReleaseDF.tag := Release.tag r;
     ReleaseDF.url := Release.url r;
     ReleaseDF.sha := Release.sha r;
     ReleaseDF.commit_id := Release.commit_id r;
     ReleaseDF.matched_by := Match.tag |}.

(** Equality of two entries of an index level; two missing entries are the
    same entry. *)
Definition opt_eqb (a b : option string) : bool :=
  match a, b with
  | Some x, Some y => String.eqb x y
  | None, None => true
  | _, _ => false
  end.

(** The index [(repository_full_name, tag)] of the frame of tagged releases. *)
Definition same_repo_tag (a b : Release.t) : bool :=
  String.eqb (Release.repository_full_name a) (Release.repository_full_name b)
  && opt_eqb (Release.tag a) (Release.tag b).

(** [ORDER BY published_at DESC] *)
Definition newer_first (a b : Release.t) : bool :=
  Release.published_at b <=? Release.published_at a.

Section Matchers.

(** [re.compile(pattern)] followed by [.match]: [Raise] for [re.error]. *)
Variable re_compile : string -> result (string -> bool).

(** The query of [_match_releases_by_tag], with the index de-duplicated. *)
Definition fetch_tags (repos : list string) (time_from time_to : Z)
    (db : MetadataDB) : list Release.t :=
  let releases :=
    sort_by newer_first
      (filter (fun r =>
                 between (Release.published_at r) time_from time_to
                 && Str.mem (Release.repository_full_name r) repos
                 && is_some (Release.commit_id r))
              (github_releases db)) in
  drop_duplicated same_repo_tag releases.

(** [index.str.match(regexp)] on one entry of the index: a missing tag
    gives a missing value, neither true nor false. *)
Definition str_match (regexp : string -> bool) (tag : option string) : option bool :=
  match tag with
  | Some t => Some (regexp t)
  | None => None
  end.

(** [index[mask]]: indexing by a mask that holds a missing value raises
    [ValueError]. *)
Definition index_by_mask (rows : list Release.t) (mask : list (option bool))
    : result (list Release.t) :=
  if forallb is_some mask
  then Ok (map fst (filter (fun rm : Release.t * option bool =>
                              match snd rm with
                              | Some b => b
                              | None => false
                              end) (combine rows mask)))
  else Raise (ValueError "cannot mask with array containing NA / NaN values").

(** One turn of the loop [for repo in repos] of [_match_releases_by_tag]:
    the rows [(repo, tag)] appended to [matched]. *)
Definition match_repo_tags (settings : Settings) (releases : list Release.t)
    (repo : string) : result (list Release.t) :=
  let repo_releases :=
    filter (fun r => String.eqb (Release.repository_full_name r) repo) releases in
  match repo_releases with
  | [] => Ok []
  | _ :: _ =>
      v <- dict_item settings (PREFIXES_github ++ repo) ;;
      regexp <- re_compile (anchor_at_end (tags v)) ;;
      index_by_mask repo_releases
        (map (fun r => str_match regexp (Release.tag r)) repo_releases)
  end.

Definition _match_releases_by_tag (repos : list string) (time_from time_to : Z)
    (settings : Settings) (db : MetadataDB) : result (list ReleaseDF.t) :=
  let releases := fetch_tags repos time_from time_to db in
  matched <- mapM (match_repo_tags settings releases) repos ;;
  Ok (map tag_release (List.concat matched)).

(** *** Branch matching *)

(** Modelled from the spec: [extract_branches] of
    [athenian.api.controllers.miners.github.branches] is not among the
    sources.  The spec has the branch matcher "resolve the default-branch
    name" of each repository from the table
    [branch(repo_id, branch_name, commit_id, commit_sha, is_default)]: the
    branches of the repositories asked for, and for each repository the name
    of its branch flagged [is_default]. *)
Definition extract_branches (repos : list string) (db : MetadataDB)
    : list Branch.t * list (string * string) :=
  let branches :=
    filter (fun b => Str.mem (Branch.repository_full_name b) repos)
           (github_branches db) in
  let default_branches :=
    flat_map (fun b => if Branch.is_default b
                       then [(Branch.repository_full_name b, Branch.branch_name b)]
                       else [])
             branches in
  (branches, default_branches).

(** The keys of [df.groupby(column)] with the default [sort=True]. *)
Definition groupby_sorted_keys (keys : list string) : list string :=
  sort_by String.leb (Str.distinct keys).

(** The keys of [df.groupby(column, sort=False)]: order of first appearance. *)
Definition groupby_keys (keys : list string) : list string := Str.distinct keys.

(** The rows of the recursive query of [_fetch_first_parents] are found by
    walking the [index = 0] edges from [commit_id]; [UNION] keeps a commit
    once, so a round that reaches nothing new ends the walk, and there are at
    most as many rounds as there are edges. *)
Fixpoint first_parent_walk (fuel : nat) (edges : list NodeCommitParent.t)
    (frontier seen : list string) : list string :=
  match fuel with
  | O => seen
  | S fuel' =>
      let reached :=
        Str.distinct
          (map NodeCommitParent.child_id
               (filter (fun p => Str.mem (NodeCommitParent.parent_id p) frontier) edges)) in
      let fresh := filter (fun c => negb (Str.mem c seen)) reached in
      match fresh with
      | [] => seen
      | _ :: _ => first_parent_walk fuel' edges fresh (seen ++ fresh)%list
      end
  end.

(** [LEFT JOIN github_node_commit cc ON p.child_id = cc.id]: the commit's
    [(id, committed_date)], or NULLs when the commit is not in the table. *)
Definition left_join_commit (db : MetadataDB) (cid : string)
    : option string * option Z :=
  match find (fun c => String.eqb (NodeCommit.id c) cid) (github_node_commit db) with
  | Some c => (Some (NodeCommit.id c), NodeCommit.committed_date c)
  | None => (None, None)
  end.

Definition _fetch_first_parents (commit_id : string) (db : MetadataDB)
    : list (option string * option Z) :=
  let edges :=
    filter (fun p => NodeCommitParent.index p =? 0) (github_node_commit_parents db) in
  let parents := first_parent_walk (S (List.length edges)) edges [commit_id] [] in
  map (left_join_commit db) parents
  ++ map (fun c => (Some (NodeCommit.id c), NodeCommit.committed_date c))
         (filter (fun c => String.eqb (NodeCommit.id c) commit_id)
                 (github_node_commit db)).

(** [{h for h, cdt in first_parents if time_from <= cdt < time_to}]; the
    comparison of a datetime with [None] raises [TypeError]. *)
Definition first_parents_in_window (time_from time_to : Z)
    (first_parents : list (option string * option Z)) : result (list string) :=
  picked <- mapM (fun hc : option string * option Z =>
                    match snd hc with
                    | None => Raise TypeError
                    | Some cdt =>
                        if (time_from <=? cdt) && (cdt <? time_to)
                        then Ok (match fst hc with Some h => [h] | None => [] end)
                        else Ok []
                    end)
                 first_parents ;;
  Ok (Str.distinct (List.concat picked)).

(** The pull request query of [_fetch_merge_points]. *)
Definition merged_prs_merge_commits (repo branch_name : string)
    (time_from time_to : Z) (db : MetadataDB) : list string :=
  flat_map (fun pr => match PullRequest.merge_commit_id pr with
                      | Some c => [c]
                      | None => []
                      end)
    (filter (fun pr =>
               String.eqb (PullRequest.repository_full_name pr) repo
               && String.eqb (PullRequest.base_ref pr) branch_name
               && between_opt (PullRequest.merged_at pr) time_from time_to
               && is_some (PullRequest.merge_commit_id pr))
            (github_pull_requests db)).

Definition _fetch_merge_points (repo commit_id branch_name : string)
    (time_from time_to : Z) (db : MetadataDB) : result (list string) :=
  let first_parents := _fetch_first_parents commit_id db in
  mp <- first_parents_in_window time_from time_to first_parents ;;
  Ok (Str.distinct (mp ++ merged_prs_merge_commits repo branch_name time_from time_to db)%list).

(** [gh_merge] of [_fetch_merge_commit_releases]. *)
Definition gh_merge (c : PushCommit.t) : bool :=
  opt_is (PushCommit.committer_name c) "GitHub"
  && opt_is (PushCommit.committer_email c) "noreply@github.com".

(** [commits[author_login].where(gh_merge, commits.loc[~gh_merge,
    committer_login], inplace=True)]: [Series.where] keeps the value where
    the condition holds and takes the other one where it does not. *)
Definition release_author (c : PushCommit.t) : option string :=
  if gh_merge c then PushCommit.author_login c else PushCommit.committer_login c.

(** One row of the frame built by [_fetch_merge_commit_releases]. *)
Definition merge_commit_release (repo : string) (c : PushCommit.t) : ReleaseDF.t :=
  {| ReleaseDF.author := release_author c;
     ReleaseDF.commit_id := Some (PushCommit.node_id c);
     ReleaseDF.id := PushCommit.node_id c ++ "_" ++ repo;
     ReleaseDF.name := Some (PushCommit.sha c);
     ReleaseDF.published_at := PushCommit.committed_date c;
     ReleaseDF.repository_full_name := repo;
     ReleaseDF.sha := PushCommit.sha c;
     ReleaseDF.tag := None;
     ReleaseDF.url := PushCommit.url c;
     ReleaseDF.matched_by := Match.branch |}.

(** [ORDER BY commit_date DESC], on the textual column. *)
Definition later_commit_first (a b : PushCommit.t) : bool :=
  String.leb (PushCommit.commit_date b) (PushCommit.commit_date a).

Definition merge_point_commits (merge_points : list string) (db : MetadataDB)
    : list PushCommit.t :=
  sort_by later_commit_first
    (filter (fun c => Str.mem (PushCommit.node_id c) merge_points)
            (github_push_commits db)).

Definition _fetch_merge_commit_releases (repo : string) (merge_points : list string)
    (db : MetadataDB) : list ReleaseDF.t :=
  map (merge_commit_release repo) (merge_point_commits merge_points db).

(** The loop that fills [merge_points_by_repo]: the sets of a repository's
    branches are united under the repository, in order of first appearance. *)
Fixpoint dict_update_set (repo : string) (mp : list string)
    (d : list (string * list string)) : list (string * list string) :=
  match d with
  | [] => [(repo, mp)]
  | (k, s) :: d' =>
      if String.eqb k repo then (k, Str.distinct (s ++ mp)%list) :: d'
      else (k, s) :: dict_update_set repo mp d'
  end.

Definition merge_points_by_repo (tasks : list (string * list string))
    : list (string * list string) :=
  fold_left (fun d rm => dict_update_set (fst rm) (snd rm) d) tasks [].

(** One turn of the loop over [branches.groupby(repository_full_name)]. *)
Definition match_repo_branches (settings : Settings) (branches : list Branch.t)
    (default_branches : list (string * string)) (repo : string)
    : result (list Branch.t) :=
  let repo_branches :=
    filter (fun b => String.eqb (Branch.repository_full_name b) repo) branches in
  v <- dict_item settings (PREFIXES_github ++ repo) ;;
  default_branch <- dict_item default_branches repo ;;
  regexp <- re_compile
              (anchor_at_end
                 (Str.replace default_branch_alias default_branch (branches_of v))) ;;
  Ok (filter (fun b => regexp (Branch.branch_name b)) repo_branches).

Definition _match_releases_by_branch (repos : list string) (time_from time_to : Z)
    (settings : Settings) (db : MetadataDB) : result (list ReleaseDF.t) :=
  let (branches, default_branches) := extract_branches repos db in
  branches_matched <-
    mapM (match_repo_branches settings branches default_branches)
         (groupby_sorted_keys (map Branch.repository_full_name branches)) ;;
  match branches_matched with
  | [] => Ok _dummy_releases_df
  | _ :: _ =>
      let branches_matched := List.concat branches_matched in
      merge_points <-
        mapM (fun b =>
                mp <- _fetch_merge_points (Branch.repository_full_name b)
                        (Branch.commit_id b) (Branch.branch_name b)
                        time_from time_to db ;;
                Ok (Branch.repository_full_name b, mp))
             branches_matched ;;
      let pseudo_releases :=
        map (fun rm : string * list string =>
               _fetch_merge_commit_releases (fst rm) (snd rm) db)
            (merge_points_by_repo merge_points) in
      match pseudo_releases with
      | [] => Ok _dummy_releases_df
      | _ :: _ => Ok (List.concat pseudo_releases)
      end
  end.

(** *** Tag or branch *)

(** The probe of [_match_releases_by_tag_or_branch]: the repositories among
    [repos] with a release published within the lookaround of the window. *)
Definition probe_tagged_repos (repos : list string) (time_from time_to : Z)
    (db : MetadataDB) : list string :=
  Str.distinct
    (map Release.repository_full_name
         (filter (fun r =>
                    Str.mem (Release.repository_full_name r) repos
                    && between (Release.published_at r)
                               (time_from - tag_by_branch_probe_lookaround)
                               (time_to + tag_by_branch_probe_lookaround))
                 (github_releases db))).

(** [set(repos) - set(repos_by_tag)] *)
Definition set_difference (xs ys : list string) : list string :=
  filter (fun x => negb (Str.mem x ys)) (Str.distinct xs).

(** [pd.concat(frames)]; it raises [ValueError] on an empty list. *)
Definition pd_concat {A : Type} (frames : list (list A)) : result (list A) :=
  match frames with
  | [] => Raise (ValueError "No objects to concatenate")
  | _ :: _ => Ok (List.concat frames)
  end.

(** The tasks that are started only [if cond]. *)
Definition when {A : Type} (cond : bool) (task : result A) : result (list A) :=
  if cond then (a <- task ;; Ok [a]) else Ok [].

Definition nonempty {A : Type} (l : list A) : bool :=
  match l with
  | [] => false
  | _ :: _ => true
  end.

Definition _match_releases_by_tag_or_branch (repos : list string)
    (time_from time_to : Z) (settings : Settings) (db : MetadataDB)
    : result (list ReleaseDF.t) :=
  let repos_by_tag := probe_tagged_repos repos time_from time_to db in
  let repos_by_branch := set_difference repos repos_by_tag in
  by_tag <- when (nonempty repos_by_tag)
              (_match_releases_by_tag repos_by_tag time_from time_to settings db) ;;
  by_branch <- when (nonempty repos_by_branch)
                 (_match_releases_by_branch repos_by_branch time_from time_to settings db) ;;
  pd_concat (by_tag ++ by_branch)%list.

(** *** [load_releases] *)

(** The loop of [load_releases] that sorts [repos] into the three lists; a
    repository whose setting has another [match] goes to none of them. *)
Fixpoint partition_repos (settings : Settings) (repos : list string)
    : result (list string * list string * list string) :=
  match repos with
  | [] => Ok ([], [], [])
  | repo :: repos' =>
      v <- dict_item settings (PREFIXES_github ++ repo) ;;
      rest <- partition_repos settings repos' ;;
      let '(repos_by_tag_only, repos_by_tag_or_branch, repos_by_branch) := rest in
      if match_ v =? Match.tag
      then Ok (repo :: repos_by_tag_only, repos_by_tag_or_branch, repos_by_branch)
      else if match_ v =? Match.tag_or_branch
      then Ok (repos_by_tag_only, repo :: repos_by_tag_or_branch, repos_by_branch)
      else if match_ v =? Match.branch
      then Ok (repos_by_tag_only, repos_by_tag_or_branch, repo :: repos_by_branch)
      else Ok (repos_by_tag_only, repos_by_tag_or_branch, repos_by_branch)
  end.

(** [load_releases] called without [index], as [map_prs_to_releases] calls
    it: the frame returned has the positional index.  The cache client is
    handed on to the branch matcher only, for [extract_branches] and the
    cached coroutines; see the conventions. *)
Definition load_releases (repos : list string) (time_from time_to : Z)
    (settings : Settings) (db : MetadataDB) : result (list ReleaseDF.t) :=
  parts <- partition_repos settings repos ;;
  let '(repos_by_tag_only, repos_by_tag_or_branch, repos_by_branch) := parts in
  by_tag <- when (nonempty repos_by_tag_only)
              (_match_releases_by_tag repos_by_tag_only time_from time_to settings db) ;;
  by_tag_or_branch <-
    when (nonempty repos_by_tag_or_branch)
         (_match_releases_by_tag_or_branch repos_by_tag_or_branch
            time_from time_to settings db) ;;
  by_branch <- when (nonempty repos_by_branch)
                 (_match_releases_by_branch repos_by_branch time_from time_to settings db) ;;
  let result := (by_tag ++ by_tag_or_branch ++ by_branch)%list in
  match result with
  | [] => Ok _dummy_releases_df
  | _ :: _ => Ok (List.concat result)
  end.

End Matchers.

(** ** Mapping pull requests to releases *)

(** The frame of merged pull requests given to [map_prs_to_releases]: it is
    read from [PullRequest] with [node_id] as its index, and the function is
    documented to take the merged pull requests, so [merged_at] is there. *)
Module PullRequestDF.
Record t : Type := {
  node_id : string;
  repository_full_name : string;
  merged_at : Z;
  merge_commit_sha : option string
}.
End PullRequestDF.

(** A row of [_new_map_df]: the index [pull_request_node_id] and the columns
    [published_at], [author], [url], [repository_full_name], [matched_by]. *)
Module PRRelease.
Record t : Type := {
  pull_request_node_id : string;
  published_at : Z;
  author : option string;
  url : option string;
  repository_full_name : string;
  matched_by : Z
}.
End PRRelease.

(** [_new_map_df()]: the columns above and no row. *)
Definition _new_map_df : list PRRelease.t := [].

(** What [_cache_pr_releases] marshals under a key. *)
Record CachedRelease : Type := {
  cached_released_at : Z;
  cached_released_by : option string;
  cached_release_url : option string;
  cached_repo : string;
  cached_matched_by : Z
}.

(** The accesses to the stores that [map_prs_to_releases] awaits. *)
Inductive Event : Type :=
| LoadReleases (repos : list string) (time_from time_to : Z) (settings : Settings)
| FetchReleaseHistories (repos : list string)
| CacheMultiGet (keys : list string)
| CacheSet (key : string) (value : CachedRelease).

(** The log of accesses, oldest first, and the content of the shared cache. *)
Record World : Type := {
  trace : list Event;
  memcached : list (string * CachedRelease)
}.

Definition M (A : Type) : Type := World -> result A * World.

Definition ret {A : Type} (a : A) : M A := fun w => (Ok a, w).

Definition bindM {A B : Type} (c : M A) (k : A -> M B) : M B :=
  fun w =>
    match c w with
    | (Ok a, w') => k a w'
    | (Raise e, w') => (Raise e, w')
    end.

Notation "x <~ c ;; k" := (bindM c (fun x => k))
  (at level 61, c at next level, right associativity).

Definition lift {A : Type} (r : result A) : M A := fun w => (r, w).

Definition emit (e : Event) : M unit :=
  fun w => (Ok tt, {| trace := (trace w ++ [e])%list; memcached := memcached w |}).

Definition cache_set (key : string) (value : CachedRelease) : M unit :=
  fun w => (Ok tt, {| trace := (trace w ++ [CacheSet key value])%list;
                      memcached := (key, value) :: memcached w |}).

Definition cache_multi_get (keys : list string) : M (list (option CachedRelease)) :=
  fun w => (Ok (map (fun k => dict_get k (memcached w)) keys),
            {| trace := (trace w ++ [CacheMultiGet keys])%list;
               memcached := memcached w |}).

Fixpoint forM {A B : Type} (f : A -> M B) (xs : list A) : M (list B) :=
  match xs with
  | [] => ret []
  | x :: xs' =>
      y <~ f x ;;
      ys <~ forM f xs' ;;
      ret (y :: ys)
  end.

(** [groupby(enumerate(keys), lambda ik: ik[0] // batch_size)]: consecutive
    batches of [batch_size] keys. *)
Fixpoint batches_from {A : Type} (fuel batch_size : nat) (l : list A) : list (list A) :=
  match fuel, l with
  | _, [] => []
  | O, _ :: _ => [l]
  | S fuel', _ :: _ => firstn batch_size l :: batches_from fuel' batch_size (skipn batch_size l)
  end.

Definition batches {A : Type} (batch_size : nat) (l : list A) : list (list A) :=
  batches_from (List.length l) batch_size l.

(** [releases.groupby(repository_full_name, sort=False)] on the frame with
    its positional index: the rows of [repo], with their labels. *)
Definition releases_of_repo (releases : list (Z * ReleaseDF.t)) (repo : string)
    : list (Z * ReleaseDF.t) :=
  filter (fun ir => String.eqb (ReleaseDF.repository_full_name (snd ir)) repo) releases.

Definition group_releases (releases : list ReleaseDF.t)
    : list (string * list (Z * ReleaseDF.t)) :=
  let indexed := enumerate_from 0 releases in
  map (fun repo => (repo, releases_of_repo indexed repo))
      (groupby_keys (map ReleaseDF.repository_full_name releases)).

(** [_extract_matched_bys_from_releases]: for every repository of the frame,
    [matched_by] of the first of its rows. *)
Definition _extract_matched_bys_from_releases (releases : list ReleaseDF.t)
    : list (string * Z) :=
  flat_map (fun repo =>
              match filter (fun r => String.eqb (ReleaseDF.repository_full_name r) repo)
                           releases with
              | r :: _ => [(repo, matched_by_column r)]
              | [] => []
              end)
           (groupby_keys (map ReleaseDF.repository_full_name releases)).

(** [matched_bys.get(k.split("/", 1)[1], setting.match)] wrapped in [Match]. *)
Definition consistent_setting (matched_bys : list (string * Z))
    (item : string * ReleaseMatchSetting) : result (string * ReleaseMatchSetting) :=
  let (k, setting) := item in
  repo <- Str.after_first "/" k ;;
  m <- Match.of_value (match dict_get repo matched_bys with
                       | Some by_ => by_
                       | None => match_ setting
                       end) ;;
  Ok (k, {| tags := tags setting; branches_of := branches_of setting; match_ := m |}).

Definition consistent_release_settings (release_settings : Settings)
    (matched_bys : list (string * Z)) : result Settings :=
  mapM (consistent_setting matched_bys) release_settings.

(** [prs[merged_at].min() - timedelta(minutes=1)] on a frame with a row. *)
Definition earliest_merge_of (pr : PullRequestDF.t) (prs : list PullRequestDF.t) : Z :=
  fold_left Z.min (map PullRequestDF.merged_at prs) (PullRequestDF.merged_at pr) - 60.

Section Mapper.

Variable re_compile : string -> result (string -> bool).

(** [gen_cache_key] of [athenian.api.cache], which is not among the sources:
    the key made of a format, a pull request and its setting. *)
Variable gen_cache_key : string -> string -> ReleaseMatchSetting -> string.

(** The precomputed store, read and written by the commit history fetch. *)
Variable PrecomputedDB : Type.

(** [_fetch_release_histories]: for every repository of the grouped releases
    the history of its commits, of which [_map_prs_to_releases] reads
    [history[sha][0]], the index of the release that owns the commit ([-1]
    when no release does; [None] here when [sha] is not a key).  Ownership is
    computed by [update_history] of [release_accelerated], which is not among
    the sources, over the DAG of [_fetch_commit_history_dag]. *)
Variable _fetch_release_histories :
  MetadataDB -> PrecomputedDB -> list (string * list (Z * ReleaseDF.t)) ->
  result (list (string * (string -> option Z))).

Variable mdb : MetadataDB.
Variable pdb : PrecomputedDB.

Definition _gen_released_pr_cache_key (pr_id repo : string)
    (release_settings : Settings) : result string :=
  setting <- dict_item release_settings (PREFIXES_github ++ repo) ;;
  Ok (gen_cache_key "release_github|6|%s|%s" pr_id setting).

(** The records that [_load_pr_releases_from_cache] builds; the index of a
    record is the cache key, as in the source. *)
Definition _load_pr_releases_from_cache (prs : list (string * string))
    (matched_bys : list (string * Z)) (release_settings : Settings)
    : M (list PRRelease.t) :=
  keys <~ lift (mapM (fun pr => _gen_released_pr_cache_key (fst pr) (snd pr)
                                  release_settings) prs) ;;
  vals <~ forM cache_multi_get (batches 32 keys) ;;
  ret (flat_map
         (fun kv : string * option CachedRelease =>
            match snd kv with
            | None => []
            | Some v =>
                let by_ := cached_matched_by v in
                let expected := match dict_get (cached_repo v) matched_bys with
                                | Some m => m
                                | None => by_
                                end in
                if negb (by_ =? expected) then []
                else [{| PRRelease.pull_request_node_id := fst kv;
                         PRRelease.published_at := cached_released_at v;
                         PRRelease.author := cached_released_by v;
                         PRRelease.url := cached_release_url v;
                         PRRelease.repository_full_name := cached_repo v;
                         PRRelease.matched_by := by_ |}]
            end)
         (combine keys (List.concat vals))).

Definition _cache_pr_releases (releases : list PRRelease.t)
    (release_settings : Settings) : M unit :=
  _ <~ forM (fun r =>
               key <~ lift (_gen_released_pr_cache_key
                              (PRRelease.pull_request_node_id r)
                              (PRRelease.repository_full_name r) release_settings) ;;
               cache_set key
                 {| cached_released_at := PRRelease.published_at r;
                    cached_released_by := PRRelease.author r;
                    cached_release_url := PRRelease.url r;
                    cached_repo := PRRelease.repository_full_name r;
                    cached_matched_by := PRRelease.matched_by r |})
            releases ;;
  ret tt.

(** [repo_releases.xs(ri)] *)
Definition xs (repo_releases : list (Z * ReleaseDF.t)) (ri : Z) : result ReleaseDF.t :=
  match find (fun ir => fst ir =? ri) repo_releases with
  | Some ir => Ok (snd ir)
  | None => Raise (KeyError "xs")
  end.

(** The body of the inner loop of [_map_prs_to_releases] for one pull
    request of [repo]: the tuple appended to [released_prs], if any. *)
Definition released_pr (repo : string) (repo_releases : list (Z * ReleaseDF.t))
    (history : string -> option Z) (pr : PullRequestDF.t)
    : result (list PRRelease.t) :=
  match PullRequestDF.merge_commit_sha pr with
  | None => Ok []
  | Some merge_sha =>
      match history merge_sha with
      | None => Ok []
      | Some ri =>
          if ri <? 0 then Ok []
          else
            r <- xs repo_releases ri ;;
            Ok [{| PRRelease.pull_request_node_id := PullRequestDF.node_id pr;
                   PRRelease.published_at := ReleaseDF.published_at r;
                   PRRelease.author := ReleaseDF.author r;
                   PRRelease.url := ReleaseDF.url r;
                   PRRelease.repository_full_name := repo;
                   PRRelease.matched_by := matched_by_column r |}]
      end
  end.

(** The outer loop, over [prs.groupby(repository_full_name, sort=False)]. *)
Definition released_prs_of_repo (prs : list PullRequestDF.t)
    (releases : list (string * list (Z * ReleaseDF.t)))
    (histories : list (string * (string -> option Z))) (repo : string)
    : result (list PRRelease.t) :=
  match dict_get repo releases, dict_get repo histories with
  | Some repo_releases, Some history =>
      let repo_prs :=
        filter (fun pr => String.eqb (PullRequestDF.repository_full_name pr) repo) prs in
      found <- mapM (released_pr repo repo_releases history) repo_prs ;;
      Ok (List.concat found)
  | _, _ => Ok []
  end.

(** [prs.loc[index, merged_at]] for one label of the index. *)
Definition merged_at_loc (prs : list PullRequestDF.t) (node_id : string) : result Z :=
  match find (fun pr => String.eqb (PullRequestDF.node_id pr) node_id) prs with
  | Some pr => Ok (PullRequestDF.merged_at pr)
  | None => Raise (KeyError node_id)
  end.

(** [released_prs[published_at] = np.maximum(released_prs[published_at],
    prs.loc[released_prs.index, merged_at])], row by row. *)
Definition clamp_published_at (prs : list PullRequestDF.t) (row : PRRelease.t)
    : result PRRelease.t :=
  merged_at <- merged_at_loc prs (PRRelease.pull_request_node_id row) ;;
  Ok {| PRRelease.pull_request_node_id := PRRelease.pull_request_node_id row;
        PRRelease.published_at := Z.max (PRRelease.published_at row) merged_at;
        PRRelease.author := PRRelease.author row;
        PRRelease.url := PRRelease.url row;
        PRRelease.repository_full_name := PRRelease.repository_full_name row;
        PRRelease.matched_by := PRRelease.matched_by row |}.

Definition _map_prs_to_releases (prs : list PullRequestDF.t)
    (releases : list ReleaseDF.t) : M (list PRRelease.t) :=
  let releases := group_releases releases in
  _ <~ emit (FetchReleaseHistories (map fst releases)) ;;
  histories <~ lift (_fetch_release_histories mdb pdb releases) ;;
  released_prs <~
    lift (mapM (released_prs_of_repo prs releases histories)
               (groupby_keys (map PullRequestDF.repository_full_name prs))) ;;
  lift (mapM (clamp_published_at prs) (List.concat released_prs)).

(** An awaited [load_releases]. *)
Definition await_load_releases (repos : list string) (time_from time_to : Z)
    (settings : Settings) : M (list ReleaseDF.t) :=
  _ <~ emit (LoadReleases repos time_from time_to settings) ;;
  lift (load_releases re_compile repos time_from time_to settings mdb).

(** The branch on [earliest_merge >= time_from] of [map_prs_to_releases]:
    one load, or the load of the window followed by the load of the past
    under the settings made consistent with it. *)
Definition load_releases_around (repos : list string)
    (earliest_merge time_from time_to : Z) (release_settings : Settings)
    : M (list ReleaseDF.t) :=
  if earliest_merge >=? time_from
  then await_load_releases repos earliest_merge time_to release_settings
  else
    releases_new <~ await_load_releases repos time_from time_to release_settings ;;
    let matched_bys := _extract_matched_bys_from_releases releases_new in
    consistent <~ lift (consistent_release_settings release_settings matched_bys) ;;
    releases_old <~ await_load_releases repos earliest_merge time_from consistent ;;
    ret (releases_new ++ releases_old)%list.

(** What [map_prs_to_releases] does once the releases are loaded.  [cache]
    says whether a cache client was given ([cache is not None]).  The frame
    read from the cache is appended with [pr_releases.append(...)], which
    returns a new frame and leaves [pr_releases] as it was: the frame read is
    dropped. *)
Definition map_loaded_releases (prs : list PullRequestDF.t)
    (releases : list ReleaseDF.t) (release_settings : Settings) (cache : bool)
    : M (list PRRelease.t) :=
  let pr_releases := _new_map_df in
  _ <~ (if cache
        then _load_pr_releases_from_cache
               (map (fun p => (PullRequestDF.node_id p,
                               PullRequestDF.repository_full_name p)) prs)
               (_extract_matched_bys_from_releases releases) release_settings
        else ret []) ;;
  let merged_prs :=
    filter (fun p => negb (Str.mem (PullRequestDF.node_id p)
                             (map PRRelease.pull_request_node_id pr_releases)))
           prs in
  missed_releases <~ _map_prs_to_releases merged_prs releases ;;
  _ <~ (if cache then _cache_pr_releases missed_releases release_settings else ret tt) ;;
  ret (pr_releases ++ missed_releases)%list.

Definition map_prs_to_releases (prs : list PullRequestDF.t) (time_from time_to : Z)
    (release_settings : Settings) (cache : bool) : M (list PRRelease.t) :=
  match prs with
  | [] => ret _new_map_df
  | pr :: _ =>
      let repos := Str.distinct (map PullRequestDF.repository_full_name prs) in
      let earliest_merge := earliest_merge_of pr prs in
      releases <~ load_releases_around repos earliest_merge time_from time_to
                    release_settings ;;
      map_loaded_releases prs releases release_settings cache
  end.

End Mapper.

(** ** Queries of the pull request table *)

(** [PullRequest.hidden.is_(False)]: [hidden IS false], which a NULL does
    not satisfy either. *)
Definition hidden_is_false (pr : PullRequest.t) : bool :=
  match PullRequest.hidden pr with
  | Some false => true
  | _ => false
  end.

(** [column.in_(values)] on a nullable column. *)
Definition opt_in (o : option string) (values : list string) : bool :=
  match o with
  | Some x => Str.mem x values
  | None => false
  end.

Definition lt_opt (x : option Z) (bound : Z) : bool :=
  match x with
  | Some v => v <? bound
  | None => false
  end.

(** The rows selected by [_find_old_released_prs], given the commits
    observed by [_extract_released_commits] and the repository of the
    releases. *)
Definition _find_old_released_prs (observed_commits : list string) (repo : string)
    (time_boundary : Z) (authors mergers : list string)
    (pr_blacklist : option (PullRequest.t -> bool)) (mdb : MetadataDB)
    : list PullRequest.t :=
  let filters : list (PullRequest.t -> bool) :=
    [ (fun pr => lt_opt (PullRequest.merged_at pr) time_boundary);
      (fun pr => String.eqb (PullRequest.repository_full_name pr) repo);
      (fun pr => opt_in (PullRequest.merge_commit_sha pr) observed_commits);
      hidden_is_false ] in
  let filters :=
    if nonempty authors && nonempty mergers
    then (filters ++ [fun pr => opt_in (PullRequest.user_login pr) authors
                                || opt_in (PullRequest.merged_by_login pr) mergers])%list
    else if nonempty authors
    then (filters ++ [fun pr => opt_in (PullRequest.user_login pr) authors])%list
    else if nonempty mergers
    then (filters ++ [fun pr => opt_in (PullRequest.merged_by_login pr) mergers])%list
    else filters in
  let filters :=
    match pr_blacklist with
    | Some blacklist => (filters ++ [blacklist])%list
    | None => filters
    end in
  filter (fun pr => forallb (fun f => f pr) filters) (github_pull_requests mdb).

(** The rows that [fetch_prs] of [_mine_contributors] groups and counts. *)
Definition fetch_prs_rows (repos : list string) (time_from time_to : Z)
    (db : MetadataDB) : list PullRequest.t :=
  filter (fun pr =>
            Str.mem (PullRequest.repository_full_name pr) repos
            && hidden_is_false pr
            && (between_opt (PullRequest.created_at pr) time_from time_to
                || (lt_opt (PullRequest.created_at pr) time_to
                    && negb (is_some (PullRequest.closed_at pr)))
                || between_opt (PullRequest.closed_at pr) time_from time_to
                || between_opt (PullRequest.updated_at pr) time_from time_to))
         (github_pull_requests db).

Definition same_login (a b : option string) : bool :=
  match a, b with
  | Some x, Some y => String.eqb x y
  | None, None => true
  | _, _ => false
  end.

Fixpoint logins (rows : list PullRequest.t) : list (option string) :=
  match rows with
  | [] => []
  | pr :: rows' =>
      PullRequest.user_login pr
        :: filter (fun l => negb (same_login l (PullRequest.user_login pr))) (logins rows')
  end.

(** [SELECT user_login, count(user_login) ... GROUP BY user_login]:
    [count] counts the rows whose login is not NULL. *)
Definition fetch_prs (repos : list string) (time_from time_to : Z)
    (db : MetadataDB) : list (option string * nat) :=
  let rows := fetch_prs_rows repos time_from time_to db in
  map (fun login =>
         (login,
          List.length
            (filter (fun pr => is_some (PullRequest.user_login pr)
                               && same_login (PullRequest.user_login pr) login)
                    rows)))
      (logins rows).

(** ** The flow ratio ([FlowRatioCalculator]) *)

(** [Metric] of [athenian.api.controllers.features.metric]: the tuple
    [(exists, value, confidence_min, confidence_max)]. *)
Module Metric.
Record t (T : Type) : Type := {
  exists_ : bool;
  value : option T;
  confidence_min : option T;
  confidence_max : option T
}.
Arguments Build_t {T} _ _ _ _.
Arguments exists_ {T} _.
Arguments value {T} _.
Arguments confidence_min {T} _.
Arguments confidence_max {T} _.
End Metric.

(** A Python [float] is an IEEE-754 double: 53 bits of precision and the
    exponents of binary64, as [SpecFloat] of the Standard Library specifies
    them. *)
Module Double.

Definition prec : Z := 53.
Definition emax : Z := 1024.

Definition t : Type := SpecFloat.spec_float.

(** The double nearest to an integer; the integers below [2 ^ 53] in
    absolute value are doubles. *)
Definition of_int (n : Z) : t := SpecFloat.binary_normalize prec emax n 0 false.

(** [a / b] on two integers: the quotient of the two numbers as doubles,
    rounded to the nearest double (to even on a tie); dividing by zero
    raises.  Below [2 ^ 53] in absolute value both integers are doubles, and
    the result is the double nearest to the exact quotient, for integers of
    Python as for those of numpy. *)
Definition truediv (a b : Z) : result t :=
  if b =? 0 then Raise ZeroDivisionError
  else Ok (SpecFloat.SFdiv prec emax (of_int a) (of_int b)).

(** The rational number that a finite double is. *)
Definition to_Q (f : t) : option Q :=
  match f with
  | SpecFloat.S754_zero _ => Some 0%Q
  | SpecFloat.S754_finite s m e =>
      let n := if s then Z.neg m else Z.pos m in
      Some (if 0 <=? e then inject_Z (n * 2 ^ e)
            else (n # Pos.pow 2 (Z.to_pos (- e)))%Q)
  | _ => None
  end.

End Double.

(** The classes [isinstance] tells apart in [FlowRatioCalculator.__init__]. *)
Inductive CalculatorClass : Type :=
| OpenedCalculator
| ClosedCalculator.

(** A dependency of the calculator: its class and its [value] for the bin
    and group at hand, a sum of ones. *)
Record MetricCalculator : Type := {
  class_ : CalculatorClass;
  calc_value : Metric.t Z
}.

Module FlowRatioCalculator.

Record t : Type := {
  _opened : MetricCalculator;
  _closed : MetricCalculator
}.

Definition isinstance_opened (c : MetricCalculator) : bool :=
  match class_ c with
  | OpenedCalculator => true
  | ClosedCalculator => false
  end.

(** [__init__] applied to the dependencies, which the constructor of
    [MetricCalculator] keeps in [self._calcs] in the order given: the two of
    them, put in the order opened, closed. *)
Definition __init__ (deps : list MetricCalculator) : result t :=
  match deps with
  | [a; b] =>
      if isinstance_opened b
      then Ok {| _opened := b; _closed := a |}
      else Ok {| _opened := a; _closed := b |}
  | [] | [_] => Raise IndexError
  | _ => Raise (ValueError "too many values to unpack")
  end.

(** [x or 0] on an optional integer. *)
Definition or_0 (x : option Z) : Z :=
  match x with
  | Some v => v
  | None => 0
  end.

(** [_value]; the true division of the two integers gives a [float]. *)
Definition _value (self : t) : result (Metric.t Double.t) :=
  let opened := calc_value (_opened self) in
  let closed := calc_value (_closed self) in
  if negb (Metric.exists_ closed) && negb (Metric.exists_ opened)
  then Ok (Metric.Build_t false None None None)
  else
    val <- Double.truediv (or_0 (Metric.value opened) + 1)
                          (or_0 (Metric.value closed) + 1) ;;
    Ok (Metric.Build_t true (Some val) None None).

End FlowRatioCalculator.

(** ** A matcher and a store to run the definitions on *)

(** A compiled pattern for the two shapes of pattern used in the runs
    below: [.*$] matches every string, and [text$] matches [text] only. *)
Definition re_literal (pattern : string) : result (string -> bool) :=
  if String.eqb pattern ".*$" then Ok (fun _ => true)
  else Ok (fun s => String.eqb (s ++ "$") pattern).

Definition example_gen_cache_key (fmt pr_id : string) (setting : ReleaseMatchSetting)
    : string :=
  fmt ++ "|" ++ pr_id ++ "|" ++ tags setting ++ "|" ++ branches_of setting.

Module Example.

Definition release (id_ repo tag_ sha_ : string) (published : Z)
    (commit : option string) : Release.t :=
  {| Release.id := id_; Release.repository_full_name := repo;
     Release.author := "mcuadros"; Release.name := None;
     Release.published_at := published; Release.tag := Some tag_;
     Release.url := None; Release.sha := sha_; Release.commit_id := commit |}.

Definition push_commit (node sha_ : string) (committed : Z) (text_date : string)
    (author_ committer committer_name_ committer_email_ : option string)
    : PushCommit.t :=
  {| PushCommit.node_id := node; PushCommit.repository_full_name := "r";
     PushCommit.sha := sha_; PushCommit.url := None;
     PushCommit.author_login := author_; PushCommit.committer_login := committer;
     PushCommit.committer_name := committer_name_;
     PushCommit.committer_email := committer_email_;
     PushCommit.commit_date := text_date; PushCommit.committed_date := committed |}.

Definition node_commit (node sha_ : string) (committed : Z) : NodeCommit.t :=
  {| NodeCommit.id := node; NodeCommit.oid := sha_;
     NodeCommit.committed_date := Some committed |}.

Definition first_parent (later earlier : string) : NodeCommitParent.t :=
  {| NodeCommitParent.parent_id := later; NodeCommitParent.child_id := earlier;
     NodeCommitParent.index := 0 |}.

Definition pull_request (node base : string) (merged : Z) (merge_commit : string)
    (hidden_ : bool) : PullRequest.t :=
  {| PullRequest.node_id := node; PullRequest.repository_full_name := "r";
     PullRequest.user_login := Some "alice"; PullRequest.merged_by_login := Some "bob";
     PullRequest.created_at := Some (merged - 50); PullRequest.updated_at := Some merged;
     PullRequest.closed_at := Some merged; PullRequest.merged_at := Some merged;
     PullRequest.merge_commit_id := Some merge_commit;
     PullRequest.merge_commit_sha := Some ("sha-" ++ merge_commit);
     PullRequest.base_ref := base; PullRequest.hidden := Some hidden_ |}.

(** The repository [r] of the end-to-end scenarios of the specification:
    four commits in a line, the last two merged by pull requests, tagged
    [v1.0] and [v1.1]; a third tag is published at the instant 500. *)
Definition db : MetadataDB :=
  {| github_releases :=
       [ release "1" "r" "v1.0" "s3" 350 (Some "n3");
         release "2" "r" "v1.1" "s4" 450 (Some "n4");
         release "3" "r" "v1.2" "s4" 500 (Some "n4") ];
     github_push_commits :=
       [ push_commit "n3" "s3" 300 "1970-01-01T00:05:00Z" (Some "alice")
           (Some "web-flow") (Some "GitHub") (Some "noreply@github.com");
         push_commit "n4" "s4" 400 "1970-01-01T00:06:40Z" (Some "alice")
           (Some "bob") (Some "Bob") (Some "bob@example.com") ];
     github_pull_requests := [];
     github_branches :=
       [ {| Branch.repository_full_name := "r"; Branch.branch_name := "master";
            Branch.is_default := true; Branch.commit_id := "n4";
            Branch.commit_sha := "s4" |} ];
     github_node_commit :=
       [ node_commit "n1" "s1" 100; node_commit "n2" "s2" 200;
         node_commit "n3" "s3" 300; node_commit "n4" "s4" 400 ];
     github_node_commit_parents :=
       [ first_parent "n4" "n3"; first_parent "n3" "n2"; first_parent "n2" "n1" ] |}.

Definition settings (kind : Z) : Settings :=
  [ ("github.com/r",
     {| branches_of := "{{default}}"; tags := ".*"; match_ := kind |}) ].

Definition pr1 : PullRequestDF.t :=
  {| PullRequestDF.node_id := "PR1"; PullRequestDF.repository_full_name := "r";
     PullRequestDF.merged_at := 300; PullRequestDF.merge_commit_sha := Some "s3" |}.

Definition pr2 : PullRequestDF.t :=
  {| PullRequestDF.node_id := "PR2"; PullRequestDF.repository_full_name := "r";
     PullRequestDF.merged_at := 400; PullRequestDF.merge_commit_sha := Some "s4" |}.

(** A pull request recorded as merged at 360 by the commit [s3], which the
    release [v1.0] published at 350 contains. *)
Definition pr3 : PullRequestDF.t :=
  {| PullRequestDF.node_id := "PR3"; PullRequestDF.repository_full_name := "r";
     PullRequestDF.merged_at := 360; PullRequestDF.merge_commit_sha := Some "s3" |}.

(** A history in which a commit belongs to the first release, in the order
    of the frame, whose [sha] it is. *)
Definition fetch_release_histories (_ : MetadataDB) (_ : unit)
    (releases : list (string * list (Z * ReleaseDF.t)))
    : result (list (string * (string -> option Z))) :=
  Ok (map (fun g : string * list (Z * ReleaseDF.t) =>
             (fst g,
              fun sha_ =>
                match find (fun ir => String.eqb (ReleaseDF.sha (snd ir)) sha_) (snd g) with
                | Some ir => Some (fst ir)
                | None => Some (-1)
                end))
          releases).

Definition world : World := {| trace := []; memcached := [] |}.

(** The store with one more pull request, hidden, merged into [master] at
    the instant 420 by the commit [n5]. *)
Definition db_hidden : MetadataDB :=
  {| github_releases := github_releases db;
     github_push_commits :=
       (github_push_commits db ++
        [ push_commit "n5" "s5" 420 "1970-01-01T00:07:00Z" (Some "carol")
            (Some "web-flow") (Some "GitHub") (Some "noreply@github.com") ])%list;
     github_pull_requests := [ pull_request "PR9" "master" 420 "n5" true ];
     github_branches := github_branches db;
     github_node_commit := github_node_commit db;
     github_node_commit_parents := github_node_commit_parents db |}.

End Example.

(** ** The words of the specification, for comparison *)

(** What the specification says of the author of a pseudo-release: the
    login of the author of the commit, and that of its committer when the
    committer is the bot of GitHub. *)
Definition author_as_specified (c : PushCommit.t) : option string :=
  if gh_merge c then PushCommit.committer_login c else PushCommit.author_login c.


(** Whether the setting of [repo] has the match kind [kind]. *)
Definition has_match (settings : Settings) (kind : Z) (repo : string) : bool :=
  match dict_get (PREFIXES_github ++ repo) settings with
  | Some v => match_ v =? kind
  | None => false
  end.

(** Whether the setting of [repo] has one of the three match kinds. *)
Definition known_match (settings : Settings) (repo : string) : bool :=
  match dict_get (PREFIXES_github ++ repo) settings with
  | Some v => Match.is_member (match_ v)
  | None => false
  end.



(** "Whose tag matches": the row has a tag and the pattern matches it. *)
Definition matches_tag (regexp : string -> bool) (d : Release.t) : bool :=
  match Release.tag d with
  | Some t => regexp t
  | None => false
  end.



Definition is_load_releases (e : Event) : bool :=
  match e with
  | LoadReleases _ _ _ _ => true
  | _ => false
  end.


(** The events that a computation adds to the log all satisfy [P]. *)
Definition emits {A : Type} (P : Event -> Prop) (c : M A) : Prop :=
  forall w r w', c w = (r, w') ->
                 exists l, trace w' = (trace w ++ l)%list /\ Forall P l.

Definition not_a_load (e : Event) : Prop := is_load_releases e = false.

(** The store with another table of pull requests. *)
Definition with_pull_requests (db : MetadataDB) (prs : list PullRequest.t)
    : MetadataDB :=
  {| github_releases := github_releases db;
     github_push_commits := github_push_commits db;
     github_pull_requests := prs;
     github_branches := github_branches db;
     github_node_commit := github_node_commit db;
     github_node_commit_parents := github_node_commit_parents db |}.

(** ** The calculators of the pull request metrics *)

(** A row of the facts frame that the calculators analyze: the instants of
    the events of a pull request, [None] for a null (NaT), and its size. *)
Module PullRequestFacts.
Record t : Type := {
  created : option Z;
  work_began : option Z;
  last_commit : option Z;
  first_review_request : option Z;
  first_comment_on_first_review : option Z;
  approved : option Z;
  last_review : option Z;
  merged : option Z;
  closed : option Z;
  released : option Z;
  size : Z
}.
End PullRequestFacts.

(** [(min_time <= x) & (x < max_time)]; a comparison with a null is false. *)
Definition in_range (min_time max_time : Z) (x : option Z) : bool :=
  match x with
  | Some v => (min_time <=? v) && (v <? max_time)
  | None => false
  end.

(** [column >= bound]; false on a null. *)
Definition ge_opt (x : option Z) (bound : Z) : bool :=
  match x with
  | Some v => v >=? bound
  | None => false
  end.

(** The difference of two instants; null when either is. *)
Definition sub_opt (a b : option Z) : option Z :=
  match a, b with
  | Some x, Some y => Some (x - y)
  | _, _ => None
  end.

(** [result[mask] = 1] on an array of [None]: the entry of one row. *)
Definition mark (mask : bool) : option Z := if mask then Some 1 else None.

(** The calculators.  [_analyze] returns an array with one entry per row of
    [facts]; every mask of the source is computed row by row, so the array
    is the map of the entry of a row.  [astype_s] stands for
    [.astype("timedelta64[s]").view(int)] of numpy, applied to a difference
    of instants that may be null. *)
Module pull_request_metrics.

Import PullRequestFacts.

Module WorkInProgressTimeCalculator.

(** [wip_end] of a row before the nulls are dropped: [None] where the array
    holds [None], [Some None] where it holds a null instant. *)
Definition wip_end (f : PullRequestFacts.t) (override_event_time : option Z)
    : option (option Z) :=
  match override_event_time with
  | Some t => Some (Some t)
  | None =>
      if is_some (last_review f) then Some (first_review_request f)
      else if is_some (last_commit f) then Some (last_commit f)
      else match closed f with
           | Some c => Some (Some c)
           | None => None
           end
  end.

(** [_analyze].  The entries of [wip_end] that are not [None] are cast to
    the type of the instants with [astype], which raises [TypeError] when one
    of them is a null instant: that is the entry of a pull request that has
    a last review and no first review request. *)
Definition _analyze (astype_s : option Z -> Z) (facts : list PullRequestFacts.t)
    (min_time max_time : Z) (override_event_time : option Z)
    : result (list (option Z)) :=
  let wip_ends := map (fun f => wip_end f override_event_time) facts in
  if existsb (fun e : option (option Z) =>
                match e with
                | Some None => true
                | _ => false
                end) wip_ends
  then Raise TypeError
  else Ok (map (fun f =>
                  match wip_end f override_event_time with
                  | Some end_ =>
                      if in_range min_time max_time end_
                      then Some (astype_s (sub_opt end_ (work_began f)))
                      else None
                  | None => None
                  end) facts).

End WorkInProgressTimeCalculator.

Module ReviewTimeCalculator.

Definition review_end (f : PullRequestFacts.t) (allow_unclosed : bool)
    (override_event_time : option Z) : option Z :=
  let has_first_review_request := is_some (first_review_request f) in
  match override_event_time with
  | Some t => Some t
  | None =>
      let closed_mask :=
        if allow_unclosed then has_first_review_request
        else is_some (closed f) && has_first_review_request in
      let not_approved_mask := negb (is_some (approved f)) in
      let approved_mask := negb not_approved_mask && closed_mask in
      let last_review_mask :=
        not_approved_mask && is_some (last_review f) && closed_mask in
      let review_end := None in
      let review_end := if approved_mask then approved f else review_end in
      if last_review_mask then last_review f else review_end
  end.

Definition _analyze (astype_s : option Z -> Z) (facts : list PullRequestFacts.t)
    (min_time max_time : Z) (allow_unclosed : bool)
    (override_event_time : option Z) : list (option Z) :=
  map (fun f =>
         let end_ := review_end f allow_unclosed override_event_time in
         if in_range min_time max_time end_
         then Some (astype_s (sub_opt end_ (first_review_request f)))
         else None) facts.

End ReviewTimeCalculator.

Module MergingTimeCalculator.

(** [_analyze(facts, min_time, max_time)]: [override_event_time] is left at
    its default, [None]. *)
Definition _analyze (astype_s : option Z -> Z) (facts : list PullRequestFacts.t)
    (min_time max_time : Z) : list (option Z) :=
  map (fun f =>
         let closed_mask := in_range min_time max_time (closed f) in
         let merge_end := if closed_mask then closed f else None in
         let not_approved_mask := negb (is_some (approved f)) in
         let approved_mask := negb not_approved_mask && closed_mask in
         let not_last_review_mask := negb (is_some (last_review f)) in
         let last_review_mask :=
           not_approved_mask && negb not_last_review_mask && closed_mask in
         let last_commit_mask :=
           not_approved_mask && not_last_review_mask && is_some (last_commit f)
           && closed_mask in
         let result := None in
         let result :=
           if approved_mask then Some (astype_s (sub_opt merge_end (approved f)))
           else result in
         let result :=
           if last_review_mask
           then Some (astype_s (sub_opt merge_end (last_review f)))
           else result in
         if last_commit_mask
         then Some (astype_s (sub_opt merge_end (last_commit f)))
         else result) facts.

End MergingTimeCalculator.

Module ReleaseTimeCalculator.

(** [_analyze(facts, min_time, max_time)]: [override_event_time] is left at
    its default, [None]. *)
Definition _analyze (astype_s : option Z -> Z) (facts : list PullRequestFacts.t)
    (min_time max_time : Z) : list (option Z) :=
  map (fun f =>
         let released_mask := in_range min_time max_time (released f) in
         let release_end := if released_mask then released f else None in
         let result_mask := is_some (merged f) && released_mask in
         if result_mask then Some (astype_s (sub_opt release_end (merged f)))
         else None) facts.

End ReleaseTimeCalculator.

Module LeadTimeCalculator.

Definition _analyze (astype_s : option Z -> Z) (facts : list PullRequestFacts.t)
    (min_time max_time : Z) : list (option Z) :=
  map (fun f =>
         if in_range min_time max_time (released f)
         then Some (astype_s (sub_opt (released f) (work_began f)))
         else None) facts.

End LeadTimeCalculator.

Module CycleTimeCalculator.

(** One turn of the loop of [_analyze]: [peek] is copied where the sum is
    [None] and added where it is not.  When the lengths of the two arrays
    differ, [&] on their masks raises [ValueError], unless one of the arrays
    has one entry, which numpy broadcasts to the length of the other.  The
    indexing by the broadcast mask then raises [IndexError], unless the mask
    is empty (the other array has no entry): an empty mask selects nothing
    of any array, and the sum is left as it is. *)
Definition add_peek (sumval peek : list (option Z)) : result (list (option Z)) :=
  let n := List.length sumval in
  let m := List.length peek in
  if (n =? m)%nat
  then Ok (map (fun sp : option Z * option Z =>
                  match fst sp, snd sp with
                  | None, Some p => Some p
                  | Some s, Some p => Some (s + p)
                  | s, None => s
                  end) (combine sumval peek))
  else if ((n =? 1) && (m =? 0))%nat || ((n =? 0) && (m =? 1))%nat
       then Ok sumval
       else if (n =? 1)%nat || (m =? 1)%nat
            then Raise IndexError
            else Raise (ValueError "operands could not be broadcast together").

Fixpoint add_peeks (sumval : list (option Z)) (peeks : list (list (option Z)))
    : result (list (option Z)) :=
  match peeks with
  | [] => Ok sumval
  | peek :: rest =>
      sumval' <- add_peek sumval peek ;;
      add_peeks sumval' rest
  end.

(** [_analyze]; [peeks] are the [peek] arrays of [self._calcs], in order. *)
Definition _analyze (peeks : list (list (option Z)))
    (facts : list PullRequestFacts.t) : result (list (option Z)) :=
  add_peeks (repeat None (List.length facts)) peeks.

(** The state of the loop of [_value]. *)
Record acc : Type := {
  exists_ : bool;
  ct : Z;
  ct_conf_min : Z;
  ct_conf_max : Z
}.

(** [x += y] where [y] may be [None], which raises. *)
Definition iadd (x : Z) (y : option Z) : result Z :=
  match y with
  | Some v => Ok (x + v)
  | None => Raise TypeError
  end.

Fixpoint _value_loop (a : acc) (vals : list (Metric.t Z)) : result acc :=
  match vals with
  | [] => Ok a
  | val :: rest =>
      if Metric.exists_ val
      then
        ct' <- iadd (ct a) (Metric.value val) ;;
        ct_conf_min' <- iadd (ct_conf_min a) (Metric.confidence_min val) ;;
        ct_conf_max' <- iadd (ct_conf_max a) (Metric.confidence_max val) ;;
        _value_loop {| exists_ := true; ct := ct';
                       ct_conf_min := ct_conf_min';
                       ct_conf_max := ct_conf_max' |} rest
      else _value_loop a rest
  end.

(** [_value]; [vals] are the [value]s of [self._calcs], in order. *)
Definition _value (vals : list (Metric.t Z)) : result (Metric.t Z) :=
  a <- _value_loop {| exists_ := false; ct := 0;
                      ct_conf_min := 0; ct_conf_max := 0 |} vals ;;
  Ok (if exists_ a
      then Metric.Build_t true (Some (ct a)) (Some (ct_conf_min a))
                          (Some (ct_conf_max a))
      else Metric.Build_t false None None None).

End CycleTimeCalculator.

Module AllCounter.

Definition _analyze (facts : list PullRequestFacts.t) (min_time max_time : Z)
    : list (option Z) :=
  map (fun f =>
         let cut_before_released := lt_opt (released f) min_time in
         let cut_before_rejected :=
           lt_opt (closed f) min_time && negb (is_some (merged f)) in
         let cut_after := ge_opt (created f) max_time in
         let cut_old_unreleased :=
           lt_opt (merged f) min_time && negb (is_some (released f)) in
         mark (negb (cut_before_released || cut_before_rejected || cut_after
                     || cut_old_unreleased))) facts.

End AllCounter.

Module WaitFirstReviewTimeCalculator.

Definition _analyze (astype_s : option Z -> Z) (facts : list PullRequestFacts.t)
    (min_time max_time : Z) : list (option Z) :=
  map (fun f =>
         let result_mask :=
           is_some (first_comment_on_first_review f)
           && is_some (first_review_request f) in
         if result_mask
            && in_range min_time max_time (first_comment_on_first_review f)
         then Some (astype_s (sub_opt (first_comment_on_first_review f)
                                      (first_review_request f)))
         else None) facts.

End WaitFirstReviewTimeCalculator.

Module OpenedCalculator.

Definition _analyze (facts : list PullRequestFacts.t) (min_time max_time : Z)
    : list (option Z) :=
  map (fun f => mark (in_range min_time max_time (created f))) facts.

End OpenedCalculator.

Module MergedCalculator.

Definition _analyze (facts : list PullRequestFacts.t) (min_time max_time : Z)
    : list (option Z) :=
  map (fun f => mark (is_some (merged f)
                      && in_range min_time max_time (merged f))) facts.

End MergedCalculator.

Module RejectedCalculator.

Definition _analyze (facts : list PullRequestFacts.t) (min_time max_time : Z)
    : list (option Z) :=
  map (fun f => mark (is_some (closed f) && negb (is_some (merged f))
                      && in_range min_time max_time (closed f))) facts.

End RejectedCalculator.

Module ClosedCalculator.

Definition _analyze (facts : list PullRequestFacts.t) (min_time max_time : Z)
    : list (option Z) :=
  map (fun f => mark (is_some (closed f)
                      && in_range min_time max_time (closed f))) facts.

End ClosedCalculator.

Module ReleasedCalculator.

Definition _analyze (facts : list PullRequestFacts.t) (min_time max_time : Z)
    : list (option Z) :=
  map (fun f => mark (is_some (released f)
                      && in_range min_time max_time (released f))) facts.

End ReleasedCalculator.

Module SizeCalculator.

Definition _shift_log (sample : Z) : Z :=
  if sample >? 0 then sample else sample + 1.

(** [_analyze]; [peek] is the [peek] array of [self._calcs[0]], the
    [AllCounter]. *)
Definition _analyze (peek : list (option Z)) (facts : list PullRequestFacts.t)
    : result (list (option Z)) :=
  if (List.length facts =? List.length peek)%nat
  then Ok (map (fun fp : PullRequestFacts.t * option Z =>
                  match snd fp with
                  | None => None
                  | Some _ => Some (size (fst fp))
                  end) (combine facts peek))
  else Raise IndexError.

End SizeCalculator.

End pull_request_metrics.

(** The number of entries of an array that are not [None]: what a counter
    over the calculator counts. *)
Definition count_marked (a : list (option Z)) : Z :=
  Z.of_nat (List.length (filter is_some a)).

(** The events of a pull request in the order of time: it is created before
    anything else happens to it, merging closes it, and it is released after
    it was merged. *)
Definition le_opt (a b : option Z) : Prop :=
  match a, b with
  | Some x, Some y => x <= y
  | _, _ => True
  end.

Definition chronological (f : PullRequestFacts.t) : Prop :=
  le_opt (PullRequestFacts.created f) (PullRequestFacts.closed f)
  /\ le_opt (PullRequestFacts.created f) (PullRequestFacts.merged f)
  /\ le_opt (PullRequestFacts.created f) (PullRequestFacts.released f)
  /\ le_opt (PullRequestFacts.merged f) (PullRequestFacts.released f)
  /\ (PullRequestFacts.merged f <> None ->
      PullRequestFacts.closed f = PullRequestFacts.merged f)
  /\ (PullRequestFacts.released f <> None -> PullRequestFacts.merged f <> None).

(** Rows of facts to run the calculators on: a pull request merged and not
    released, one closed without merging, and one that went through review
    to a release. *)
Module ExampleFacts.

Definition merged_pr : PullRequestFacts.t :=
  {| PullRequestFacts.created := Some 1;
     PullRequestFacts.work_began := Some 1;
     PullRequestFacts.last_commit := Some 2;
     PullRequestFacts.first_review_request := None;
     PullRequestFacts.first_comment_on_first_review := None;
     PullRequestFacts.approved := None;
     PullRequestFacts.last_review := None;
     PullRequestFacts.merged := Some 5;
     PullRequestFacts.closed := Some 5;
     PullRequestFacts.released := None;
     PullRequestFacts.size := 10 |}.

Definition rejected_pr : PullRequestFacts.t :=
  {| PullRequestFacts.created := Some 2;
     PullRequestFacts.work_began := Some 2;
     PullRequestFacts.last_commit := Some 2;
     PullRequestFacts.first_review_request := None;
     PullRequestFacts.first_comment_on_first_review := None;
     PullRequestFacts.approved := None;
     PullRequestFacts.last_review := None;
     PullRequestFacts.merged := None;
     PullRequestFacts.closed := Some 7;
     PullRequestFacts.released := None;
     PullRequestFacts.size := 3 |}.

Definition released_pr : PullRequestFacts.t :=
  {| PullRequestFacts.created := Some 1;
     PullRequestFacts.work_began := Some 1;
     PullRequestFacts.last_commit := Some 2;
     PullRequestFacts.first_review_request := Some 3;
     PullRequestFacts.first_comment_on_first_review := Some 4;
     PullRequestFacts.approved := Some 6;
     PullRequestFacts.last_review := Some 6;
     PullRequestFacts.merged := Some 8;
     PullRequestFacts.closed := Some 8;
     PullRequestFacts.released := Some 9;
     PullRequestFacts.size := 40 |}.

Definition facts : list PullRequestFacts.t := [merged_pr; rejected_pr; released_pr].

(** A cast for instants that are whole seconds. *)
Definition astype_s (d : option Z) : Z :=
  match d with
  | Some v => v
  | None => - 2 ^ 63
  end.

End ExampleFacts.

(** The sum of the entries of a column that are not [None]; [None] when all
    of them are. *)
Definition present_or_0 (x : option Z) : Z :=
  match x with
  | Some v => v
  | None => 0
  end.

Definition sum_present (column : list (option Z)) : option Z :=
  if existsb is_some column
  then Some (fold_right Z.add 0 (map present_or_0 column))
  else None.

(** The sum of a component of the metrics that exist. *)
Definition sum_existing (component : Metric.t Z -> option Z)
    (vals : list (Metric.t Z)) : Z :=
  fold_right Z.add 0 (map (fun v => present_or_0 (component v))
                          (filter (fun v => Metric.exists_ v) vals)).

(** A pull request that went through every stage in the window: it was
    reviewed on request, approved, merged (which closed it) and released,
    and the request, the approval, the merge and the release fall in the
    window. *)
Definition went_through_all_stages (min_time max_time : Z)
    (f : PullRequestFacts.t) : Prop :=
  PullRequestFacts.work_began f <> None
  /\ PullRequestFacts.last_review f <> None
  /\ PullRequestFacts.closed f = PullRequestFacts.merged f
  /\ in_range min_time max_time (PullRequestFacts.first_review_request f) = true
  /\ in_range min_time max_time (PullRequestFacts.approved f) = true
  /\ in_range min_time max_time (PullRequestFacts.merged f) = true
  /\ in_range min_time max_time (PullRequestFacts.released f) = true.

(** The values of the dependencies that exist carry a value and its
    confidence interval. *)
Definition carries_value (val : Metric.t Z) : Prop :=
  Metric.exists_ val = true ->
  Metric.value val <> None /\ Metric.confidence_min val <> None
  /\ Metric.confidence_max val <> None.


(** "The matched_by that won for the repository in the new load, falling
    back to the configured kind": the kind of the first release of [repo] in
    [releases_new], or that of the configured setting [v]. *)
Definition kind_fixed_by (releases_new : list ReleaseDF.t) (repo : string)
    (v : ReleaseMatchSetting) : Z :=
  match find (fun r => String.eqb (ReleaseDF.repository_full_name r) repo)
             releases_new with
  | Some r => ReleaseDF.matched_by r
  | None => match_ v
  end.

(** A world whose cache holds a release for the pull request [PR1], as
    [_cache_pr_releases] would have written it under the example
    settings. *)
Definition world_with_cached_release : World :=
  {| trace := [];
     memcached :=
       [ (example_gen_cache_key "release_github|6|%s|%s" "PR1"
            {| branches_of := "{{default}}"; tags := ".*"; match_ := Match.tag |},
          {| cached_released_at := 999;
             cached_released_by := Some "zoe";
             cached_release_url := None;
             cached_repo := "r";
             cached_matched_by := Match.tag |}) ] |}.

(** * Properties *)

Unset Implicit Arguments.

(* keys such as [PREFIXES_github ++ repo] stay folded under [simpl] *)
Local Arguments String.append : simpl never.

(** ** Results, loops and lists *)

Lemma bind_Ok {A B : Type} (c : result A) (k : A -> result B) (b : B) :
  bind c k = Ok b -> exists a, c = Ok a /\ k a = Ok b.
Proof.
  destruct c as [a|e]; simpl; intro H; [eauto | discriminate].
Qed.

Lemma mapM_Ok {A B : Type} (f : A -> result B) (xs : list A) (ys : list B) :
  mapM f xs = Ok ys -> Forall2 (fun x y => f x = Ok y) xs ys.
Proof.
  revert ys; induction xs as [|x xs IH]; simpl; intros ys H.
  - injection H as <-; constructor.
  - apply bind_Ok in H as (y & Hy & H).
    apply bind_Ok in H as (ys' & Hys & H).
    injection H as <-; constructor; auto.
Qed.

Lemma mapM_ext_in {A B : Type} (f g : A -> result B) (xs : list A) :
  (forall x, In x xs -> f x = g x) -> mapM f xs = mapM g xs.
Proof.
  induction xs as [|x xs IH]; simpl; intro H; [reflexivity|].
  rewrite (H x) by auto. rewrite IH by auto. reflexivity.
Qed.

Lemma Forall2_concat_In {A B : Type} (R : A -> list B -> Prop)
    (xs : list A) (yss : list (list B)) (y : B) :
  Forall2 R xs yss -> In y (List.concat yss) ->
  exists x ys, In x xs /\ R x ys /\ In y ys.
Proof.
  induction 1 as [|x ys xs yss HR _ IH]; simpl; intro Hin; [contradiction|].
  apply in_app_or in Hin as [Hin|Hin].
  - exists x, ys; auto.
  - destruct (IH Hin) as (x' & ys' & ? & ? & ?); exists x', ys'; auto.
Qed.

Lemma Forall2_In_concat {A B : Type} (R : A -> list B -> Prop)
    (xs : list A) (yss : list (list B)) (x : A) :
  Forall2 R xs yss -> In x xs ->
  exists ys, R x ys /\ forall y, In y ys -> In y (List.concat yss).
Proof.
  induction 1 as [|x' ys xs yss HR _ IH]; simpl; intro Hin; [contradiction|].
  destruct Hin as [<-|Hin].
  - exists ys; split; auto. intros; apply in_or_app; auto.
  - destruct (IH Hin) as (ys' & ? & Hys); exists ys'; split; auto.
    intros; apply in_or_app; auto.
Qed.

Lemma mem_In (x : string) (xs : list string) : Str.mem x xs = true <-> In x xs.
Proof.
  unfold Str.mem. rewrite existsb_exists. split.
  - intros (y & Hy & E). apply String.eqb_eq in E. now subst.
  - intro H. exists x. split; auto. apply String.eqb_refl.
Qed.

Lemma distinct_In (x : string) (xs : list string) : In x (Str.distinct xs) <-> In x xs.
Proof.
  induction xs as [|y xs IH]; simpl; [tauto|].
  rewrite filter_In, IH, negb_true_iff, String.eqb_neq.
  destruct (string_dec y x); intuition congruence.
Qed.

Lemma insert_by_In {A : Type} (before : A -> A -> bool) (x y : A) (l : list A) :
  In y (insert_by before x l) <-> y = x \/ In y l.
Proof.
  induction l as [|z l IH]; simpl; [intuition|].
  destruct (before x z); simpl; rewrite ?IH; intuition.
Qed.

Lemma sort_by_In {A : Type} (before : A -> A -> bool) (y : A) (l : list A) :
  In y (sort_by before l) <-> In y l.
Proof.
  induction l as [|x l IH]; simpl; [tauto|].
  rewrite insert_by_In, IH. intuition.
Qed.

Lemma drop_duplicated_incl {A : Type} (same : A -> A -> bool) (y : A) (l : list A) :
  In y (drop_duplicated same l) -> In y l.
Proof.
  induction l as [|x l IH]; simpl; [tauto|].
  rewrite filter_In. intuition.
Qed.

(** ** Pseudo-releases of merge commits *)

Lemma merge_point_commits_In (merge_points : list string) (db : MetadataDB)
    (c : PushCommit.t) :
  In c (merge_point_commits merge_points db) <->
  In c (github_push_commits db) /\ In (PushCommit.node_id c) merge_points.
Proof.
  unfold merge_point_commits. rewrite sort_by_In, filter_In, mem_In. tauto.
Qed.

Lemma merge_commit_releases_In (repo : string) (merge_points : list string)
    (db : MetadataDB) (r : ReleaseDF.t) :
  In r (_fetch_merge_commit_releases repo merge_points db) <->
  exists c, In c (github_push_commits db)
            /\ In (PushCommit.node_id c) merge_points
            /\ r = merge_commit_release repo c.
Proof.
  unfold _fetch_merge_commit_releases. rewrite in_map_iff. split.
  - intros (c & <- & Hc). apply merge_point_commits_In in Hc. exists c. tauto.
  - intros (c & H1 & H2 & ->). exists c. split; auto.
    apply merge_point_commits_In. tauto.
Qed.

(** C5, as the specification words it, fails: the [id] of a pseudo-release
    is not made of the [sha] of the merge commit.  The commit [n4] of the
    example store has the sha [s4], and its pseudo-release is named [n4_r]. *)
Lemma pseudo_release_id_is_not_sha_based :
  exists r c,
    In r (_fetch_merge_commit_releases "r" ["n4"] Example.db)
    /\ In c (github_push_commits Example.db)
    /\ ReleaseDF.sha r = PushCommit.sha c
    /\ ReleaseDF.id r = "n4_r"
    /\ ReleaseDF.id r <> PushCommit.sha c ++ "_" ++ "r".
Proof.
  eexists; eexists. split; [left; reflexivity|].
  split; [right; left; reflexivity|].
  repeat split; discriminate.
Qed.

(** C5, amended: every row that [_fetch_merge_commit_releases] fabricates
    comes from a merge commit among the merge points, with
    [id = node_id ++ "_" ++ repo] (the node identifier of the commit, not its
    sha), [sha] the sha of the commit, no [tag], [published_at] the
    [committed_date] of the commit and [matched_by = branch]; and every such
    commit yields its row. *)
Theorem pseudo_release_of_merge_commit :
  forall (repo : string) (merge_points : list string) (db : MetadataDB),
    Forall (fun r =>
              exists c, In c (github_push_commits db)
                        /\ In (PushCommit.node_id c) merge_points
                        /\ ReleaseDF.id r = PushCommit.node_id c ++ "_" ++ repo
                        /\ ReleaseDF.commit_id r = Some (PushCommit.node_id c)
                        /\ ReleaseDF.sha r = PushCommit.sha c
                        /\ ReleaseDF.tag r = None
                        /\ ReleaseDF.published_at r = PushCommit.committed_date c
                        /\ ReleaseDF.repository_full_name r = repo
                        /\ ReleaseDF.matched_by r = Match.branch)
           (_fetch_merge_commit_releases repo merge_points db)
    /\ Forall (fun c =>
                 In (PushCommit.node_id c) merge_points ->
                 exists r, In r (_fetch_merge_commit_releases repo merge_points db)
                           /\ ReleaseDF.id r = PushCommit.node_id c ++ "_" ++ repo
                           /\ ReleaseDF.sha r = PushCommit.sha c)
              (github_push_commits db).
Proof.
  intros repo merge_points db. split; apply Forall_forall.
  - intros r Hr. apply merge_commit_releases_In in Hr as (c & H1 & H2 & ->).
    exists c. simpl. repeat split; auto.
  - intros c Hc Hmp. exists (merge_commit_release repo c). split.
    + apply merge_commit_releases_In. exists c. auto.
    + split; reflexivity.
Qed.
(** C6, as the specification words it, fails in both directions.  The
    commit [n3] of the example store was committed by the bot of GitHub
    ([web-flow]) and authored by [alice]: the author of its pseudo-release is
    [alice], not the committer.  The commit [n4] was committed by [bob] and
    authored by [alice]: the author of its pseudo-release is [bob]. *)
Lemma pseudo_release_author_is_not_as_specified :
  exists c3 c4,
    In c3 (github_push_commits Example.db)
    /\ In c4 (github_push_commits Example.db)
    /\ gh_merge c3 = true
    /\ ReleaseDF.author (merge_commit_release "r" c3) = Some "alice"
    /\ author_as_specified c3 = Some "web-flow"
    /\ gh_merge c4 = false
    /\ ReleaseDF.author (merge_commit_release "r" c4) = Some "bob"
    /\ author_as_specified c4 = Some "alice"
    /\ ~ (forall c, ReleaseDF.author (merge_commit_release "r" c) = author_as_specified c).
Proof.
  eexists; eexists. split; [left; reflexivity|].
  split; [right; left; reflexivity|].
  repeat split.
  intro H. specialize (H (Example.push_commit "n4" "s4" 400 "" (Some "alice")
                            (Some "bob") (Some "Bob") (Some "bob@example.com"))).
  discriminate.
Qed.

Lemma gh_merge_true (c : PushCommit.t) :
  gh_merge c = true <->
  PushCommit.committer_name c = Some "GitHub"
  /\ PushCommit.committer_email c = Some "noreply@github.com".
Proof.
  unfold gh_merge, opt_is. rewrite andb_true_iff.
  destruct (PushCommit.committer_name c) as [n|], (PushCommit.committer_email c) as [e|];
    rewrite ?String.eqb_eq; split; intros [H1 H2];
    try discriminate; try (split; congruence).
Qed.

(** C6, amended: the author of a pseudo-release is the login of the
    committer of the merge commit, except when the committer is the bot of
    GitHub (committer name [GitHub], committer email [noreply@github.com]),
    in which case it is the login of the author of the commit. *)
Theorem pseudo_release_author :
  forall (repo : string) (merge_points : list string) (db : MetadataDB),
    Forall (fun r =>
              exists c, In c (github_push_commits db)
                        /\ In (PushCommit.node_id c) merge_points
                        /\ ReleaseDF.commit_id r = Some (PushCommit.node_id c)
                        /\ ((PushCommit.committer_name c = Some "GitHub"
                             /\ PushCommit.committer_email c = Some "noreply@github.com"
                             /\ ReleaseDF.author r = PushCommit.author_login c)
                            \/ (~ (PushCommit.committer_name c = Some "GitHub"
                                   /\ PushCommit.committer_email c
                                      = Some "noreply@github.com")
                                /\ ReleaseDF.author r = PushCommit.committer_login c)))
           (_fetch_merge_commit_releases repo merge_points db).
Proof.
  intros repo merge_points db. apply Forall_forall. intros r Hr.
  apply merge_commit_releases_In in Hr as (c & H1 & H2 & ->).
  exists c. repeat split; auto. simpl. unfold release_author.
  destruct (gh_merge c) eqn:E.
  - left. apply gh_merge_true in E. tauto.
  - right. split; auto. intro H. apply gh_merge_true in H. congruence.
Qed.

(** ** The flow ratio *)

Lemma flow_ratio_init (opened closed : Metric.t Z) :
  let o := {| class_ := OpenedCalculator; calc_value := opened |} in
  let c := {| class_ := ClosedCalculator; calc_value := closed |} in
  FlowRatioCalculator.__init__ [o; c] = FlowRatioCalculator.__init__ [c; o]
  /\ FlowRatioCalculator.__init__ [o; c]
     = Ok {| FlowRatioCalculator._opened := o; FlowRatioCalculator._closed := c |}.
Proof.
  split; reflexivity.
Qed.

(** C7, as the specification words it, fails: the value is a [float], the
    double nearest to the ratio, and not the ratio exactly.  With one pull
    request opened and two closed the flow ratio is
    [6004799503160661 / 2 ^ 53], which Python prints 0.6666666666666666, and
    not 2/3. *)
Lemma flow_ratio_is_not_the_exact_ratio :
  exists self val q,
    FlowRatioCalculator.__init__
      [ {| class_ := OpenedCalculator;
           calc_value := Metric.Build_t true (Some 1) None None |};
        {| class_ := ClosedCalculator;
           calc_value := Metric.Build_t true (Some 2) None None |} ] = Ok self
    /\ FlowRatioCalculator._value self = Ok (Metric.Build_t true (Some val) None None)
    /\ Double.to_Q val = Some q
    /\ q = (6004799503160661 # 9007199254740992)%Q
    /\ ~ (q == inject_Z (1 + 1) / inject_Z (2 + 1))%Q.
Proof.
  eexists; eexists; eexists. split; [reflexivity|].
  split; [vm_compute; reflexivity|]. split; [vm_compute; reflexivity|].
  split; [reflexivity|]. intro H. vm_compute in H. discriminate H.
Qed.

(** C7, amended: built on the opened and closed counters, given in either
    order, the flow ratio of a bin and group exists as soon as one of the two
    counters exists, and is then the quotient of [opened + 1] by
    [closed + 1] as Python's division of two integers gives it, the double
    nearest to the ratio, a counter without a value counting for 0 (the
    counters are sums of ones, so [closed] is not negative, and both are
    taken below [2 ^ 53 - 1], where every integer is a double); when neither
    counter exists, the metric does not exist. *)
Theorem flow_ratio_value :
  forall (opened closed : Metric.t Z) (deps : list MetricCalculator),
    deps = [ {| class_ := OpenedCalculator; calc_value := opened |};
             {| class_ := ClosedCalculator; calc_value := closed |} ]
    \/ deps = [ {| class_ := ClosedCalculator; calc_value := closed |};
                {| class_ := OpenedCalculator; calc_value := opened |} ] ->
    exists self,
      FlowRatioCalculator.__init__ deps = Ok self
      /\ let o := FlowRatioCalculator.or_0 (Metric.value opened) in
         let c := FlowRatioCalculator.or_0 (Metric.value closed) in
         (Metric.exists_ opened = true \/ Metric.exists_ closed = true ->
          Z.abs (o + 1) < 2 ^ 53 ->
          0 <= c < 2 ^ 53 - 1 ->
          FlowRatioCalculator._value self
          = Ok (Metric.Build_t true
                  (Some (SpecFloat.SFdiv Double.prec Double.emax
                           (Double.of_int (o + 1)) (Double.of_int (c + 1))))
                  None None))
         /\ (Metric.exists_ opened = false -> Metric.exists_ closed = false ->
             FlowRatioCalculator._value self = Ok (Metric.Build_t false None None None)).
Proof.
  intros opened closed deps Hdeps.
  exists {| FlowRatioCalculator._opened :=
              {| class_ := OpenedCalculator; calc_value := opened |};
            FlowRatioCalculator._closed :=
              {| class_ := ClosedCalculator; calc_value := closed |} |}.
  split; [destruct Hdeps; subst; reflexivity|].
  cbv zeta. unfold FlowRatioCalculator._value. cbn [calc_value
    FlowRatioCalculator._opened FlowRatioCalculator._closed]. split.
  - intros Hex _ Hc.
    assert (E : negb (Metric.exists_ closed) && negb (Metric.exists_ opened) = false).
    { destruct Hex as [-> | ->]; simpl; [apply andb_false_r | reflexivity]. }
    rewrite E. unfold Double.truediv.
    assert (D : (FlowRatioCalculator.or_0 (Metric.value closed) + 1 =? 0) = false)
      by (apply Z.eqb_neq; lia).
    rewrite D. reflexivity.
  - intros -> ->. reflexivity.
Qed.

(** The flow ratio of a bin with three opened pull requests and no value
    for [closed] is the double 4. *)
Lemma flow_ratio_value_witness :
  exists self q,
    FlowRatioCalculator.__init__
      [ {| class_ := ClosedCalculator;
           calc_value := Metric.Build_t false None None None |};
        {| class_ := OpenedCalculator;
           calc_value := Metric.Build_t true (Some 3) None None |} ] = Ok self
    /\ FlowRatioCalculator._value self
       = Ok (Metric.Build_t true
               (Some (SpecFloat.SFdiv Double.prec Double.emax
                        (Double.of_int 4) (Double.of_int 1)))
               None None)
    /\ Double.to_Q (SpecFloat.SFdiv Double.prec Double.emax
                      (Double.of_int 4) (Double.of_int 1))
       = Some q
    /\ (q == 4)%Q.
Proof.
  destruct (flow_ratio_value (Metric.Build_t true (Some 3) None None)
              (Metric.Build_t false None None None)
              [ {| class_ := ClosedCalculator;
                   calc_value := Metric.Build_t false None None None |};
                {| class_ := OpenedCalculator;
                   calc_value := Metric.Build_t true (Some 3) None None |} ]
              (or_intror eq_refl)) as (self & Hinit & Hval & _).
  exists self. eexists. split; [exact Hinit|].
  split; [apply Hval; [left; reflexivity | simpl; lia | simpl; lia]|].
  split; [vm_compute; reflexivity | reflexivity].
Defined.

(** ** An empty frame of pull requests *)

(** C10: on an empty frame of pull requests, [map_prs_to_releases] returns
    the empty mapping at once: the result has no row, and the world is the
    one it started from, so that no release was loaded, no history fetched
    and the cache neither read nor written. *)
Theorem map_prs_to_releases_empty :
  forall (re_compile : string -> result (string -> bool))
         (gen_cache_key : string -> string -> ReleaseMatchSetting -> string)
         (PrecomputedDB : Type)
         (fetch_histories :
            MetadataDB -> PrecomputedDB -> list (string * list (Z * ReleaseDF.t)) ->
            result (list (string * (string -> option Z))))
         (mdb : MetadataDB) (pdb : PrecomputedDB)
         (time_from time_to : Z) (release_settings : Settings) (cache : bool)
         (w : World),
    map_prs_to_releases re_compile gen_cache_key fetch_histories mdb pdb
      [] time_from time_to release_settings cache w
    = (Ok _new_map_df, w)
    /\ _new_map_df = [].
Proof.
  intros. split; reflexivity.
Qed.

(** ** Tag or branch *)

Lemma probe_tagged_repos_In (repos : list string) (time_from time_to : Z)
    (db : MetadataDB) (repo : string) :
  In repo (probe_tagged_repos repos time_from time_to db) <->
  In repo repos
  /\ exists r, In r (github_releases db)
               /\ Release.repository_full_name r = repo
               /\ time_from - 2419200 <= Release.published_at r <= time_to + 2419200.
Proof.
  unfold probe_tagged_repos. rewrite distinct_In, in_map_iff. split.
  - intros (r & <- & Hr). apply filter_In in Hr as (Hr & Hc).
    apply andb_true_iff in Hc as (Hm & Hb). apply mem_In in Hm.
    unfold between, tag_by_branch_probe_lookaround in Hb.
    apply andb_true_iff in Hb as (H1 & H2).
    split; auto. exists r. repeat split; auto; lia.
  - intros (Hin & r & Hr & <- & H1 & H2). exists r. split; auto.
    apply filter_In. split; auto. apply andb_true_iff. split.
    + now apply mem_In.
    + unfold between, tag_by_branch_probe_lookaround.
      apply andb_true_iff. split; lia.
Qed.

Lemma set_difference_In (xs ys : list string) (x : string) :
  In x (set_difference xs ys) <-> In x xs /\ ~ In x ys.
Proof.
  unfold set_difference. rewrite filter_In, distinct_In, negb_true_iff.
  rewrite <- mem_In with (xs := ys).
  destruct (Str.mem x ys); intuition congruence.
Qed.

(** ** The rows of the matchers *)

Lemma when_Ok {A : Type} (cond : bool) (task : result A) (l : list A) :
  when cond task = Ok l ->
  (cond = false /\ l = []) \/ (cond = true /\ exists a, task = Ok a /\ l = [a]).
Proof.
  unfold when. destruct cond; intro H.
  - right. split; auto. apply bind_Ok in H as (a & Ha & H).
    injection H as <-. eauto.
  - left. injection H as <-. auto.
Qed.

Lemma index_by_mask_Ok (regexp : string -> bool) (rows ys : list Release.t) :
  index_by_mask rows (map (fun r => str_match regexp (Release.tag r)) rows) = Ok ys <->
  Forall (fun r => Release.tag r <> None) rows /\ ys = filter (matches_tag regexp) rows.
Proof.
  unfold index_by_mask.
  assert (Hall : forallb is_some (map (fun r => str_match regexp (Release.tag r)) rows)
                 = true <-> Forall (fun r => Release.tag r <> None) rows).
  { rewrite forallb_forall, Forall_forall. split.
    - intros H r Hr.
      specialize (H _ (in_map (fun r => str_match regexp (Release.tag r)) _ _ Hr)).
      simpl in H. destruct (Release.tag r); [discriminate | discriminate H].
    - intros H o Ho. apply in_map_iff in Ho as (r & <- & Hr).
      specialize (H r Hr). destruct (Release.tag r); [reflexivity | contradiction]. }
  assert (Hrows : map fst (filter (fun rm : Release.t * option bool =>
                                     match snd rm with
                                     | Some b => b
                                     | None => false
                                     end)
                             (combine rows
                                (map (fun r => str_match regexp (Release.tag r)) rows)))
                  = filter (matches_tag regexp) rows).
  { clear. induction rows as [|r rows IH]; simpl; [reflexivity|].
    unfold matches_tag at 1. destruct (Release.tag r) as [t|]; simpl.
    - destruct (regexp t); simpl; now rewrite IH.
    - exact IH. }
  rewrite Hrows.
  destruct (forallb is_some _) eqn:E.
  - split.
    + intro H. injection H as <-. split; [now apply Hall | reflexivity].
    + intros (_ & ->). reflexivity.
  - split; [discriminate|]. intros (H & _). apply Hall in H. discriminate.
Qed.

Lemma match_repo_tags_In (re_compile : string -> result (string -> bool))
    (settings : Settings) (releases : list Release.t) (repo : string)
    (ys : list Release.t) :
  match_repo_tags re_compile settings releases repo = Ok ys ->
  forall d,
    In d ys <->
    In d releases
    /\ Release.repository_full_name d = repo
    /\ exists v regexp,
         dict_get (PREFIXES_github ++ repo) settings = Some v
         /\ re_compile (anchor_at_end (tags v)) = Ok regexp
         /\ matches_tag regexp d = true.
Proof.
  unfold match_repo_tags.
  destruct (filter _ releases) as [|d0 rest] eqn:E; intro H.
  - injection H as <-. intro d. split; [contradiction|].
    intros (Hd & Hr & _).
    assert (Hin : In d (filter (fun r => String.eqb (Release.repository_full_name r) repo)
                          releases))
      by (apply filter_In; split; auto; now apply String.eqb_eq).
    rewrite E in Hin. contradiction.
  - apply bind_Ok in H as (v & Hv & H).
    apply bind_Ok in H as (regexp & Hre & H).
    apply index_by_mask_Ok in H as (_ & Hys).
    subst ys. unfold dict_item in Hv.
    destruct (dict_get (PREFIXES_github ++ repo) settings) as [v'|] eqn:Eg;
      [|discriminate].
    injection Hv as ->. intro d. rewrite filter_In, <- E, filter_In, String.eqb_eq.
    split.
    + intros ((Hd & Hr) & Hm). repeat split; auto. exists v, regexp. auto.
    + intros (Hd & Hr & v' & regexp' & Hv' & Hre' & Hm).
      injection Hv' as <-. rewrite Hre in Hre'. injection Hre' as <-. auto.
Qed.

Lemma fetch_tags_repo (repos : list string) (time_from time_to : Z)
    (db : MetadataDB) (d : Release.t) :
  In d (fetch_tags repos time_from time_to db) ->
  In d (github_releases db)
  /\ In (Release.repository_full_name d) repos
  /\ time_from <= Release.published_at d <= time_to
  /\ Release.commit_id d <> None.
Proof.
  unfold fetch_tags. intro H. apply drop_duplicated_incl in H.
  apply sort_by_In in H. apply filter_In in H as (Hd & Hc).
  apply andb_true_iff in Hc as (Hc & Hcommit).
  apply andb_true_iff in Hc as (Hb & Hm).
  apply mem_In in Hm. unfold between in Hb. apply andb_true_iff in Hb as (H1 & H2).
  repeat split; auto; try lia.
  destruct (Release.commit_id d); [discriminate | discriminate Hcommit].
Qed.

Lemma match_releases_by_tag_In (re_compile : string -> result (string -> bool))
    (repos : list string) (time_from time_to : Z) (settings : Settings)
    (db : MetadataDB) (out : list ReleaseDF.t) :
  _match_releases_by_tag re_compile repos time_from time_to settings db = Ok out ->
  forall x,
    In x out <->
    exists d v regexp,
      x = tag_release d
      /\ In d (fetch_tags repos time_from time_to db)
      /\ In (Release.repository_full_name d) repos
      /\ dict_get (PREFIXES_github ++ Release.repository_full_name d) settings = Some v
      /\ re_compile (anchor_at_end (tags v)) = Ok regexp
      /\ matches_tag regexp d = true.
Proof.
  unfold _match_releases_by_tag. intro H.
  apply bind_Ok in H as (matched & Hm & H). injection H as <-.
  apply mapM_Ok in Hm. intro x. rewrite in_map_iff. split.
  - intros (d & <- & Hd).
    destruct (Forall2_concat_In _ _ _ d Hm Hd) as (repo & ys & Hrepo & Hys & Hin).
    apply (match_repo_tags_In _ _ _ _ _ Hys) in Hin
      as (Hf & Hr & v & regexp & Hv & Hre & Hmatch).
    subst repo. exists d, v, regexp. repeat split; auto.
  - intros (d & v & regexp & -> & Hf & Hrepo & Hv & Hre & Hmatch).
    exists d. split; auto.
    destruct (Forall2_In_concat _ _ _ _ Hm Hrepo) as (ys & Hys & Hincl).
    apply Hincl. apply (match_repo_tags_In _ _ _ _ _ Hys).
    repeat split; auto. exists v, regexp. auto.
Qed.

Lemma match_releases_by_tag_rows (re_compile : string -> result (string -> bool))
    (repos : list string) (time_from time_to : Z) (settings : Settings)
    (db : MetadataDB) (out : list ReleaseDF.t) :
  _match_releases_by_tag re_compile repos time_from time_to settings db = Ok out ->
  forall x, In x out ->
            In (ReleaseDF.repository_full_name x) repos
            /\ ReleaseDF.matched_by x = Match.tag.
Proof.
  intros H x Hx. apply (match_releases_by_tag_In _ _ _ _ _ _ _ H) in Hx
    as (d & v & regexp & -> & _ & Hr & _). simpl. auto.
Qed.

Lemma dict_update_set_keys (repo : string) (mp : list string)
    (d : list (string * list string)) (k : string) :
  In k (map fst (dict_update_set repo mp d)) -> k = repo \/ In k (map fst d).
Proof.
  induction d as [|[k' s] d IH]; simpl.
  - intuition.
  - destruct (String.eqb k' repo); simpl; intuition.
Qed.

Lemma merge_points_by_repo_keys (tasks : list (string * list string)) (k : string) :
  In k (map fst (merge_points_by_repo tasks)) -> In k (map fst tasks).
Proof.
  unfold merge_points_by_repo.
  assert (G : forall d, In k (map fst (fold_left
                 (fun d rm => dict_update_set (fst rm) (snd rm) d) tasks d)) ->
              In k (map fst tasks) \/ In k (map fst d)).
  { induction tasks as [|t tasks IH]; simpl; intros d H; [auto|].
    apply IH in H as [H|H]; [auto|].
    apply dict_update_set_keys in H as [H|H]; auto. }
  intro H. apply G in H as [H|H]; [auto | contradiction].
Qed.

Lemma match_releases_by_branch_rows (re_compile : string -> result (string -> bool))
    (repos : list string) (time_from time_to : Z) (settings : Settings)
    (db : MetadataDB) (out : list ReleaseDF.t) :
  _match_releases_by_branch re_compile repos time_from time_to settings db = Ok out ->
  forall x, In x out ->
            In (ReleaseDF.repository_full_name x) repos
            /\ ReleaseDF.matched_by x = Match.branch.
Proof.
  unfold _match_releases_by_branch, extract_branches.
  set (branches := filter _ (github_branches db)).
  intro H. apply bind_Ok in H as (bm & Hbm & H).
  assert (Hbranches : forall b, In b (List.concat bm) ->
                                In (Branch.repository_full_name b) repos).
  { intros b Hb. apply mapM_Ok in Hbm.
    destruct (Forall2_concat_In _ _ _ b Hbm Hb) as (repo & ys & _ & Hys & Hin).
    unfold match_repo_branches in Hys.
    apply bind_Ok in Hys as (v & _ & Hys).
    apply bind_Ok in Hys as (dflt & _ & Hys).
    apply bind_Ok in Hys as (regexp & _ & Hys).
    injection Hys as <-. apply filter_In in Hin as (Hin & _).
    apply filter_In in Hin as (Hin & _). unfold branches in Hin.
    apply filter_In in Hin as (_ & Hin). now apply mem_In. }
  destruct bm as [|b0 bm']; [injection H as <-; contradiction|].
  apply bind_Ok in H as (mps & Hmps & H).
  assert (Hout : out = List.concat
                         (map (fun rm : string * list string =>
                                 _fetch_merge_commit_releases (fst rm) (snd rm) db)
                              (merge_points_by_repo mps))).
  { destruct (map _ (merge_points_by_repo mps)); injection H as <-; reflexivity. }
  clear H. subst out. intros x Hx.
  apply in_concat in Hx as (rows & Hrows & Hx).
  apply in_map_iff in Hrows as (rm & <- & Hrm).
  apply merge_commit_releases_In in Hx as (c & _ & _ & ->). simpl. split; auto.
  assert (Hk : In (fst rm) (map fst mps))
    by (apply merge_points_by_repo_keys; apply in_map; exact Hrm).
  apply in_map_iff in Hk as (task & Ht & Htask).
  apply mapM_Ok in Hmps.
  assert (G : forall bs ts, Forall2
             (fun (b : Branch.t) (y : string * list string) =>
                (mp <- _fetch_merge_points (Branch.repository_full_name b)
                         (Branch.commit_id b) (Branch.branch_name b)
                         time_from time_to db ;;
                 Ok (Branch.repository_full_name b, mp)) = Ok y) bs ts ->
             In task ts -> exists b, In b bs /\ fst task = Branch.repository_full_name b).
  { induction 1 as [|b y bs ts Hy _ IH]; simpl; intro Hin; [contradiction|].
    destruct Hin as [->|Hin].
    - apply bind_Ok in Hy as (mp & _ & Hy). injection Hy as <-. exists b. auto.
    - destruct (IH Hin) as (b' & ? & ?). exists b'. auto. }
  destruct (G _ _ Hmps Htask) as (b & Hb & Hfst).
  rewrite <- Ht, Hfst. apply Hbranches. exact Hb.
Qed.

Lemma match_releases_by_tag_or_branch_rows
    (re_compile : string -> result (string -> bool))
    (repos : list string) (time_from time_to : Z) (settings : Settings)
    (db : MetadataDB) (out : list ReleaseDF.t) :
  _match_releases_by_tag_or_branch re_compile repos time_from time_to settings db
  = Ok out ->
  forall x, In x out ->
            In (ReleaseDF.repository_full_name x) repos
            /\ (ReleaseDF.matched_by x = Match.tag
                \/ ReleaseDF.matched_by x = Match.branch).
Proof.
  unfold _match_releases_by_tag_or_branch. intro H.
  apply bind_Ok in H as (by_tag & Ht & H).
  apply bind_Ok in H as (by_branch & Hb & H).
  assert (Hout : out = List.concat (by_tag ++ by_branch)).
  { unfold pd_concat in H. destruct (by_tag ++ by_branch)%list; [discriminate|].
    injection H as <-. reflexivity. }
  clear H. subst out. intros x Hx. rewrite concat_app in Hx.
  apply in_app_or in Hx as [Hx|Hx].
  - apply when_Ok in Ht as [(_ & ->)|(_ & rows & Hrows & ->)]; [contradiction|].
    simpl in Hx. rewrite app_nil_r in Hx.
    destruct (match_releases_by_tag_rows _ _ _ _ _ _ _ Hrows x Hx) as (Hr & Hm).
    apply probe_tagged_repos_In in Hr as (Hr & _). auto.
  - apply when_Ok in Hb as [(_ & ->)|(_ & rows & Hrows & ->)]; [contradiction|].
    simpl in Hx. rewrite app_nil_r in Hx.
    destruct (match_releases_by_branch_rows _ _ _ _ _ _ _ Hrows x Hx) as (Hr & Hm).
    apply set_difference_In in Hr as (Hr & _). auto.
Qed.

(** ** [load_releases] *)

Lemma partition_repos_configured (settings : Settings) (repos : list string)
    (parts : list string * list string * list string) :
  partition_repos settings repos = Ok parts ->
  forall repo, In repo repos -> dict_get (PREFIXES_github ++ repo) settings <> None.
Proof.
  revert parts. induction repos as [|r repos IH]; simpl; intros parts H repo Hin;
    [contradiction|].
  apply bind_Ok in H as (v & Hv & H). apply bind_Ok in H as (rest & Hrest & _).
  destruct Hin as [<-|Hin]; [|eapply IH; eauto].
  unfold dict_item in Hv. destruct (dict_get _ settings); [discriminate|discriminate].
Qed.

Lemma partition_repos_filter (settings : Settings) (repos : list string) :
  (forall repo, In repo repos -> dict_get (PREFIXES_github ++ repo) settings <> None) ->
  partition_repos settings repos
  = Ok (filter (has_match settings Match.tag) repos,
        filter (has_match settings Match.tag_or_branch) repos,
        filter (has_match settings Match.branch) repos).
Proof.
  induction repos as [|r repos IH]; simpl; intro H; [reflexivity|].
  rewrite IH by (intros; apply H; auto). unfold dict_item, has_match.
  destruct (dict_get (PREFIXES_github ++ r) settings) as [v|] eqn:E;
    [|exfalso; apply (H r); auto].
  simpl. unfold Match.tag, Match.tag_or_branch, Match.branch.
  destruct (match_ v =? 1) eqn:E1; [apply Z.eqb_eq in E1; rewrite E1; reflexivity|].
  destruct (match_ v =? 2) eqn:E2; [apply Z.eqb_eq in E2; rewrite E2; reflexivity|].
  destruct (match_ v =? 0) eqn:E0; reflexivity.
Qed.

Lemma has_match_known (settings : Settings) (kind : Z) (repo : string) :
  Match.is_member kind = true ->
  has_match settings kind repo = true -> known_match settings repo = true.
Proof.
  unfold has_match, known_match.
  destruct (dict_get _ settings) as [v|]; [|discriminate].
  intros Hk E. apply Z.eqb_eq in E. now rewrite E.
Qed.

Lemma filter_filter_known (settings : Settings) (kind : Z) (repos : list string) :
  Match.is_member kind = true ->
  filter (has_match settings kind) (filter (known_match settings) repos)
  = filter (has_match settings kind) repos.
Proof.
  intro Hk. induction repos as [|r repos IH]; simpl; [reflexivity|].
  destruct (known_match settings r) eqn:E; simpl.
  - now rewrite IH.
  - rewrite IH. destruct (has_match settings kind r) eqn:E'; [|reflexivity].
    rewrite (has_match_known _ _ _ Hk E') in E. discriminate.
Qed.

Lemma load_releases_rows (re_compile : string -> result (string -> bool))
    (repos : list string) (time_from time_to : Z) (settings : Settings)
    (db : MetadataDB) (out : list ReleaseDF.t) :
  load_releases re_compile repos time_from time_to settings db = Ok out ->
  exists by_tag by_tag_or_branch by_branch,
    out = (by_tag ++ by_tag_or_branch ++ by_branch)%list
    /\ ((filter (has_match settings Match.tag) repos = [] /\ by_tag = [])
        \/ _match_releases_by_tag re_compile
             (filter (has_match settings Match.tag) repos)
             time_from time_to settings db = Ok by_tag)
    /\ (forall x, In x by_tag_or_branch ->
                  In (ReleaseDF.repository_full_name x)
                     (filter (has_match settings Match.tag_or_branch) repos))
    /\ (forall x, In x by_branch ->
                  In (ReleaseDF.repository_full_name x)
                     (filter (has_match settings Match.branch) repos)).
Proof.
  unfold load_releases. intro H. apply bind_Ok in H as (parts & Hp & H).
  pose proof (partition_repos_configured _ _ _ Hp) as Hconf.
  rewrite (partition_repos_filter _ _ Hconf) in Hp. injection Hp as <-.
  apply bind_Ok in H as (t & Ht & H).
  apply bind_Ok in H as (tb & Htb & H).
  apply bind_Ok in H as (b & Hb & H).
  assert (Hout : out = List.concat (t ++ tb ++ b)).
  { destruct (t ++ tb ++ b)%list; injection H as <-; reflexivity. }
  clear H. subst out. rewrite !concat_app.
  exists (List.concat t), (List.concat tb), (List.concat b).
  split; [reflexivity|]. split; [|split].
  - apply when_Ok in Ht as [(Hc & ->)|(_ & rows & Hrows & ->)].
    + left. split; [|reflexivity].
      destruct (filter (has_match settings Match.tag) repos); [reflexivity|discriminate].
    + right. simpl. rewrite app_nil_r. exact Hrows.
  - intros x Hx.
    apply when_Ok in Htb as [(_ & ->)|(_ & rows & Hrows & ->)]; [contradiction|].
    simpl in Hx. rewrite app_nil_r in Hx.
    apply (match_releases_by_tag_or_branch_rows _ _ _ _ _ _ _ Hrows x Hx).
  - intros x Hx.
    apply when_Ok in Hb as [(_ & ->)|(_ & rows & Hrows & ->)]; [contradiction|].
    simpl in Hx. rewrite app_nil_r in Hx.
    apply (match_releases_by_branch_rows _ _ _ _ _ _ _ Hrows x Hx).
Qed.

Lemma load_releases_of_parts (re_compile : string -> result (string -> bool))
    (repos : list string) (time_from time_to : Z) (settings : Settings)
    (db : MetadataDB) :
  (forall repo, In repo repos -> dict_get (PREFIXES_github ++ repo) settings <> None) ->
  load_releases re_compile repos time_from time_to settings db
  = (let repos_by_tag_only := filter (has_match settings Match.tag) repos in
     let repos_by_tag_or_branch :=
       filter (has_match settings Match.tag_or_branch) repos in
     let repos_by_branch := filter (has_match settings Match.branch) repos in
     by_tag <- when (nonempty repos_by_tag_only)
                 (_match_releases_by_tag re_compile repos_by_tag_only
                    time_from time_to settings db) ;;
     by_tag_or_branch <-
       when (nonempty repos_by_tag_or_branch)
            (_match_releases_by_tag_or_branch re_compile repos_by_tag_or_branch
               time_from time_to settings db) ;;
     by_branch <- when (nonempty repos_by_branch)
                    (_match_releases_by_branch re_compile repos_by_branch
                       time_from time_to settings db) ;;
     match (by_tag ++ by_tag_or_branch ++ by_branch)%list with
     | [] => Ok _dummy_releases_df
     | _ :: _ => Ok (List.concat (by_tag ++ by_tag_or_branch ++ by_branch))
     end).
Proof.
  intro H. unfold load_releases. rewrite (partition_repos_filter _ _ H). reflexivity.
Qed.

Lemma filter_nothing {A : Type} (f : A -> bool) (l : list A) :
  (forall x, In x l -> f x = false) -> filter f l = [].
Proof.
  induction l as [|x l IH]; simpl; intro H; [reflexivity|].
  rewrite (H x) by auto. apply IH. auto.
Qed.

(** C9: [load_releases] passes over the repositories whose setting has a
    match kind that is none of tag, branch and tag_or_branch.  When every
    repository asked for has a setting, the call gives what the call without
    those repositories gives (the same rows, or the same exception); a frame
    it returns has rows only for repositories with one of the three kinds;
    and when no repository has one, it returns the empty frame. *)
Theorem load_releases_ignores_other_match_kinds :
  forall (re_compile : string -> result (string -> bool))
         (repos : list string) (time_from time_to : Z)
         (settings : Settings) (db : MetadataDB),
    (forall repo, In repo repos ->
                  dict_get (PREFIXES_github ++ repo) settings <> None) ->
    load_releases re_compile repos time_from time_to settings db
    = load_releases re_compile (filter (known_match settings) repos)
        time_from time_to settings db
    /\ (forall out,
           load_releases re_compile repos time_from time_to settings db = Ok out ->
           forall x, In x out ->
                     In (ReleaseDF.repository_full_name x) repos
                     /\ known_match settings (ReleaseDF.repository_full_name x) = true)
    /\ ((forall repo, In repo repos -> known_match settings repo = false) ->
        load_releases re_compile repos time_from time_to settings db
        = Ok _dummy_releases_df).
Proof.
  intros re_compile repos time_from time_to settings db Hconf.
  assert (Hconf' : forall repo, In repo (filter (known_match settings) repos) ->
                                dict_get (PREFIXES_github ++ repo) settings <> None).
  { intros repo Hin. apply filter_In in Hin as (Hin & _). auto. }
  split; [|split].
  - rewrite (load_releases_of_parts _ _ _ _ _ _ Hconf).
    rewrite (load_releases_of_parts _ _ _ _ _ _ Hconf').
    rewrite !filter_filter_known by reflexivity. reflexivity.
  - intros out Hout x Hx.
    destruct (load_releases_rows _ _ _ _ _ _ _ Hout)
      as (t & tb & b & -> & Ht & Htb & Hb).
    assert (G : forall kind, Match.is_member kind = true ->
                In (ReleaseDF.repository_full_name x)
                   (filter (has_match settings kind) repos) ->
                In (ReleaseDF.repository_full_name x) repos
                /\ known_match settings (ReleaseDF.repository_full_name x) = true).
    { intros kind Hk Hin. apply filter_In in Hin as (Hin & Hm). split; auto.
      apply (has_match_known _ _ _ Hk Hm). }
    apply in_app_or in Hx as [Hx|Hx]; [|apply in_app_or in Hx as [Hx|Hx]].
    + destruct Ht as [(_ & ->)|Ht]; [contradiction|].
      apply (G Match.tag eq_refl).
      apply (match_releases_by_tag_rows _ _ _ _ _ _ _ Ht x Hx).
    + apply (G Match.tag_or_branch eq_refl). auto.
    + apply (G Match.branch eq_refl). auto.
  - intro Hnone. rewrite (load_releases_of_parts _ _ _ _ _ _ Hconf).
    assert (G : forall kind, Match.is_member kind = true ->
                filter (has_match settings kind) repos = []).
    { intros kind Hk. apply filter_nothing. intros r Hr.
      destruct (has_match settings kind r) eqn:E; [|reflexivity].
      specialize (Hnone r Hr).
      rewrite (has_match_known _ _ _ Hk E) in Hnone. discriminate. }
    rewrite !G by reflexivity. reflexivity.
Qed.

(** A repository with the match kind 7 among the repositories asked for
    changes nothing, and alone it gives the empty frame. *)
Lemma load_releases_ignores_other_match_kinds_witness :
  let settings :=
    (("github.com/q", {| branches_of := "master"; tags := ".*"; match_ := 7 |})
       :: Example.settings Match.tag)%list in
  load_releases re_literal ["q"; "r"] 0 500 settings Example.db
  = load_releases re_literal ["r"] 0 500 settings Example.db
  /\ load_releases re_literal ["q"] 0 500 settings Example.db = Ok [].
Proof.
  cbv zeta. split.
  - refine (proj1 (load_releases_ignores_other_match_kinds re_literal ["q"; "r"]
                     0 500 _ Example.db _)).
    intros repo [<-|[<-|[]]]; discriminate.
  - refine (proj2 (proj2 (load_releases_ignores_other_match_kinds re_literal ["q"]
                            0 500 _ Example.db _)) _).
    + intros repo [<-|[]]; discriminate.
    + intros repo [<-|[]]; reflexivity.
Defined.

(** ** Sorting, de-duplicating and filtering *)

Lemma find_hd_filter {A : Type} (f : A -> bool) (l : list A) :
  find f l = hd_error (filter f l).
Proof.
  induction l as [|x l IH]; simpl; [reflexivity|].
  destruct (f x); [reflexivity | exact IH].
Qed.


Section SortedByKey.
Variable A : Type.
Variable key : A -> Z.

(** [ORDER BY key DESC] *)
Let before (a b : A) : bool := key b <=? key a.
Let descending (a b : A) : Prop := key b <= key a.


Lemma insert_by_sorted (x : A) (l : list A) :
  StronglySorted descending l -> StronglySorted descending (insert_by before x l).
Proof.
  induction 1 as [|y l Hs IH Hy]; simpl.
  - constructor; constructor.
  - unfold before at 1. destruct (key y <=? key x) eqn:E.
    + apply Z.leb_le in E. constructor.
      * constructor; auto.
      * constructor; [exact E|].
        rewrite Forall_forall in Hy |- *. intros z Hz.
        specialize (Hy z Hz). unfold descending in *. lia.
    + apply Z.leb_gt in E. constructor; auto.
      apply Forall_forall. intros z Hz. apply insert_by_In in Hz as [->|Hz].
      * unfold descending. lia.
      * rewrite Forall_forall in Hy. auto.
Qed.

Lemma sort_by_sorted (l : list A) : StronglySorted descending (sort_by before l).
Proof.
  induction l as [|x l IH]; simpl; [constructor | now apply insert_by_sorted].
Qed.








End SortedByKey.

Lemma opt_eqb_eq (a b : option string) : opt_eqb a b = true <-> a = b.
Proof.
  destruct a as [x|], b as [y|]; simpl; try (split; congruence).
  rewrite String.eqb_eq. split; congruence.
Qed.

Lemma opt_eqb_refl (a : option string) : opt_eqb a a = true.
Proof.
  now apply opt_eqb_eq.
Qed.


Lemma filter_comm {A : Type} (p q : A -> bool) (l : list A) :
  filter p (filter q l) = filter q (filter p l).
Proof.
  induction l as [|x l IH]; simpl; [reflexivity|].
  destruct (q x) eqn:Q, (p x) eqn:P; simpl; rewrite ?Q, ?P, IH; reflexivity.
Qed.


Lemma filter_all {A : Type} (q : A -> bool) (l : list A) :
  (forall x, In x l -> q x = true) -> filter q l = l.
Proof.
  induction l as [|x l IH]; simpl; intro H; [reflexivity|].
  rewrite (H x) by auto. rewrite IH by auto. reflexivity.
Qed.




(** ** Tagged releases of a repository *)









(** ** Hidden pull requests *)

Lemma find_old_released_prs_not_hidden (observed_commits : list string)
    (repo : string) (time_boundary : Z) (authors mergers : list string)
    (pr_blacklist : option (PullRequest.t -> bool)) (mdb : MetadataDB)
    (pr : PullRequest.t) :
  In pr (_find_old_released_prs observed_commits repo time_boundary authors mergers
           pr_blacklist mdb) ->
  PullRequest.hidden pr = Some false.
Proof.
  unfold _find_old_released_prs. intro H. apply filter_In in H as (_ & H).
  rewrite forallb_forall in H.
  assert (Hh : hidden_is_false pr = true).
  { apply H.
    destruct pr_blacklist; [apply in_or_app; left|];
      destruct (nonempty authors && nonempty mergers);
      [ | destruct (nonempty authors); [|destruct (nonempty mergers)]
        | | destruct (nonempty authors); [|destruct (nonempty mergers)] ];
      try (apply in_or_app; left); simpl; auto. }
  unfold hidden_is_false in Hh.
  destruct (PullRequest.hidden pr) as [[|]|]; [discriminate | reflexivity | discriminate].
Qed.

Lemma fetch_prs_rows_not_hidden (repos : list string) (time_from time_to : Z)
    (db : MetadataDB) (pr : PullRequest.t) :
  In pr (fetch_prs_rows repos time_from time_to db) -> PullRequest.hidden pr = Some false.
Proof.
  unfold fetch_prs_rows. intro H. apply filter_In in H as (_ & H).
  apply andb_true_iff in H as (H & _). apply andb_true_iff in H as (_ & H).
  unfold hidden_is_false in H.
  destruct (PullRequest.hidden pr) as [[|]|]; [discriminate | reflexivity | discriminate].
Qed.

(** C8 does not hold of the code: the pull request query of
    [_fetch_merge_points] has no condition on [hidden], whereas the queries
    of [_find_old_released_prs] and of [_mine_contributors] have
    [hidden IS false].  In the example store with the hidden pull request
    [PR9], merged into [master] by the commit [n5], the merge points of
    [master] contain [n5], and with the rule branch [load_releases] returns
    the pseudo-release [n5_r] of the hidden pull request; the two other
    queries leave [PR9] out. *)
Theorem fetch_merge_points_returns_hidden_pull_request :
  map PullRequest.hidden (github_pull_requests Example.db_hidden) = [Some true]
  /\ merged_prs_merge_commits "r" "master" 0 500 Example.db_hidden = ["n5"]
  /\ _fetch_merge_points "r" "n4" "master" 0 500 Example.db_hidden
     = Ok ["n3"; "n2"; "n1"; "n4"; "n5"]
  /\ _fetch_merge_points "r" "n4" "master" 0 500 Example.db
     = Ok ["n3"; "n2"; "n1"; "n4"]
  /\ (exists out,
         load_releases re_literal ["r"] 0 500 (Example.settings Match.branch)
           Example.db_hidden = Ok out
         /\ map ReleaseDF.id out = ["n5_r"; "n4_r"; "n3_r"])
  /\ _find_old_released_prs ["sha-n5"] "r" 1000 [] [] None Example.db_hidden = []
  /\ fetch_prs ["r"] 0 500 Example.db_hidden = [].
Proof.
  repeat split; try reflexivity.
  eexists. split; reflexivity.
Qed.

(** ** The log of store accesses *)

Lemma bindM_Ok {A B : Type} (c : M A) (k : A -> M B) (w w' : World) (b : B) :
  bindM c k w = (Ok b, w') ->
  exists a w1, c w = (Ok a, w1) /\ k a w1 = (Ok b, w').
Proof.
  unfold bindM. destruct (c w) as [[a|e] w1]; intro H; [eauto | discriminate].
Qed.

Lemma lift_Ok {A : Type} (r : result A) (w w' : World) (a : A) :
  lift r w = (Ok a, w') -> r = Ok a /\ w' = w.
Proof.
  unfold lift. intro H. injection H as -> ->. auto.
Qed.

Lemma ret_Ok {A : Type} (a b : A) (w w' : World) :
  ret a w = (Ok b, w') -> b = a /\ w' = w.
Proof.
  unfold ret. intro H. injection H as -> ->. auto.
Qed.

Lemma emits_ret {A : Type} (P : Event -> Prop) (a : A) : emits P (ret a).
Proof.
  intros w r w' H. injection H as _ <-. exists []. rewrite app_nil_r. auto.
Qed.

Lemma emits_lift {A : Type} (P : Event -> Prop) (r : result A) : emits P (lift r).
Proof.
  intros w r' w' H. injection H as _ <-. exists []. rewrite app_nil_r. auto.
Qed.

Lemma emits_emit (P : Event -> Prop) (e : Event) : P e -> emits P (emit e).
Proof.
  intros He w r w' H. injection H as _ <-. exists [e]. simpl. auto.
Qed.

Lemma emits_cache_set (P : Event -> Prop) (key : string) (value : CachedRelease) :
  P (CacheSet key value) -> emits P (cache_set key value).
Proof.
  intros He w r w' H. injection H as _ <-. exists [CacheSet key value]. simpl. auto.
Qed.

Lemma emits_cache_multi_get (P : Event -> Prop) (keys : list string) :
  P (CacheMultiGet keys) -> emits P (cache_multi_get keys).
Proof.
  intros He w r w' H. injection H as _ <-. exists [CacheMultiGet keys]. simpl. auto.
Qed.

Lemma emits_bindM {A B : Type} (P : Event -> Prop) (c : M A) (k : A -> M B) :
  emits P c -> (forall a, emits P (k a)) -> emits P (bindM c k).
Proof.
  intros Hc Hk w r w' H. unfold bindM in H.
  destruct (c w) as [[a|e] w1] eqn:E.
  - destruct (Hc _ _ _ E) as (l1 & T1 & F1).
    destruct (Hk a _ _ _ H) as (l2 & T2 & F2).
    exists (l1 ++ l2)%list. rewrite T2, T1, app_assoc. split; auto.
    apply Forall_app; auto.
  - injection H as _ <-. apply (Hc _ _ _ E).
Qed.

Lemma emits_forM {A B : Type} (P : Event -> Prop) (f : A -> M B) (xs : list A) :
  (forall x, emits P (f x)) -> emits P (forM f xs).
Proof.
  intro Hf. induction xs as [|x xs IH]; simpl.
  - apply emits_ret.
  - apply emits_bindM; [apply Hf|]. intro y.
    apply emits_bindM; [apply IH|]. intro ys. apply emits_ret.
Qed.

Lemma filter_not_a_load (l : list Event) :
  Forall not_a_load l -> filter is_load_releases l = [].
Proof.
  intro H. apply filter_nothing. now apply Forall_forall.
Qed.

Section MapperProperties.

Variable re_compile : string -> result (string -> bool).
Variable gen_cache_key : string -> string -> ReleaseMatchSetting -> string.
Variable PrecomputedDB : Type.
Variable fetch_histories :
  MetadataDB -> PrecomputedDB -> list (string * list (Z * ReleaseDF.t)) ->
  result (list (string * (string -> option Z))).
Variable mdb : MetadataDB.
Variable pdb : PrecomputedDB.

Lemma await_load_releases_Ok (repos : list string) (time_from time_to : Z)
    (settings : Settings) (w w' : World) (releases : list ReleaseDF.t) :
  await_load_releases re_compile mdb repos time_from time_to settings w
  = (Ok releases, w') ->
  load_releases re_compile repos time_from time_to settings mdb = Ok releases
  /\ trace w' = (trace w ++ [LoadReleases repos time_from time_to settings])%list.
Proof.
  unfold await_load_releases. intro H.
  apply bindM_Ok in H as ([] & w1 & He & H).
  apply lift_Ok in H as (H & ->). injection He as <-. auto.
Qed.

Lemma map_loaded_releases_emits (prs : list PullRequestDF.t)
    (releases : list ReleaseDF.t) (release_settings : Settings) (cache : bool) :
  emits not_a_load
    (map_loaded_releases gen_cache_key fetch_histories mdb pdb
       prs releases release_settings cache).
Proof.
  unfold map_loaded_releases. apply emits_bindM.
  - destruct cache; [|apply emits_ret].
    unfold _load_pr_releases_from_cache.
    apply emits_bindM; [apply emits_lift|]. intro keys.
    apply emits_bindM; [|intro; apply emits_ret].
    apply emits_forM. intro ks. apply emits_cache_multi_get. reflexivity.
  - intros _. apply emits_bindM.
    + unfold _map_prs_to_releases.
      apply emits_bindM; [apply emits_emit; reflexivity|]. intros _.
      apply emits_bindM; [apply emits_lift|]. intro.
      apply emits_bindM; [apply emits_lift|]. intro. apply emits_lift.
    + intro missed. apply emits_bindM; [|intro; apply emits_ret].
      destruct cache; [|apply emits_ret].
      unfold _cache_pr_releases.
      apply emits_bindM; [|intro; apply emits_ret].
      apply emits_forM. intro r.
      apply emits_bindM; [apply emits_lift|]. intro key.
      apply emits_cache_set. reflexivity.
Qed.

End MapperProperties.

(** ** Two loads and consistent settings *)

Lemma fold_min_le (l : list Z) (a : Z) :
  fold_left Z.min l a <= a /\ forall x, In x l -> fold_left Z.min l a <= x.
Proof.
  revert a. induction l as [|y l IH]; simpl; intro a.
  - split; [lia | contradiction].
  - destruct (IH (Z.min a y)) as (H1 & H2). split; [lia|].
    intros x [<-|Hx]; [lia | auto].
Qed.

Lemma fold_min_attained (l : list Z) (a : Z) :
  fold_left Z.min l a = a \/ In (fold_left Z.min l a) l.
Proof.
  revert a. induction l as [|y l IH]; simpl; intro a; [auto|].
  destruct (IH (Z.min a y)) as [H|H]; [|auto].
  rewrite H. destruct (Z.min_spec a y) as [(_ & ->)|(_ & ->)]; auto.
Qed.

Lemma earliest_merge_of_is_min (pr : PullRequestDF.t) (rest : list PullRequestDF.t) :
  let earliest_merge := earliest_merge_of pr (pr :: rest) in
  (forall p, In p (pr :: rest) -> earliest_merge <= PullRequestDF.merged_at p - 60)
  /\ (exists p, In p (pr :: rest) /\ earliest_merge = PullRequestDF.merged_at p - 60).
Proof.
  unfold earliest_merge_of. cbv zeta.
  set (l := map PullRequestDF.merged_at (pr :: rest)).
  destruct (fold_min_le l (PullRequestDF.merged_at pr)) as (H1 & H2). split.
  - intros p Hp. assert (In (PullRequestDF.merged_at p) l) by (now apply in_map).
    specialize (H2 _ H). lia.
  - destruct (fold_min_attained l (PullRequestDF.merged_at pr)) as [H|H].
    + exists pr. split; [left; reflexivity | lia].
    + unfold l in H at 2. apply in_map_iff in H as (p & Hp & Hin).
      exists p. split; [exact Hin | lia].
Qed.

Lemma find_None_not_In {A B : Type} (f : A -> B) (eqb : B -> B -> bool)
    (l : list A) (b : B) :
  (forall x y, eqb x y = true <-> x = y) ->
  find (fun a => eqb (f a) b) l = None <-> ~ In b (map f l).
Proof.
  intro Heq. induction l as [|x l IH]; simpl; [tauto|].
  destruct (eqb (f x) b) eqn:E.
  - apply Heq in E. split; [discriminate | tauto].
  - rewrite IH. split; [|tauto]. intros H [H'|H']; [|tauto].
    apply Heq in H'. congruence.
Qed.

(** [matched_bys.get(repo)] is [matched_by] of the first row of [repo] in
    the frame. *)
Lemma extract_matched_bys_get (releases : list ReleaseDF.t) (repo : string) :
  dict_get repo (_extract_matched_bys_from_releases releases)
  = option_map ReleaseDF.matched_by
      (find (fun r => String.eqb (ReleaseDF.repository_full_name r) repo) releases).
Proof.
  unfold _extract_matched_bys_from_releases, groupby_keys.
  set (g := fun k : string => match filter _ releases with
                              | r :: _ => [(k, matched_by_column r)]
                              | [] => []
                              end).
  assert (G : forall keys,
             (forall k, In k keys -> In k (map ReleaseDF.repository_full_name releases)) ->
             dict_get repo (flat_map g keys)
             = if Str.mem repo keys
               then option_map ReleaseDF.matched_by
                      (find (fun r => String.eqb (ReleaseDF.repository_full_name r) repo)
                            releases)
               else None).
  { induction keys as [|k keys IH]; intro Hk; [reflexivity|].
    cbn [flat_map]. unfold g at 1.
    destruct (filter (fun r => String.eqb (ReleaseDF.repository_full_name r) k) releases)
      as [|r0 rs] eqn:E.
    - exfalso. assert (Hin : In k (map ReleaseDF.repository_full_name releases))
        by (apply Hk; left; reflexivity).
      apply in_map_iff in Hin as (r & Hr & Hin).
      assert (In r (filter (fun r => String.eqb (ReleaseDF.repository_full_name r) k)
                      releases))
        by (apply filter_In; split; auto; now apply String.eqb_eq).
      rewrite E in H. contradiction.
    - cbn [app dict_get Str.mem existsb].
      destruct (String.eqb repo k) eqn:Ek.
      + apply String.eqb_eq in Ek. subst k. cbn [orb].
        rewrite find_hd_filter, E. reflexivity.
      + cbn [orb]. apply IH. intros k' Hk'. apply Hk. right. exact Hk'. }
  rewrite G by (intros k Hk; exact (proj1 (distinct_In _ _) Hk)).
  destruct (Str.mem repo (Str.distinct (map ReleaseDF.repository_full_name releases)))
    eqn:E; [reflexivity|].
  assert (Hn : ~ In repo (map ReleaseDF.repository_full_name releases)).
  { intro H. apply distinct_In in H. apply mem_In in H. congruence. }
  apply (find_None_not_In ReleaseDF.repository_full_name String.eqb) in Hn;
    [|apply String.eqb_eq].
  now rewrite Hn.
Qed.

(** ** The release timestamp of a mapped pull request *)

Lemma Forall2_In_r {A B : Type} (R : A -> B -> Prop) (xs : list A) (ys : list B)
    (y : B) :
  Forall2 R xs ys -> In y ys -> exists x, In x xs /\ R x y.
Proof.
  induction 1 as [|x y' xs ys HR _ IH]; simpl; intro Hin; [contradiction|].
  destruct Hin as [<-|Hin]; [exists x; auto|].
  destruct (IH Hin) as (x' & ? & ?). exists x'. auto.
Qed.

Lemma enumerate_from_In {A : Type} (l : list A) (i j : Z) (x : A) :
  In (j, x) (enumerate_from i l) -> In x l.
Proof.
  revert i. induction l as [|y l IH]; simpl; intros i H; [contradiction|].
  destruct H as [H|H]; [injection H as _ <-; auto | eauto].
Qed.

Lemma dict_get_map_keys {V : Type} (f : string -> V) (keys : list string)
    (k : string) (v : V) :
  dict_get k (map (fun key => (key, f key)) keys) = Some v -> v = f k.
Proof.
  induction keys as [|key keys IH]; simpl; [discriminate|].
  destruct (String.eqb k key) eqn:E; [|exact IH].
  apply String.eqb_eq in E. subst key. intro H. injection H as <-. reflexivity.
Qed.

Lemma find_NoDup {A : Type} (f : A -> string) (l : list A) (p : A) :
  NoDup (map f l) -> In p l ->
  find (fun q => String.eqb (f q) (f p)) l = Some p.
Proof.
  induction l as [|x l IH]; simpl; intros Hnd Hin; [contradiction|].
  inversion Hnd as [|? ? Hx Hnd']; subst.
  destruct Hin as [->|Hin]; [now rewrite String.eqb_refl|].
  destruct (String.eqb (f x) (f p)) eqn:E; [|auto].
  apply String.eqb_eq in E. exfalso. apply Hx. rewrite E. now apply in_map.
Qed.

Section ReleasedAt.

Variable re_compile : string -> result (string -> bool).
Variable gen_cache_key : string -> string -> ReleaseMatchSetting -> string.
Variable PrecomputedDB : Type.
Variable fetch_histories :
  MetadataDB -> PrecomputedDB -> list (string * list (Z * ReleaseDF.t)) ->
  result (list (string * (string -> option Z))).
Variable mdb : MetadataDB.
Variable pdb : PrecomputedDB.

Lemma released_pr_row (repo : string) (repo_releases : list (Z * ReleaseDF.t))
    (history : string -> option Z) (pr : PullRequestDF.t)
    (rows : list PRRelease.t) (row : PRRelease.t) :
  released_pr repo repo_releases history pr = Ok rows -> In row rows ->
  exists ri r,
    In (ri, r) repo_releases
    /\ PRRelease.pull_request_node_id row = PullRequestDF.node_id pr
    /\ PRRelease.published_at row = ReleaseDF.published_at r
    /\ PRRelease.author row = ReleaseDF.author r
    /\ PRRelease.url row = ReleaseDF.url r
    /\ PRRelease.repository_full_name row = repo
    /\ PRRelease.matched_by row = ReleaseDF.matched_by r.
Proof.
  unfold released_pr. intros H Hin.
  destruct (PullRequestDF.merge_commit_sha pr) as [sha|];
    [|injection H as <-; contradiction].
  destruct (history sha) as [ri|]; [|injection H as <-; contradiction].
  destruct (ri <? 0); [injection H as <-; contradiction|].
  apply bind_Ok in H as (r & Hr & H). injection H as <-.
  destruct Hin as [<-|[]]. unfold xs in Hr.
  destruct (find (fun ir => fst ir =? ri) repo_releases) as [[i r']|] eqn:E;
    [|discriminate].
  injection Hr as ->. apply find_some in E as (E & _).
  exists i, r. simpl. repeat split; auto.
Qed.

Lemma map_prs_to_releases_rows (prs : list PullRequestDF.t)
    (releases : list ReleaseDF.t) (w w' : World) (out : list PRRelease.t) :
  NoDup (map PullRequestDF.node_id prs) ->
  _map_prs_to_releases fetch_histories mdb pdb prs releases w = (Ok out, w') ->
  forall row, In row out ->
    exists p r,
      In p prs /\ In r releases
      /\ PRRelease.pull_request_node_id row = PullRequestDF.node_id p
      /\ ReleaseDF.repository_full_name r = PullRequestDF.repository_full_name p
      /\ PRRelease.repository_full_name row = PullRequestDF.repository_full_name p
      /\ PRRelease.author row = ReleaseDF.author r
      /\ PRRelease.url row = ReleaseDF.url r
      /\ PRRelease.matched_by row = ReleaseDF.matched_by r
      /\ PRRelease.published_at row
         = Z.max (ReleaseDF.published_at r) (PullRequestDF.merged_at p).
Proof.
  intros Hnd H row' Hrow'. unfold _map_prs_to_releases in H.
  apply bindM_Ok in H as ([] & w1 & _ & H).
  apply bindM_Ok in H as (histories & w2 & _ & H).
  apply bindM_Ok in H as (released & w3 & Hrel & H).
  apply lift_Ok in Hrel as (Hrel & _). apply lift_Ok in H as (Hclamp & _).
  apply mapM_Ok in Hclamp.
  destruct (Forall2_In_r _ _ _ _ Hclamp Hrow') as (row & Hrow & Hc).
  apply mapM_Ok in Hrel.
  destruct (Forall2_concat_In _ _ _ _ Hrel Hrow) as (repo & rows & _ & Hrows & Hin).
  unfold released_prs_of_repo in Hrows.
  destruct (dict_get repo (group_releases releases)) as [repo_releases|] eqn:Eg;
    [|injection Hrows as <-; contradiction].
  destruct (dict_get repo histories) as [history|];
    [|injection Hrows as <-; contradiction].
  apply bind_Ok in Hrows as (found & Hfound & Hrows). injection Hrows as <-.
  apply mapM_Ok in Hfound.
  destruct (Forall2_concat_In _ _ _ _ Hfound Hin) as (p & prows & Hp & Hprows & Hin').
  apply filter_In in Hp as (Hp & Hprepo). apply String.eqb_eq in Hprepo.
  destruct (released_pr_row _ _ _ _ _ _ Hprows Hin')
    as (ri & r & Hr & Hid & Hpub & Hauthor & Hurl & Hrepo & Hby).
  unfold group_releases in Eg. apply dict_get_map_keys in Eg. subst repo_releases.
  apply filter_In in Hr as (Hr & Hrrepo). apply enumerate_from_In in Hr.
  simpl in Hrrepo. apply String.eqb_eq in Hrrepo.
  unfold clamp_published_at in Hc. apply bind_Ok in Hc as (merged & Hmerged & Hc).
  injection Hc as <-. simpl.
  unfold merged_at_loc in Hmerged. rewrite Hid in Hmerged.
  rewrite (find_NoDup PullRequestDF.node_id prs p Hnd Hp) in Hmerged.
  injection Hmerged as <-.
  exists p, r. rewrite Hpub. repeat split; auto; congruence.
Qed.

Lemma load_releases_around_loaded (repos : list string)
    (earliest_merge time_from time_to : Z) (release_settings : Settings)
    (w w' : World) (releases : list ReleaseDF.t) :
  load_releases_around re_compile mdb repos earliest_merge time_from time_to
    release_settings w = (Ok releases, w') ->
  forall r, In r releases ->
    exists lower upper settings loaded,
      In (LoadReleases repos lower upper settings) (trace w')
      /\ load_releases re_compile repos lower upper settings mdb = Ok loaded
      /\ In r loaded.
Proof.
  unfold load_releases_around. intros H r Hr.
  destruct (earliest_merge >=? time_from).
  - apply await_load_releases_Ok in H as (H & T).
    exists earliest_merge, time_to, release_settings, releases.
    rewrite T. split; [apply in_or_app; right; left; reflexivity | auto].
  - apply bindM_Ok in H as (releases_new & wa & Hnew & H).
    apply bindM_Ok in H as (consistent & wb & Hcons & H).
    apply bindM_Ok in H as (releases_old & wc & Hold & H).
    apply ret_Ok in H as (-> & ->). apply lift_Ok in Hcons as (_ & ->).
    apply await_load_releases_Ok in Hnew as (Hnew & Ta).
    apply await_load_releases_Ok in Hold as (Hold & Tc).
    apply in_app_or in Hr as [Hr|Hr].
    + exists time_from, time_to, release_settings, releases_new.
      rewrite Tc, Ta. split; [|auto].
      apply in_or_app; left; apply in_or_app; right; left; reflexivity.
    + exists earliest_merge, time_from, consistent, releases_old.
      rewrite Tc. split; [apply in_or_app; right; left; reflexivity | auto].
Qed.

End ReleasedAt.

(** C2: every row of the mapping that [map_prs_to_releases] returns belongs
    to a pull request [p] of the frame and carries the author, url and
    [matched_by] of a release [r] of the repository of [p] that one of the
    loads of the call returned; its [published_at], the release timestamp of
    [p], is the later of [r.published_at] and [p.merged_at], and so is never
    before [p.merged_at].  The node identifiers of the frame are taken to be
    distinct, as those of the rows of the table are. *)
Theorem released_at_is_clamped :
  forall (re_compile : string -> result (string -> bool))
         (gen_cache_key : string -> string -> ReleaseMatchSetting -> string)
         (PrecomputedDB : Type)
         (fetch_histories :
            MetadataDB -> PrecomputedDB -> list (string * list (Z * ReleaseDF.t)) ->
            result (list (string * (string -> option Z))))
         (mdb : MetadataDB) (pdb : PrecomputedDB)
         (prs : list PullRequestDF.t) (time_from time_to : Z)
         (release_settings : Settings) (cache : bool)
         (w w' : World) (out : list PRRelease.t),
    NoDup (map PullRequestDF.node_id prs) ->
    map_prs_to_releases re_compile gen_cache_key fetch_histories mdb pdb
      prs time_from time_to release_settings cache w = (Ok out, w') ->
    forall row, In row out ->
      exists p r,
        In p prs
        /\ PRRelease.pull_request_node_id row = PullRequestDF.node_id p
        /\ (exists repos lower upper settings loaded,
               In (LoadReleases repos lower upper settings) (trace w')
               /\ load_releases re_compile repos lower upper settings mdb = Ok loaded
               /\ In r loaded)
        /\ ReleaseDF.repository_full_name r = PullRequestDF.repository_full_name p
        /\ PRRelease.repository_full_name row = PullRequestDF.repository_full_name p
        /\ PRRelease.author row = ReleaseDF.author r
        /\ PRRelease.url row = ReleaseDF.url r
        /\ PRRelease.matched_by row = ReleaseDF.matched_by r
        /\ PRRelease.published_at row
           = Z.max (ReleaseDF.published_at r) (PullRequestDF.merged_at p)
        /\ PullRequestDF.merged_at p <= PRRelease.published_at row.
Proof.
  intros re_compile gen_cache_key PrecomputedDB fetch_histories mdb pdb
         prs time_from time_to release_settings cache w w' out Hnd H row Hrow.
  destruct prs as [|pr rest];
    [apply ret_Ok in H as (-> & _); contradiction|].
  unfold map_prs_to_releases in H.
  apply bindM_Ok in H as (releases & w1 & Hload & Htail).
  destruct (map_loaded_releases_emits gen_cache_key PrecomputedDB fetch_histories
              mdb pdb _ _ _ _ _ _ _ Htail) as (l & Tl & _).
  unfold map_loaded_releases in Htail.
  apply bindM_Ok in Htail as (cached & w2 & _ & Htail).
  apply bindM_Ok in Htail as (missed & w3 & Hmap & Htail).
  apply bindM_Ok in Htail as ([] & w4 & _ & Htail).
  apply ret_Ok in Htail as (-> & _).
  rewrite filter_all in Hmap by reflexivity.
  destruct (map_prs_to_releases_rows _ _ _ _ _ _ _ _ _ Hnd Hmap row Hrow)
    as (p & r & Hp & Hr & Hid & Hrepo & Hrowrepo & Hauthor & Hurl & Hby & Hpub).
  exists p, r. split; [exact Hp|]. split; [exact Hid|]. split.
  - destruct (load_releases_around_loaded _ _ _ _ _ _ _ _ _ _ Hload r Hr)
      as (lower & upper & settings & loaded & Hev & Hl & Hin).
    exists (Str.distinct (map PullRequestDF.repository_full_name (pr :: rest))),
      lower, upper, settings, loaded.
    split; [rewrite Tl; apply in_or_app; left; exact Hev | auto].
  - repeat split; auto. rewrite Hpub. lia.
Qed.

(** The pull request [PR3] of the example is recorded as merged at 360 and
    is contained in the release published at 350: it is reported as released
    at 360. *)
Lemma released_at_is_clamped_witness :
  exists out w' row,
    map_prs_to_releases re_literal example_gen_cache_key
      Example.fetch_release_histories Example.db tt
      [Example.pr3] 0 500 (Example.settings Match.tag) true Example.world
    = (Ok out, w')
    /\ In row out
    /\ PRRelease.published_at row = 360
    /\ exists p r,
         In p [Example.pr3]
         /\ PRRelease.pull_request_node_id row = PullRequestDF.node_id p
         /\ (exists repos lower upper settings loaded,
                In (LoadReleases repos lower upper settings) (trace w')
                /\ load_releases re_literal repos lower upper settings Example.db
                   = Ok loaded
                /\ In r loaded)
         /\ ReleaseDF.repository_full_name r = PullRequestDF.repository_full_name p
         /\ PRRelease.repository_full_name row = PullRequestDF.repository_full_name p
         /\ PRRelease.author row = ReleaseDF.author r
         /\ PRRelease.url row = ReleaseDF.url r
         /\ PRRelease.matched_by row = ReleaseDF.matched_by r
         /\ PRRelease.published_at row
            = Z.max (ReleaseDF.published_at r) (PullRequestDF.merged_at p)
         /\ PullRequestDF.merged_at p <= PRRelease.published_at row.
Proof.
  eexists; eexists; eexists. split; [vm_compute; reflexivity|].
  split; [left; reflexivity|]. split; [reflexivity|].
  eapply (released_at_is_clamped re_literal example_gen_cache_key unit
            Example.fetch_release_histories Example.db tt
            [Example.pr3] 0 500 (Example.settings Match.tag) true Example.world).
  - repeat constructor. simpl. tauto.
  - vm_compute. reflexivity.
  - left. reflexivity.
Defined.

(** * Further properties of the release matchers *)

Lemma when_nonempty_Ok {A B : Type} (l : list A) (task : result (list B))
    (frames : list (list B)) :
  when (nonempty l) task = Ok frames ->
  (l = [] /\ frames = []) \/ (l <> [] /\ task = Ok (List.concat frames)).
Proof.
  intro H. apply when_Ok in H as [(Hc & ->)|(Hc & rows & Hrows & ->)].
  - left. destruct l; [auto | discriminate].
  - right. simpl. rewrite app_nil_r. split; [|exact Hrows].
    destruct l; [discriminate | discriminate].
Qed.

(** The frame of [load_releases] is made of the frames of the three
    matchers, each run on the repositories of its kind when there are any. *)
Lemma load_releases_parts (re_compile : string -> result (string -> bool))
    (repos : list string) (time_from time_to : Z) (settings : Settings)
    (db : MetadataDB) (out : list ReleaseDF.t) :
  load_releases re_compile repos time_from time_to settings db = Ok out ->
  let by_kind kind := filter (has_match settings kind) repos in
  (forall repo, In repo repos -> dict_get (PREFIXES_github ++ repo) settings <> None)
  /\ exists by_tag by_tag_or_branch by_branch,
       out = (by_tag ++ by_tag_or_branch ++ by_branch)%list
       /\ ((by_kind Match.tag = [] /\ by_tag = [])
           \/ _match_releases_by_tag re_compile (by_kind Match.tag)
                time_from time_to settings db = Ok by_tag)
       /\ ((by_kind Match.tag_or_branch = [] /\ by_tag_or_branch = [])
           \/ _match_releases_by_tag_or_branch re_compile (by_kind Match.tag_or_branch)
                time_from time_to settings db = Ok by_tag_or_branch)
       /\ ((by_kind Match.branch = [] /\ by_branch = [])
           \/ _match_releases_by_branch re_compile (by_kind Match.branch)
                time_from time_to settings db = Ok by_branch).
Proof.
  intros H by_kind. unfold load_releases in H.
  apply bind_Ok in H as (parts & Hp & H).
  pose proof (partition_repos_configured _ _ _ Hp) as Hconf.
  split; [exact Hconf|].
  rewrite (partition_repos_filter _ _ Hconf) in Hp. injection Hp as <-.
  apply bind_Ok in H as (t & Ht & H).
  apply bind_Ok in H as (tb & Htb & H).
  apply bind_Ok in H as (b & Hb & H).
  assert (Hout : out = List.concat (t ++ tb ++ b)).
  { destruct (t ++ tb ++ b)%list; injection H as <-; reflexivity. }
  clear H. subst out. rewrite !concat_app.
  exists (List.concat t), (List.concat tb), (List.concat b).
  split; [reflexivity|].
  apply when_nonempty_Ok in Ht, Htb, Hb. unfold by_kind.
  repeat split.
  - destruct Ht as [(? & ->)|(_ & ?)]; [left | right]; auto.
  - destruct Htb as [(? & ->)|(_ & ?)]; [left | right]; auto.
  - destruct Hb as [(? & ->)|(_ & ?)]; [left | right]; auto.
Qed.

Lemma match_releases_by_tag_or_branch_parts
    (re_compile : string -> result (string -> bool))
    (repos : list string) (time_from time_to : Z) (settings : Settings)
    (db : MetadataDB) (out : list ReleaseDF.t) :
  _match_releases_by_tag_or_branch re_compile repos time_from time_to settings db
  = Ok out ->
  forall x, In x out ->
    (In (ReleaseDF.repository_full_name x)
        (probe_tagged_repos repos time_from time_to db)
     /\ ReleaseDF.matched_by x = Match.tag)
    \/ (In (ReleaseDF.repository_full_name x)
           (set_difference repos (probe_tagged_repos repos time_from time_to db))
        /\ ReleaseDF.matched_by x = Match.branch
        /\ ReleaseDF.tag x = None).
Proof.
  unfold _match_releases_by_tag_or_branch. intro H.
  apply bind_Ok in H as (by_tag & Ht & H).
  apply bind_Ok in H as (by_branch & Hb & H).
  assert (Hout : out = List.concat (by_tag ++ by_branch)).
  { unfold pd_concat in H. destruct (by_tag ++ by_branch)%list; [discriminate|].
    injection H as <-. reflexivity. }
  clear H. subst out. intros x Hx. rewrite concat_app in Hx.
  apply when_nonempty_Ok in Ht, Hb.
  apply in_app_or in Hx as [Hx|Hx].
  - destruct Ht as [(_ & ->)|(_ & Ht)]; [contradiction|].
    left. apply (match_releases_by_tag_rows _ _ _ _ _ _ _ Ht x Hx).
  - destruct Hb as [(_ & ->)|(_ & Hb)]; [contradiction|].
    right.
    destruct (match_releases_by_branch_rows _ _ _ _ _ _ _ Hb x Hx) as (Hr & Hm).
    repeat split; auto.
    clear Hr Hm. unfold _match_releases_by_branch, extract_branches in Hb.
    apply bind_Ok in Hb as (bm & _ & Hb).
    destruct bm; [injection Hb as Hb; rewrite <- Hb in Hx; contradiction|].
    apply bind_Ok in Hb as (mps & _ & Hb).
    assert (Hrows : List.concat by_branch
                    = List.concat
                        (map (fun rm : string * list string =>
                                _fetch_merge_commit_releases (fst rm) (snd rm) db)
                             (merge_points_by_repo mps))).
    { destruct (map _ (merge_points_by_repo mps)); injection Hb as <-; reflexivity. }
    rewrite Hrows in Hx. apply in_concat in Hx as (rows & Hrows' & Hx).
    apply in_map_iff in Hrows' as (rm & <- & _).
    apply merge_commit_releases_In in Hx as (c & _ & _ & ->). reflexivity.
Qed.

Lemma match_releases_by_branch_no_tag (re_compile : string -> result (string -> bool))
    (repos : list string) (time_from time_to : Z) (settings : Settings)
    (db : MetadataDB) (out : list ReleaseDF.t) :
  _match_releases_by_branch re_compile repos time_from time_to settings db = Ok out ->
  forall x, In x out -> ReleaseDF.tag x = None.
Proof.
  unfold _match_releases_by_branch, extract_branches. intros Hb x Hx.
  apply bind_Ok in Hb as (bm & _ & Hb).
  destruct bm; [injection Hb as <-; contradiction|].
  apply bind_Ok in Hb as (mps & _ & Hb).
  assert (Hrows : out = List.concat
                          (map (fun rm : string * list string =>
                                  _fetch_merge_commit_releases (fst rm) (snd rm) db)
                               (merge_points_by_repo mps))).
  { destruct (map _ (merge_points_by_repo mps)); injection Hb as <-; reflexivity. }
  subst out. apply in_concat in Hx as (rows & Hrows' & Hx).
  apply in_map_iff in Hrows' as (rm & <- & _).
  apply merge_commit_releases_In in Hx as (c & _ & _ & ->). reflexivity.
Qed.

Lemma has_match_setting (settings : Settings) (kind : Z) (repo : string) :
  has_match settings kind repo = true <->
  exists v, dict_get (PREFIXES_github ++ repo) settings = Some v /\ match_ v = kind.
Proof.
  unfold has_match. destruct (dict_get _ settings) as [v|].
  - rewrite Z.eqb_eq. split; [eauto|]. intros (v' & Hv & <-). congruence.
  - split; [discriminate|]. intros (v & Hv & _). discriminate.
Qed.

(** X1: every release that [load_releases] returns is marked as matched by
    tag or by branch, never by tag_or_branch, according to the setting of its
    repository: under the rule tag it is matched by tag, under the rule
    branch it is matched by branch and has no tag, and under the rule
    tag_or_branch it is matched by tag when the probe finds a release of the
    repository and by branch, without a tag, otherwise. *)
Theorem load_releases_matched_by :
  forall (re_compile : string -> result (string -> bool))
         (repos : list string) (time_from time_to : Z)
         (settings : Settings) (db : MetadataDB) (out : list ReleaseDF.t),
    load_releases re_compile repos time_from time_to settings db = Ok out ->
    forall x, In x out ->
      exists v,
        dict_get (PREFIXES_github ++ ReleaseDF.repository_full_name x) settings
        = Some v
        /\ In (ReleaseDF.repository_full_name x) repos
        /\ ((match_ v = Match.tag /\ ReleaseDF.matched_by x = Match.tag)
            \/ (match_ v = Match.branch
                /\ ReleaseDF.matched_by x = Match.branch
                /\ ReleaseDF.tag x = None)
            \/ (match_ v = Match.tag_or_branch
                /\ ((ReleaseDF.matched_by x = Match.tag
                     /\ In (ReleaseDF.repository_full_name x)
                           (probe_tagged_repos
                              (filter (has_match settings Match.tag_or_branch) repos)
                              time_from time_to db))
                    \/ (ReleaseDF.matched_by x = Match.branch
                        /\ ReleaseDF.tag x = None
                        /\ ~ In (ReleaseDF.repository_full_name x)
                                (probe_tagged_repos
                                   (filter (has_match settings Match.tag_or_branch)
                                           repos)
                                   time_from time_to db))))).
Proof.
  intros re_compile repos time_from time_to settings db out H x Hx.
  destruct (load_releases_parts _ _ _ _ _ _ _ H)
    as (_ & t & tb & b & -> & Ht & Htb & Hb).
  apply in_app_or in Hx as [Hx|Hx]; [|apply in_app_or in Hx as [Hx|Hx]].
  - destruct Ht as [(_ & ->)|Ht]; [contradiction|].
    destruct (match_releases_by_tag_rows _ _ _ _ _ _ _ Ht x Hx) as (Hr & Hm).
    apply filter_In in Hr as (Hr & Hk). apply has_match_setting in Hk as (v & Hv & Hk).
    exists v. split; [exact Hv|]. split; [exact Hr|]. left. auto.
  - destruct Htb as [(_ & ->)|Htb]; [contradiction|].
    destruct (match_releases_by_tag_or_branch_parts _ _ _ _ _ _ _ Htb x Hx)
      as [(Hr & Hm)|(Hr & Hm & Hn)].
    + pose proof Hr as Hr'. apply probe_tagged_repos_In in Hr' as (Hr' & _).
      apply filter_In in Hr' as (Hr' & Hk).
      apply has_match_setting in Hk as (v & Hv & Hk).
      exists v. split; [exact Hv|]. split; [exact Hr'|]. right. right.
      split; [exact Hk|]. left. auto.
    + apply set_difference_In in Hr as (Hr' & Hnot).
      apply filter_In in Hr' as (Hr' & Hk).
      apply has_match_setting in Hk as (v & Hv & Hk).
      exists v. split; [exact Hv|]. split; [exact Hr'|]. right. right.
      split; [exact Hk|]. right. auto.
  - destruct Hb as [(_ & ->)|Hb]; [contradiction|].
    destruct (match_releases_by_branch_rows _ _ _ _ _ _ _ Hb x Hx) as (Hr & Hm).
    pose proof (match_releases_by_branch_no_tag _ _ _ _ _ _ _ Hb x Hx) as Hn.
    apply filter_In in Hr as (Hr & Hk). apply has_match_setting in Hk as (v & Hv & Hk).
    exists v. split; [exact Hv|]. split; [exact Hr|]. right. left. auto.
Qed.

(** In the example store under the rule tag_or_branch, with the window from
    0 to 500, the releases of [r] are matched by tag. *)
Lemma load_releases_matched_by_witness :
  exists out x,
    load_releases re_literal ["r"] 0 500 (Example.settings Match.tag_or_branch)
      Example.db = Ok out
    /\ In x out
    /\ exists v,
         dict_get (PREFIXES_github ++ ReleaseDF.repository_full_name x)
           (Example.settings Match.tag_or_branch) = Some v
         /\ In (ReleaseDF.repository_full_name x) ["r"]
         /\ ((match_ v = Match.tag /\ ReleaseDF.matched_by x = Match.tag)
             \/ (match_ v = Match.branch
                 /\ ReleaseDF.matched_by x = Match.branch
                 /\ ReleaseDF.tag x = None)
             \/ (match_ v = Match.tag_or_branch
                 /\ ((ReleaseDF.matched_by x = Match.tag
                      /\ In (ReleaseDF.repository_full_name x)
                            (probe_tagged_repos
                               (filter (has_match (Example.settings Match.tag_or_branch)
                                          Match.tag_or_branch) ["r"])
                               0 500 Example.db))
                     \/ (ReleaseDF.matched_by x = Match.branch
                         /\ ReleaseDF.tag x = None
                         /\ ~ In (ReleaseDF.repository_full_name x)
                                 (probe_tagged_repos
                                    (filter (has_match
                                               (Example.settings Match.tag_or_branch)
                                               Match.tag_or_branch) ["r"])
                                    0 500 Example.db))))).
Proof.
  eexists; eexists. split; [vm_compute; reflexivity|].
  split; [left; reflexivity|].
  eapply (load_releases_matched_by re_literal ["r"] 0 500
            (Example.settings Match.tag_or_branch) Example.db).
  - vm_compute. reflexivity.
  - left. reflexivity.
Defined.

Lemma load_releases_row_source (re_compile : string -> result (string -> bool))
    (repos : list string) (time_from time_to : Z) (settings : Settings)
    (db : MetadataDB) (out : list ReleaseDF.t) :
  load_releases re_compile repos time_from time_to settings db = Ok out ->
  forall x, In x out ->
    let probed :=
      probe_tagged_repos (filter (has_match settings Match.tag_or_branch) repos)
        time_from time_to db in
    exists kind,
      has_match settings kind (ReleaseDF.repository_full_name x) = true
      /\ ((kind = Match.tag /\ ReleaseDF.matched_by x = Match.tag)
          \/ (kind = Match.branch /\ ReleaseDF.matched_by x = Match.branch)
          \/ (kind = Match.tag_or_branch
              /\ ((ReleaseDF.matched_by x = Match.tag
                   /\ In (ReleaseDF.repository_full_name x) probed)
                  \/ (ReleaseDF.matched_by x = Match.branch
                      /\ ~ In (ReleaseDF.repository_full_name x) probed)))).
Proof.
  intros H x Hx probed.
  destruct (load_releases_parts _ _ _ _ _ _ _ H)
    as (_ & t & tb & b & -> & Ht & Htb & Hb).
  apply in_app_or in Hx as [Hx|Hx]; [|apply in_app_or in Hx as [Hx|Hx]].
  - destruct Ht as [(_ & ->)|Ht]; [contradiction|].
    destruct (match_releases_by_tag_rows _ _ _ _ _ _ _ Ht x Hx) as (Hr & Hm).
    apply filter_In in Hr as (_ & Hk). exists Match.tag. auto.
  - destruct Htb as [(_ & ->)|Htb]; [contradiction|].
    exists Match.tag_or_branch.
    destruct (match_releases_by_tag_or_branch_parts _ _ _ _ _ _ _ Htb x Hx)
      as [(Hr & Hm)|(Hr & Hm & _)].
    + pose proof Hr as Hr'. apply probe_tagged_repos_In in Hr' as (Hr' & _).
      apply filter_In in Hr' as (_ & Hk). split; [exact Hk|].
      right. right. split; [reflexivity|]. left. auto.
    + apply set_difference_In in Hr as (Hr' & Hnot).
      apply filter_In in Hr' as (_ & Hk). split; [exact Hk|].
      right. right. split; [reflexivity|]. right. auto.
  - destruct Hb as [(_ & ->)|Hb]; [contradiction|].
    destruct (match_releases_by_branch_rows _ _ _ _ _ _ _ Hb x Hx) as (Hr & Hm).
    apply filter_In in Hr as (_ & Hk). exists Match.branch. auto.
Qed.

Lemma has_match_unique (settings : Settings) (k1 k2 : Z) (repo : string) :
  has_match settings k1 repo = true -> has_match settings k2 repo = true -> k1 = k2.
Proof.
  intros H1 H2. apply has_match_setting in H1 as (v1 & Hv1 & <-).
  apply has_match_setting in H2 as (v2 & Hv2 & <-). congruence.
Qed.

(** X2: in a frame that [load_releases] returns, the releases of one
    repository all have the same [matched_by], so that the kind that
    [_extract_matched_bys_from_releases] reads off the first of them is the
    kind of all of them. *)
Theorem load_releases_one_matched_by_per_repository :
  forall (re_compile : string -> result (string -> bool))
         (repos : list string) (time_from time_to : Z)
         (settings : Settings) (db : MetadataDB) (out : list ReleaseDF.t),
    load_releases re_compile repos time_from time_to settings db = Ok out ->
    forall x y,
      In x out -> In y out ->
      ReleaseDF.repository_full_name x = ReleaseDF.repository_full_name y ->
      ReleaseDF.matched_by x = ReleaseDF.matched_by y.
Proof.
  intros re_compile repos time_from time_to settings db out H x y Hx Hy Hrepo.
  destruct (load_releases_row_source _ _ _ _ _ _ _ H x Hx) as (kx & Hkx & Sx).
  destruct (load_releases_row_source _ _ _ _ _ _ _ H y Hy) as (ky & Hky & Sy).
  rewrite Hrepo in Hkx, Sx. pose proof (has_match_unique _ _ _ _ Hkx Hky) as E.
  subst ky.
  destruct Sx as [(-> & Mx)|[(-> & Mx)|(-> & Sx)]];
    destruct Sy as [(E & My)|[(E & My)|(E & Sy)]]; try discriminate E;
    try congruence.
  destruct Sx as [(Mx & Px)|(Mx & Px)]; destruct Sy as [(My & Py)|(My & Py)];
    try congruence; contradiction.
Qed.

(** The releases of [r] in the example store, under the rule tag_or_branch:
    the two newest have the same [matched_by]. *)
Lemma load_releases_one_matched_by_per_repository_witness :
  exists out x y,
    load_releases re_literal ["r"] 0 500 (Example.settings Match.tag_or_branch)
      Example.db = Ok out
    /\ In x out /\ In y out
    /\ ReleaseDF.id x = "3" /\ ReleaseDF.id y = "2"
    /\ ReleaseDF.matched_by x = ReleaseDF.matched_by y.
Proof.
  eexists; eexists; eexists. split; [vm_compute; reflexivity|].
  split; [left; reflexivity|]. split; [right; left; reflexivity|].
  split; [reflexivity|]. split; [reflexivity|].
  eapply (load_releases_one_matched_by_per_repository re_literal ["r"] 0 500
            (Example.settings Match.tag_or_branch) Example.db).
  - vm_compute. reflexivity.
  - left. reflexivity.
  - right. left. reflexivity.
  - reflexivity.
Defined.

(** ** The kinds read off a frame of releases *)

Lemma find_Some_split {A : Type} (f : A -> bool) (l : list A) (x : A) :
  find f l = Some x <->
  exists before after,
    l = (before ++ x :: after)%list /\ f x = true
    /\ forall y, In y before -> f y = false.
Proof.
  induction l as [|y l IH]; simpl.
  - split; [discriminate|]. intros (before & after & H & _).
    destruct before; discriminate.
  - destruct (f y) eqn:E.
    + split.
      * intro H. injection H as ->. exists [], l. simpl.
        repeat split; auto. intros ? [].
      * intros ([|z before] & after & H & Hx & Hb).
        -- simpl in H. injection H as -> _. reflexivity.
        -- simpl in H. injection H as <- _. rewrite (Hb y) in E by (left; reflexivity).
           discriminate.
    + rewrite IH. split.
      * intros (before & after & -> & Hx & Hb). exists (y :: before), after.
        simpl. repeat split; auto. intros z [<-|Hz]; auto.
      * intros ([|z before] & after & H & Hx & Hb).
        -- simpl in H. injection H as -> _. congruence.
        -- simpl in H. injection H as <- ->. exists before, after.
           repeat split; auto. intros z' Hz'. apply Hb. right. exact Hz'.
Qed.

(** X3: [_extract_matched_bys_from_releases] has one entry per repository
    of the frame, in the order in which the repositories first appear; the
    entry of a repository is the [matched_by] of the first of its rows, and a
    repository without a row has no entry. *)
Theorem extract_matched_bys_first_row :
  forall (releases : list ReleaseDF.t) (repo : string),
    let matched_bys := _extract_matched_bys_from_releases releases in
    map fst matched_bys = Str.distinct (map ReleaseDF.repository_full_name releases)
    /\ (dict_get repo matched_bys = None <->
        forall r, In r releases -> ReleaseDF.repository_full_name r <> repo)
    /\ (forall by_,
           dict_get repo matched_bys = Some by_ <->
           exists before r after,
             releases = (before ++ r :: after)%list
             /\ ReleaseDF.repository_full_name r = repo
             /\ ReleaseDF.matched_by r = by_
             /\ forall r', In r' before -> ReleaseDF.repository_full_name r' <> repo).
Proof.
  intros releases repo matched_bys. split; [|split].
  - unfold matched_bys, _extract_matched_bys_from_releases, groupby_keys.
    assert (G : forall keys,
               (forall k, In k keys ->
                          In k (map ReleaseDF.repository_full_name releases)) ->
               map fst
                 (flat_map
                    (fun k =>
                       match filter (fun r => String.eqb
                                                (ReleaseDF.repository_full_name r) k)
                                    releases with
                       | r :: _ => [(k, matched_by_column r)]
                       | [] => []
                       end) keys) = keys).
    { induction keys as [|k keys IH]; intro Hk; [reflexivity|]. cbn [flat_map].
      destruct (filter (fun r => String.eqb (ReleaseDF.repository_full_name r) k)
                       releases) as [|r0 rs] eqn:E.
      - exfalso. assert (Hin : In k (map ReleaseDF.repository_full_name releases))
          by (apply Hk; left; reflexivity).
        apply in_map_iff in Hin as (r & Hr & Hin).
        assert (In r (filter (fun r => String.eqb (ReleaseDF.repository_full_name r) k)
                        releases))
          by (apply filter_In; split; auto; now apply String.eqb_eq).
        rewrite E in H. contradiction.
      - simpl. f_equal. apply IH. intros k' Hk'. apply Hk. right. exact Hk'. }
    apply G. intros k Hk. exact (proj1 (distinct_In _ _) Hk).
  - unfold matched_bys. rewrite extract_matched_bys_get.
    destruct (find _ releases) as [r|] eqn:E; simpl.
    + split; [discriminate|]. intro H. apply find_some in E as (Hin & E).
      apply String.eqb_eq in E. exfalso. apply (H r Hin E).
    + split; [|reflexivity]. intros _ r Hr Hrepo.
      apply (find_none _ _ E) in Hr. apply String.eqb_neq in Hr. contradiction.
  - intro by_. unfold matched_bys. rewrite extract_matched_bys_get.
    destruct (find _ releases) as [r|] eqn:E; simpl.
    + apply find_Some_split in E as (before & after & -> & Hr & Hb).
      apply String.eqb_eq in Hr. split.
      * intro H. injection H as <-. exists before, r, after. repeat split; auto.
        intros r' Hr'. apply String.eqb_neq. auto.
      * intros (before' & r' & after' & Hsplit & Hr' & <- & Hb').
        assert (Hfind : find (fun r => String.eqb (ReleaseDF.repository_full_name r) repo)
                          (before ++ r :: after) = Some r').
        { rewrite Hsplit. apply find_Some_split. exists before', after'.
          repeat split; auto; [now apply String.eqb_eq|].
          intros z Hz. apply String.eqb_neq. auto. }
        assert (Hfind' : find (fun r => String.eqb (ReleaseDF.repository_full_name r) repo)
                           (before ++ r :: after) = Some r).
        { apply find_Some_split. exists before, after.
          repeat split; auto. now apply String.eqb_eq. }
        congruence.
    + split; [discriminate|]. intros (before & r & after & -> & Hr & _).
      assert (Hin : In r (before ++ r :: after)) by (apply in_or_app; right; left; auto).
      apply (find_none _ _ E) in Hin. apply String.eqb_neq in Hin. contradiction.
Qed.

(** ** Pull requests released long after they were merged *)

(** X4: [_find_old_released_prs] returns exactly the rows of the pull
    request table that were merged before the boundary, belong to the
    repository, have their merge commit among the observed commits, are
    flagged [hidden = false], pass the blacklist when there is one, and, when
    authors or mergers are given, were opened by one of the authors or
    merged by one of the mergers (either suffices when both are given). *)
Theorem find_old_released_prs_rows :
  forall (observed_commits : list string) (repo : string) (time_boundary : Z)
         (authors mergers : list string)
         (pr_blacklist : option (PullRequest.t -> bool)) (mdb : MetadataDB)
         (pr : PullRequest.t),
    In pr (_find_old_released_prs observed_commits repo time_boundary authors mergers
             pr_blacklist mdb) <->
    In pr (github_pull_requests mdb)
    /\ (exists merged, PullRequest.merged_at pr = Some merged /\ merged < time_boundary)
    /\ PullRequest.repository_full_name pr = repo
    /\ (exists sha, PullRequest.merge_commit_sha pr = Some sha /\ In sha observed_commits)
    /\ PullRequest.hidden pr = Some false
    /\ ((authors = [] /\ mergers = [])
        \/ (exists login, PullRequest.user_login pr = Some login /\ In login authors)
        \/ (exists login, PullRequest.merged_by_login pr = Some login
                          /\ In login mergers))
    /\ (forall blacklist, pr_blacklist = Some blacklist -> blacklist pr = true).
Proof.
  intros observed_commits repo time_boundary authors mergers pr_blacklist mdb pr.
  assert (Hin_opt : forall (o : option string) (l : list string),
             opt_in o l = true <-> exists x, o = Some x /\ In x l).
  { intros [x|] l; simpl.
    - rewrite mem_In. split; [eauto|]. intros (y & E & H). congruence.
    - split; [discriminate|]. intros (y & E & _). discriminate. }
  assert (Hlt : lt_opt (PullRequest.merged_at pr) time_boundary = true <->
                exists merged, PullRequest.merged_at pr = Some merged
                               /\ merged < time_boundary).
  { unfold lt_opt. destruct (PullRequest.merged_at pr) as [m|].
    - rewrite Z.ltb_lt. split; [eauto|]. intros (m' & E & H). congruence.
    - split; [discriminate|]. intros (m' & E & _). discriminate. }
  assert (Hhid : hidden_is_false pr = true <-> PullRequest.hidden pr = Some false).
  { unfold hidden_is_false. destruct (PullRequest.hidden pr) as [[|]|];
      split; congruence. }
  assert (Hno : forall (o : option string), opt_in o [] = false)
    by (intros [x|]; reflexivity).
  unfold _find_old_released_prs. rewrite filter_In.
  destruct pr_blacklist as [blacklist|];
    destruct authors as [|a authors], mergers as [|m mergers];
    cbn [nonempty andb app forallb];
    rewrite ?andb_true_iff, ?orb_true_iff, ?Hin_opt, ?Hlt, ?Hhid, ?String.eqb_eq;
    (split;
     [ intros (Hin & H); repeat split; try tauto;
       try (intros b Hb; injection Hb as <-; tauto);
       try (intros b Hb; discriminate Hb)
     | intros (Hin & Hm & Hr & Hs & Hh & Hp & Hb); split; [exact Hin|];
       try specialize (Hb _ eq_refl);
       repeat split; auto;
       destruct Hp as [(Ha & Hm')|[Hp|Hp]]; try discriminate; auto;
       destruct Hp as (login & _ & []) ]).
Qed.

(** ** Merge points *)

(** X5: when it returns, [_fetch_merge_points] gives exactly the first
    parents of the head of the branch committed at or after [time_from] and
    before [time_to], together with the merge commits of the pull requests of
    the repository merged into the branch between [time_from] and [time_to],
    both included; it raises [TypeError] exactly when one of the first
    parents has no date. *)
Theorem fetch_merge_points_members :
  forall (repo commit_id branch_name : string) (time_from time_to : Z)
         (db : MetadataDB),
    (forall mp,
        _fetch_merge_points repo commit_id branch_name time_from time_to db = Ok mp ->
        forall h,
          In h mp <->
          (exists cdt, In (Some h, Some cdt) (_fetch_first_parents commit_id db)
                       /\ time_from <= cdt < time_to)
          \/ (exists pr merged,
                 In pr (github_pull_requests db)
                 /\ PullRequest.repository_full_name pr = repo
                 /\ PullRequest.base_ref pr = branch_name
                 /\ PullRequest.merged_at pr = Some merged
                 /\ time_from <= merged <= time_to
                 /\ PullRequest.merge_commit_id pr = Some h))
    /\ ((exists h, In (h, None) (_fetch_first_parents commit_id db)) <->
        _fetch_merge_points repo commit_id branch_name time_from time_to db
        = Raise TypeError).
Proof.
  intros repo commit_id branch_name time_from time_to db.
  unfold _fetch_merge_points.
  set (fps := _fetch_first_parents commit_id db).
  assert (Hwin : forall l picked,
             mapM (fun hc : option string * option Z =>
                     match snd hc with
                     | None => Raise TypeError
                     | Some cdt =>
                         if (time_from <=? cdt) && (cdt <? time_to)
                         then Ok (match fst hc with Some h => [h] | None => [] end)
                         else Ok []
                     end) l = Ok picked ->
             forall h, In h (List.concat picked) <->
                       exists cdt, In (Some h, Some cdt) l /\ time_from <= cdt < time_to).
  { induction l as [|[oh oc] l IH]; simpl; intros picked H h.
    - injection H as <-. simpl. split; [contradiction|]. intros (? & [] & _).
    - apply bind_Ok in H as (y & Hy & H). apply bind_Ok in H as (ys & Hys & H).
      injection H as <-. simpl. rewrite in_app_iff, (IH _ Hys).
      destruct oc as [cdt|]; [|discriminate].
      destruct ((time_from <=? cdt) && (cdt <? time_to)) eqn:E; injection Hy as <-.
      + apply andb_true_iff in E as (E1 & E2).
        apply Z.leb_le in E1. apply Z.ltb_lt in E2. split.
        * intros [Hh|(c & Hc & Hw)]; [|exists c; auto].
          destruct oh as [h'|]; [|contradiction]. destruct Hh as [<-|[]].
          exists cdt. split; [left; reflexivity | lia].
        * intros (c & [Hc|Hc] & Hw); [|right; exists c; auto].
          injection Hc as -> ->. left. left. reflexivity.
      + split.
        * intros [[]|(c & Hc & Hw)]. exists c. auto.
        * intros (c & [Hc|Hc] & Hw); [|right; exists c; auto].
          injection Hc as -> ->. exfalso.
          apply andb_false_iff in E as [E|E];
            [apply Z.leb_gt in E | apply Z.ltb_ge in E]; lia. }
  assert (Hraise : forall l,
             (exists h, In (h, None) l) <->
             mapM (fun hc : option string * option Z =>
                     match snd hc with
                     | None => Raise TypeError
                     | Some cdt =>
                         if (time_from <=? cdt) && (cdt <? time_to)
                         then Ok (match fst hc with Some h => [h] | None => [] end)
                         else Ok []
                     end) l = Raise TypeError).
  { induction l as [|[oh oc] l IH]; simpl.
    - split; [intros (? & []) | discriminate].
    - destruct oc as [cdt|]; simpl.
      + destruct ((time_from <=? cdt) && (cdt <? time_to)); simpl;
          destruct (mapM _ l) as [ys|e] eqn:E; simpl;
          (split;
           [ intros (h & [Hh|Hh]); [discriminate Hh|];
             assert (Hex : exists h, In (h, None) l) by eauto;
             apply IH in Hex; congruence
           | intro H; try discriminate H;
             destruct (proj2 IH H) as (h & Hh); exists h; right; exact Hh ]).
      + split; [reflexivity|]. intros _. exists oh. left. reflexivity. }
  split.
  - intros mp H h. apply bind_Ok in H as (fp & Hfp & H). injection H as <-.
    unfold first_parents_in_window in Hfp.
    apply bind_Ok in Hfp as (picked & Hpicked & Hfp). injection Hfp as <-.
    rewrite distinct_In, in_app_iff, distinct_In, (Hwin _ _ Hpicked).
    apply or_iff_compat_l.
    unfold merged_prs_merge_commits. rewrite in_flat_map. split.
    + intros (pr & Hpr & Hh). apply filter_In in Hpr as (Hpr & Hc).
      apply andb_true_iff in Hc as (Hc & _).
      apply andb_true_iff in Hc as (Hc & Hb).
      apply andb_true_iff in Hc as (Hr & Hbase).
      apply String.eqb_eq in Hr, Hbase. unfold between_opt in Hb.
      destruct (PullRequest.merged_at pr) as [merged|] eqn:Em; [|discriminate].
      unfold between in Hb. apply andb_true_iff in Hb as (H1 & H2).
      apply Z.leb_le in H1, H2.
      destruct (PullRequest.merge_commit_id pr) as [c|] eqn:Ec; [|contradiction].
      destruct Hh as [<-|[]]. exists pr, merged. repeat split; auto.
    + intros (pr & merged & Hpr & Hr & Hbase & Hm & (H1 & H2) & Hc).
      exists pr. rewrite Hc. split; [|left; reflexivity].
      apply filter_In. split; [exact Hpr|].
      rewrite Hr, Hbase, Hm, Hc, !String.eqb_refl. simpl. unfold between.
      apply andb_true_iff. split; [|reflexivity].
      apply andb_true_iff. split; apply Z.leb_le; lia.
  - unfold first_parents_in_window. rewrite (Hraise fps).
    destruct (mapM _ fps) as [picked|e]; simpl; split; congruence.
Qed.

(** In the store with the hidden pull request, the merge points of
    [master] between 0 and 500 contain its merge commit [n5]. *)
Lemma fetch_merge_points_members_witness :
  exists mp,
    _fetch_merge_points "r" "n4" "master" 0 500 Example.db_hidden = Ok mp
    /\ In "n5" mp.
Proof.
  eexists. split; [vm_compute; reflexivity|].
  refine (proj2 (proj1 (fetch_merge_points_members "r" "n4" "master" 0 500
                          Example.db_hidden) _ eq_refl "n5") _).
  right. exists (Example.pull_request "PR9" "master" 420 "n5" true), 420.
  repeat split; try reflexivity; try lia. left. reflexivity.
Defined.

(** ** Hidden pull requests, again *)

Lemma filter_idem_and {A : Type} (p q : A -> bool) (l : list A) :
  (forall x, q x = true -> p x = true) ->
  filter q (filter p l) = filter q l.
Proof.
  intro H. induction l as [|x l IH]; simpl; [reflexivity|].
  destruct (p x) eqn:P; simpl; rewrite IH; [reflexivity|].
  destruct (q x) eqn:Q; [|reflexivity]. rewrite (H x Q) in P. discriminate.
Qed.

(** X6: the pull request query of [_mine_contributors] and the query of
    [_find_old_released_prs] cannot tell a store from the same store without
    the pull requests that are not flagged [hidden = false]: removing those
    rows from the table changes neither the logins and counts of the former
    nor the rows of the latter. *)
Theorem hidden_pull_requests_do_not_count :
  forall (db : MetadataDB),
    let visible :=
      with_pull_requests db (filter hidden_is_false (github_pull_requests db)) in
    (forall repos time_from time_to,
        fetch_prs repos time_from time_to db
        = fetch_prs repos time_from time_to visible)
    /\ (forall observed_commits repo time_boundary authors mergers pr_blacklist,
           _find_old_released_prs observed_commits repo time_boundary authors mergers
             pr_blacklist db
           = _find_old_released_prs observed_commits repo time_boundary authors
               mergers pr_blacklist visible).
Proof.
  intros db visible. split.
  - intros repos time_from time_to. unfold fetch_prs.
    assert (E : fetch_prs_rows repos time_from time_to visible
                = fetch_prs_rows repos time_from time_to db).
    { unfold fetch_prs_rows, visible, with_pull_requests. simpl.
      apply filter_idem_and. intros pr H.
      apply andb_true_iff in H as (H & _). apply andb_true_iff in H as (_ & H).
      exact H. }
    now rewrite E.
  - intros observed_commits repo time_boundary authors mergers pr_blacklist.
    unfold _find_old_released_prs, visible, with_pull_requests. simpl.
    symmetry. apply filter_idem_and. intros pr H.
    rewrite forallb_forall in H. apply H.
    destruct pr_blacklist; [apply in_or_app; left|];
      destruct (nonempty authors && nonempty mergers);
      [ | destruct (nonempty authors); [|destruct (nonempty mergers)]
        | | destruct (nonempty authors); [|destruct (nonempty mergers)] ];
      try (apply in_or_app; left); simpl; auto.
Qed.

(** ** The order and the tags of tagged releases *)

Lemma filter_map_comm {A B : Type} (f : A -> B) (p : B -> bool) (l : list A) :
  filter p (map f l) = map f (filter (fun x => p (f x)) l).
Proof.
  induction l as [|x l IH]; simpl; [reflexivity|].
  destruct (p (f x)); simpl; now rewrite IH.
Qed.

Lemma StronglySorted_filter {A : Type} (R : A -> A -> Prop) (p : A -> bool)
    (l : list A) :
  StronglySorted R l -> StronglySorted R (filter p l).
Proof.
  induction 1 as [|x l Hs IH Hx]; simpl; [constructor|].
  destruct (p x); [|exact IH]. constructor; [exact IH|].
  rewrite Forall_forall in Hx |- *. intros y Hy. apply filter_In in Hy as (Hy & _).
  auto.
Qed.

Lemma StronglySorted_map {A B : Type} (R : B -> B -> Prop) (f : A -> B) (l : list A) :
  StronglySorted (fun a b => R (f a) (f b)) l -> StronglySorted R (map f l).
Proof.
  induction 1 as [|x l Hs IH Hx]; simpl; constructor; [exact IH|].
  rewrite Forall_forall in Hx |- *. intros y Hy.
  apply in_map_iff in Hy as (a & <- & Ha). auto.
Qed.

Lemma drop_duplicated_sorted {A : Type} (R : A -> A -> Prop) (same : A -> A -> bool)
    (l : list A) :
  StronglySorted R l -> StronglySorted R (drop_duplicated same l).
Proof.
  induction 1 as [|x l Hs IH Hx]; simpl; constructor.
  - now apply StronglySorted_filter.
  - rewrite Forall_forall in Hx |- *. intros y Hy. apply filter_In in Hy as (Hy & _).
    apply drop_duplicated_incl in Hy. auto.
Qed.

Lemma drop_duplicated_distinct {A : Type} (same : A -> A -> bool) (l : list A) :
  StronglySorted (fun x y => same x y = false) (drop_duplicated same l).
Proof.
  induction l as [|x l IH]; simpl; constructor.
  - now apply StronglySorted_filter.
  - apply Forall_forall. intros y Hy. apply filter_In in Hy as (_ & Hy).
    now apply negb_true_iff.
Qed.

Lemma StronglySorted_NoDup_map {A B : Type} (f : A -> B) (l : list A) :
  StronglySorted (fun x y => f x <> f y) l -> NoDup (map f l).
Proof.
  induction 1 as [|x l Hs IH Hx]; simpl; constructor; [|exact IH].
  intro Hin. apply in_map_iff in Hin as (y & Hy & Hin).
  rewrite Forall_forall in Hx. apply (Hx y Hin). congruence.
Qed.

Lemma StronglySorted_impl_in {A : Type} (R S : A -> A -> Prop) (l : list A) :
  (forall x y, In x l -> In y l -> R x y -> S x y) ->
  StronglySorted R l -> StronglySorted S l.
Proof.
  intros H Hs. induction Hs as [|x l Hs IH Hx]; constructor.
  - apply IH. intros a b Ha Hb. apply H; right; assumption.
  - rewrite Forall_forall in Hx |- *. intros y Hy.
    apply H; [left; reflexivity | right; exact Hy | auto].
Qed.

Lemma match_repo_tags_shape (re_compile : string -> result (string -> bool))
    (settings : Settings) (releases : list Release.t) (repo : string)
    (ys : list Release.t) :
  match_repo_tags re_compile settings releases repo = Ok ys ->
  exists g,
    ys = filter g (filter (fun r => String.eqb (Release.repository_full_name r) repo)
                          releases).
Proof.
  unfold match_repo_tags.
  destruct (filter _ releases) as [|d0 rest] eqn:E; intro H.
  - injection H as <-. exists (fun _ => false). reflexivity.
  - apply bind_Ok in H as (v & _ & H). apply bind_Ok in H as (regexp & _ & H).
    exists (matches_tag regexp). apply index_by_mask_Ok in H as (_ & ->).
    reflexivity.
Qed.

Lemma matched_tags_of_repo (re_compile : string -> result (string -> bool))
    (settings : Settings) (releases : list Release.t) (repo : string)
    (repos : list string) (matched : list (list Release.t)) :
  NoDup repos ->
  Forall2 (fun r m => match_repo_tags re_compile settings releases r = Ok m)
          repos matched ->
  exists g,
    filter (fun d => String.eqb (Release.repository_full_name d) repo)
           (List.concat matched)
    = filter g (filter (fun d => String.eqb (Release.repository_full_name d) repo)
                       releases).
Proof.
  intros Hnd H. induction H as [|r m repos matched Hm Htail IH].
  - exists (fun _ => false). simpl. symmetry. apply filter_nothing. auto.
  - inversion Hnd as [|? ? Hr Hnd']; subst. simpl. rewrite filter_app.
    destruct (match_repo_tags_shape _ _ _ _ _ Hm) as (g & ->).
    destruct (String.eqb r repo) eqn:E.
    + apply String.eqb_eq in E. subst r. exists g.
      assert (Hrest : filter (fun d => String.eqb (Release.repository_full_name d) repo)
                        (List.concat matched) = []).
      { clear IH Hm. apply filter_nothing. intros d Hd.
        apply String.eqb_neq. intro Hrepo.
        destruct (Forall2_concat_In _ _ _ d Htail Hd) as (r & ys & Hin & Hys & Hdys).
        destruct (match_repo_tags_shape _ _ _ _ _ Hys) as (g' & ->).
        apply filter_In in Hdys as (Hdys & _). apply filter_In in Hdys as (_ & Hdys).
        apply String.eqb_eq in Hdys. apply Hr. congruence. }
      rewrite Hrest, app_nil_r. rewrite filter_comm.
      rewrite (filter_idem_and (fun d => String.eqb (Release.repository_full_name d) repo)
                 (fun d => String.eqb (Release.repository_full_name d) repo)); auto.
    + destruct (IH Hnd') as (g' & Hg'). exists g'. rewrite Hg'.
      rewrite (filter_nothing _ (filter g _)); [reflexivity|].
      intros d Hd. apply filter_In in Hd as (Hd & _). apply filter_In in Hd as (_ & Hd).
      apply String.eqb_eq in Hd. apply String.eqb_neq. apply String.eqb_neq in E.
      congruence.
Qed.

(** X7: among the rows that [_match_releases_by_tag] returns for distinct
    repositories, those of one repository come newest first (their
    [published_at] never increases) and no two of them have the same tag. *)
Theorem tag_releases_newest_first_with_distinct_tags :
  forall (re_compile : string -> result (string -> bool))
         (repos : list string) (time_from time_to : Z)
         (settings : Settings) (db : MetadataDB) (out : list ReleaseDF.t)
         (repo : string),
    NoDup repos ->
    _match_releases_by_tag re_compile repos time_from time_to settings db = Ok out ->
    let rows :=
      filter (fun x => String.eqb (ReleaseDF.repository_full_name x) repo) out in
    StronglySorted (fun a b => ReleaseDF.published_at b <= ReleaseDF.published_at a)
      rows
    /\ NoDup (map ReleaseDF.tag rows).
Proof.
  intros re_compile repos time_from time_to settings db out repo Hnd H rows.
  unfold _match_releases_by_tag in H.
  apply bind_Ok in H as (matched & Hm & H). injection H as <-.
  apply mapM_Ok in Hm.
  destruct (matched_tags_of_repo _ _ _ repo _ _ Hnd Hm) as (g & Hg).
  unfold rows. rewrite filter_map_comm. simpl. rewrite Hg. clear Hg rows.
  set (window := filter (fun d => String.eqb (Release.repository_full_name d) repo)
                        (fetch_tags repos time_from time_to db)).
  assert (Hsorted : StronglySorted
                      (fun a b => Release.published_at b <= Release.published_at a)
                      window).
  { unfold window, fetch_tags. apply StronglySorted_filter.
    apply drop_duplicated_sorted. unfold newer_first.
    apply (sort_by_sorted Release.t Release.published_at). }
  assert (Hdistinct : StronglySorted (fun x y => Release.tag x <> Release.tag y) window).
  { apply StronglySorted_impl_in with (R := fun x y => same_repo_tag x y = false).
    - intros x y Hx Hy Hs Ht. unfold window in Hx, Hy.
      apply filter_In in Hx as (_ & Hx). apply filter_In in Hy as (_ & Hy).
      apply String.eqb_eq in Hx, Hy. unfold same_repo_tag in Hs.
      rewrite Hx, Hy, Ht, String.eqb_refl, opt_eqb_refl in Hs. discriminate.
    - unfold window, fetch_tags. apply StronglySorted_filter.
      apply drop_duplicated_distinct. }
  split.
  - apply StronglySorted_map. simpl. now apply StronglySorted_filter.
  - rewrite map_map. simpl. apply StronglySorted_NoDup_map.
    apply StronglySorted_impl_in with (R := fun x y => Release.tag x <> Release.tag y);
      [intros x y _ _ Hne E; exact (Hne E)|].
    now apply StronglySorted_filter.
Qed.

(** The three tagged releases of [r] in the example store come back in the
    order 500, 450, 350, with the tags [v1.2], [v1.1], [v1.0]. *)
Lemma tag_releases_newest_first_with_distinct_tags_witness :
  exists out,
    _match_releases_by_tag re_literal ["r"] 0 500 (Example.settings Match.tag)
      Example.db = Ok out
    /\ map ReleaseDF.published_at out = [500; 450; 350]
    /\ StronglySorted (fun a b => ReleaseDF.published_at b <= ReleaseDF.published_at a)
         (filter (fun x => String.eqb (ReleaseDF.repository_full_name x) "r") out)
    /\ NoDup (map ReleaseDF.tag
                (filter (fun x => String.eqb (ReleaseDF.repository_full_name x) "r")
                        out)).
Proof.
  eexists. split; [vm_compute; reflexivity|]. split; [reflexivity|].
  refine (tag_releases_newest_first_with_distinct_tags re_literal ["r"] 0 500
            (Example.settings Match.tag) Example.db _ "r" _ eq_refl).
  repeat constructor. simpl. tauto.
Defined.

(** * The probe of tag_or_branch *)

Lemma match_releases_by_tag_or_branch_split
    (re_compile : string -> result (string -> bool))
    (repos : list string) (time_from time_to : Z) (settings : Settings)
    (db : MetadataDB) (out : list ReleaseDF.t) :
  _match_releases_by_tag_or_branch re_compile repos time_from time_to settings db
  = Ok out ->
  let probed := probe_tagged_repos repos time_from time_to db in
  let others := set_difference repos probed in
  exists by_tag by_branch,
    out = (by_tag ++ by_branch)%list
    /\ ((probed = [] /\ by_tag = [])
        \/ _match_releases_by_tag re_compile probed time_from time_to settings db
           = Ok by_tag)
    /\ ((others = [] /\ by_branch = [])
        \/ _match_releases_by_branch re_compile others time_from time_to settings db
           = Ok by_branch).
Proof.
  unfold _match_releases_by_tag_or_branch. intro H. cbv zeta.
  apply bind_Ok in H as (by_tag & Ht & H).
  apply bind_Ok in H as (by_branch & Hb & H).
  assert (Hout : out = List.concat (by_tag ++ by_branch)).
  { unfold pd_concat in H. destruct (by_tag ++ by_branch)%list; [discriminate|].
    injection H as <-. reflexivity. }
  clear H. subst out. rewrite concat_app.
  exists (List.concat by_tag), (List.concat by_branch). split; [reflexivity|].
  apply when_nonempty_Ok in Ht, Hb. split.
  - destruct Ht as [(? & ->)|(_ & ?)]; [left | right]; auto.
  - destruct Hb as [(? & ->)|(_ & ?)]; [left | right]; auto.
Qed.



(** * Loading the releases in two batches *)

Lemma after_first_prefix (repo : string) :
  Str.after_first "/" (PREFIXES_github ++ repo) = Ok repo.
Proof.
  reflexivity.
Qed.

(** The consistent settings have the keys of the configured ones, and under
    the key of a repository the configured patterns with the kind that the
    matched releases fix. *)
Lemma consistent_release_settings_get (release_settings consistent : Settings)
    (matched_bys : list (string * Z)) (repo : string) (v : ReleaseMatchSetting) :
  consistent_release_settings release_settings matched_bys = Ok consistent ->
  dict_get (PREFIXES_github ++ repo) release_settings = Some v ->
  dict_get (PREFIXES_github ++ repo) consistent
  = Some {| branches_of := branches_of v; tags := tags v;
            match_ := match dict_get repo matched_bys with
                      | Some by_ => by_
                      | None => match_ v
                      end |}.
Proof.
  unfold consistent_release_settings. revert consistent.
  induction release_settings as [|[k setting] rest IH]; intros consistent H Hv;
    [discriminate|].
  simpl in H. apply bind_Ok in H as (fixed & Hfixed & H).
  apply bind_Ok in H as (rest' & Hrest & H). injection H as <-.
  apply bind_Ok in Hfixed as (repo' & Hrepo' & Hfixed).
  apply bind_Ok in Hfixed as (m & Hm & Hfixed). injection Hfixed as <-.
  cbn [dict_get] in Hv |- *.
  destruct (String.eqb (PREFIXES_github ++ repo) k) eqn:E.
  - apply String.eqb_eq in E. subst k. injection Hv as ->.
    rewrite after_first_prefix in Hrepo'. injection Hrepo' as <-.
    unfold Match.of_value in Hm.
    destruct (Match.is_member _); [|discriminate]. injection Hm as <-. reflexivity.
  - apply IH; assumption.
Qed.

Lemma consistent_release_settings_keys (release_settings consistent : Settings)
    (matched_bys : list (string * Z)) :
  consistent_release_settings release_settings matched_bys = Ok consistent ->
  map fst consistent = map fst release_settings.
Proof.
  unfold consistent_release_settings. intro H. apply mapM_Ok in H.
  induction H as [|[k setting] fixed rest rest' Hfixed _ IH]; [reflexivity|].
  simpl. rewrite IH. f_equal.
  unfold consistent_setting in Hfixed.
  apply bind_Ok in Hfixed as (repo' & _ & Hfixed).
  apply bind_Ok in Hfixed as (m & _ & Hfixed). now injection Hfixed as <-.
Qed.

(** The releases matched by tag that [load_releases] returns are published
    between [time_from] and [time_to], both included. *)
Lemma load_releases_tag_window (re_compile : string -> result (string -> bool))
    (repos : list string) (time_from time_to : Z) (settings : Settings)
    (db : MetadataDB) (out : list ReleaseDF.t) :
  load_releases re_compile repos time_from time_to settings db = Ok out ->
  forall x, In x out -> ReleaseDF.matched_by x = Match.tag ->
            time_from <= ReleaseDF.published_at x <= time_to.
Proof.
  intros H x Hx Hm.
  assert (Htag : forall rs t,
             _match_releases_by_tag re_compile rs time_from time_to settings db = Ok t ->
             In x t -> time_from <= ReleaseDF.published_at x <= time_to).
  { intros rs t Ht Hxt.
    apply (match_releases_by_tag_In _ _ _ _ _ _ _ Ht) in Hxt
      as (d & _ & _ & -> & Hf & _).
    apply fetch_tags_repo in Hf as (_ & _ & Hw & _). exact Hw. }
  assert (Hbranch : forall rs b,
             _match_releases_by_branch re_compile rs time_from time_to settings db = Ok b ->
             In x b -> False).
  { intros rs b Hb Hxb.
    destruct (match_releases_by_branch_rows _ _ _ _ _ _ _ Hb x Hxb) as (_ & Hk).
    rewrite Hm in Hk. discriminate. }
  destruct (load_releases_parts _ _ _ _ _ _ _ H)
    as (_ & t & tb & b & -> & Ht & Htb & Hb).
  apply in_app_or in Hx as [Hx|Hx]; [|apply in_app_or in Hx as [Hx|Hx]].
  - destruct Ht as [(_ & ->)|Ht]; [contradiction | eauto].
  - destruct Htb as [(_ & ->)|Htb]; [contradiction|].
    destruct (match_releases_by_tag_or_branch_split _ _ _ _ _ _ _ Htb)
      as (bt & bb & -> & Hbt & Hbb).
    apply in_app_or in Hx as [Hx|Hx].
    + destruct Hbt as [(_ & ->)|Hbt]; [contradiction | eauto].
    + destruct Hbb as [(_ & ->)|Hbb]; [contradiction | exfalso; eauto].
  - destruct Hb as [(_ & ->)|Hb]; [contradiction | exfalso; eauto].
Qed.

(** C1, as the specification words it, fails at [time_from]: the two loads
    are made with SQL [BETWEEN], which includes both bounds, so that the
    release [v1.0] of the example store, published at the instant 350, is in
    the load of the window from 350 to 500 and also in the load of the past,
    from 240 to 350, which is not the half-open interval that excludes
    350. *)
Lemma release_at_time_from_is_loaded_twice :
  exists out w' releases_new releases_old x,
    map_prs_to_releases re_literal example_gen_cache_key
      Example.fetch_release_histories Example.db tt
      [Example.pr1; Example.pr2] 350 500 (Example.settings Match.tag)
      false Example.world = (Ok out, w')
    /\ filter is_load_releases (trace w')
       = [ LoadReleases ["r"] 350 500 (Example.settings Match.tag);
           LoadReleases ["r"] 240 350 (Example.settings Match.tag) ]
    /\ load_releases re_literal ["r"] 350 500 (Example.settings Match.tag) Example.db
       = Ok releases_new
    /\ load_releases re_literal ["r"] 240 350 (Example.settings Match.tag) Example.db
       = Ok releases_old
    /\ In x releases_new
    /\ In x releases_old
    /\ ReleaseDF.published_at x = 350
    /\ ~ (240 <= ReleaseDF.published_at x < 350).
Proof.
  eexists; eexists; eexists; eexists; eexists.
  split; [vm_compute; reflexivity|]. split; [reflexivity|].
  split; [vm_compute; reflexivity|]. split; [vm_compute; reflexivity|].
  split; [right; right; left; reflexivity|].
  split; [left; reflexivity|]. simpl. split; [reflexivity | lia].
Qed.

(** C1, amended: when a pull request of the frame was merged before
    [time_from], a call of [map_prs_to_releases] that returns has loaded the
    releases twice and no more: first [load_releases] with the bounds
    [time_from] and [time_to] under the configured settings, then
    [load_releases] with the bounds [earliest_merge] and [time_from], where
    [earliest_merge] is one minute (60 seconds) before the earliest
    [merged_at] of the frame, under settings that have the keys of the
    configured ones and, for each repository, the configured tag and branch
    patterns with the match kind fixed to the [matched_by] of the first
    release of the repository in the first load, or the configured kind when
    the first load has no release of it.  Both loads include their bounds:
    the releases matched by tag are published from [time_from] to [time_to]
    in the first and from [earliest_merge] to [time_from] in the second. *)
Theorem old_releases_loaded_under_consistent_settings :
  forall (re_compile : string -> result (string -> bool))
         (gen_cache_key : string -> string -> ReleaseMatchSetting -> string)
         (PrecomputedDB : Type)
         (fetch_histories :
            MetadataDB -> PrecomputedDB -> list (string * list (Z * ReleaseDF.t)) ->
            result (list (string * (string -> option Z))))
         (mdb : MetadataDB) (pdb : PrecomputedDB)
         (prs : list PullRequestDF.t) (time_from time_to : Z)
         (release_settings : Settings) (cache : bool)
         (w w' : World) (out : list PRRelease.t),
    (exists p, In p prs /\ PullRequestDF.merged_at p < time_from) ->
    map_prs_to_releases re_compile gen_cache_key fetch_histories mdb pdb
      prs time_from time_to release_settings cache w = (Ok out, w') ->
    exists (earliest_merge : Z) (releases_new releases_old : list ReleaseDF.t)
           (consistent : Settings) (log : list Event),
      let repos := Str.distinct (map PullRequestDF.repository_full_name prs) in
      (forall p, In p prs -> earliest_merge <= PullRequestDF.merged_at p - 60)
      /\ (exists p, In p prs /\ earliest_merge = PullRequestDF.merged_at p - 60)
      /\ trace w' = (trace w ++ log)%list
      /\ filter is_load_releases log
         = [ LoadReleases repos time_from time_to release_settings;
             LoadReleases repos earliest_merge time_from consistent ]
      /\ load_releases re_compile repos time_from time_to release_settings mdb
         = Ok releases_new
      /\ load_releases re_compile repos earliest_merge time_from consistent mdb
         = Ok releases_old
      /\ map fst consistent = map fst release_settings
      /\ (forall repo v,
             dict_get (PREFIXES_github ++ repo) release_settings = Some v ->
             dict_get (PREFIXES_github ++ repo) consistent
             = Some {| branches_of := branches_of v; tags := tags v;
                       match_ := kind_fixed_by releases_new repo v |})
      /\ (forall x, In x releases_new -> ReleaseDF.matched_by x = Match.tag ->
                    time_from <= ReleaseDF.published_at x <= time_to)
      /\ (forall x, In x releases_old -> ReleaseDF.matched_by x = Match.tag ->
                    earliest_merge <= ReleaseDF.published_at x <= time_from).
Proof.
  intros re_compile gen_cache_key PrecomputedDB fetch_histories mdb pdb
         prs time_from time_to release_settings cache w w' out (p0 & Hp0 & Hmerged) H.
  destruct prs as [|pr rest]; [contradiction|].
  destruct (earliest_merge_of_is_min pr rest) as (Hmin & Hatt).
  unfold map_prs_to_releases in H.
  set (repos := Str.distinct (map PullRequestDF.repository_full_name (pr :: rest))) in *.
  set (em := earliest_merge_of pr (pr :: rest)) in *.
  apply bindM_Ok in H as (releases & w1 & Hload & Htail).
  unfold load_releases_around in Hload.
  assert (Hlt : (em >=? time_from) = false).
  { rewrite Z.geb_leb. apply Z.leb_gt. specialize (Hmin p0 Hp0). lia. }
  rewrite Hlt in Hload.
  apply bindM_Ok in Hload as (releases_new & wa & Hnew & Hload).
  apply bindM_Ok in Hload as (consistent & wb & Hcons & Hload).
  apply bindM_Ok in Hload as (releases_old & wc & Hold & Hload).
  apply ret_Ok in Hload as (-> & ->).
  apply lift_Ok in Hcons as (Hcons & ->).
  apply await_load_releases_Ok in Hnew as (Hnew & Ta).
  apply await_load_releases_Ok in Hold as (Hold & Tc).
  destruct (map_loaded_releases_emits gen_cache_key PrecomputedDB fetch_histories
              mdb pdb _ _ _ _ _ _ _ Htail) as (l & Tl & Fl).
  exists em, releases_new, releases_old, consistent,
    ([LoadReleases repos time_from time_to release_settings;
      LoadReleases repos em time_from consistent] ++ l)%list.
  cbv zeta. fold repos.
  split; [exact Hmin|]. split; [exact Hatt|].
  split; [rewrite Tl, Tc, Ta, <- !app_assoc; reflexivity|].
  split; [rewrite filter_app, (filter_not_a_load _ Fl); reflexivity|].
  split; [exact Hnew|]. split; [exact Hold|].
  split; [exact (consistent_release_settings_keys _ _ _ Hcons)|].
  split.
  { intros repo v Hv.
    rewrite (consistent_release_settings_get _ _ _ _ _ Hcons Hv).
    unfold kind_fixed_by. rewrite extract_matched_bys_get.
    destruct (find _ releases_new); reflexivity. }
  split.
  - exact (load_releases_tag_window _ _ _ _ _ _ _ Hnew).
  - exact (load_releases_tag_window _ _ _ _ _ _ _ Hold).
Qed.

(** The two pull requests of the example, merged at 300 and 400, and the
    window from 380 to 500 under the rule tag_or_branch: the window is
    loaded first, its releases are matched by tag, and the past from 240 to
    380 is loaded under the rule tag. *)
Lemma old_releases_loaded_under_consistent_settings_witness :
  exists out w',
    map_prs_to_releases re_literal example_gen_cache_key
      Example.fetch_release_histories Example.db tt
      [Example.pr1; Example.pr2] 380 500 (Example.settings Match.tag_or_branch)
      false Example.world = (Ok out, w')
    /\ filter is_load_releases (trace w')
       = [ LoadReleases ["r"] 380 500 (Example.settings Match.tag_or_branch);
           LoadReleases ["r"] 240 380 (Example.settings Match.tag) ]
    /\ exists earliest_merge releases_new releases_old consistent log,
         (forall p, In p [Example.pr1; Example.pr2] ->
                    earliest_merge <= PullRequestDF.merged_at p - 60)
         /\ (exists p, In p [Example.pr1; Example.pr2]
                       /\ earliest_merge = PullRequestDF.merged_at p - 60)
         /\ trace w' = (trace Example.world ++ log)%list
         /\ filter is_load_releases log
            = [ LoadReleases ["r"] 380 500 (Example.settings Match.tag_or_branch);
                LoadReleases ["r"] earliest_merge 380 consistent ]
         /\ load_releases re_literal ["r"] 380 500
              (Example.settings Match.tag_or_branch) Example.db = Ok releases_new
         /\ load_releases re_literal ["r"] earliest_merge 380 consistent Example.db
            = Ok releases_old
         /\ map fst consistent = map fst (Example.settings Match.tag_or_branch)
         /\ (forall repo v,
                dict_get (PREFIXES_github ++ repo)
                  (Example.settings Match.tag_or_branch) = Some v ->
                dict_get (PREFIXES_github ++ repo) consistent
                = Some {| branches_of := branches_of v; tags := tags v;
                          match_ := kind_fixed_by releases_new repo v |})
         /\ (forall x, In x releases_new -> ReleaseDF.matched_by x = Match.tag ->
                       380 <= ReleaseDF.published_at x <= 500)
         /\ (forall x, In x releases_old -> ReleaseDF.matched_by x = Match.tag ->
                       earliest_merge <= ReleaseDF.published_at x <= 380).
Proof.
  eexists; eexists. split; [vm_compute; reflexivity|]. split; [reflexivity|].
  refine (old_releases_loaded_under_consistent_settings
            re_literal example_gen_cache_key unit
            Example.fetch_release_histories Example.db tt
            [Example.pr1; Example.pr2] 380 500
            (Example.settings Match.tag_or_branch) false Example.world _ _ _ _).
  - exists Example.pr1. split; [left; reflexivity | reflexivity].
  - vm_compute. reflexivity.
Defined.

(** * Further properties of the mapping of pull requests *)

(** ** The cache of the releases of pull requests *)

Lemma bindM_run_Ok {A B : Type} (c : M A) (k : A -> M B) (w w' : World) (a : A) :
  c w = (Ok a, w') -> bindM c k w = k a w'.
Proof.
  intro H. unfold bindM. now rewrite H.
Qed.

Lemma bindM_run_Raise {A B : Type} (c : M A) (k : A -> M B) (w w' : World)
    (e : Exception) :
  c w = (Raise e, w') -> bindM c k w = (Raise e, w').
Proof.
  intro H. unfold bindM. now rewrite H.
Qed.

Lemma forM_Ok {A B : Type} (f : A -> M B) (l : list A) :
  (forall x, In x l -> forall w, exists y w', f x w = (Ok y, w')) ->
  forall w, exists ys w', forM f l w = (Ok ys, w').
Proof.
  induction l as [|x l IH]; intros Hf w; simpl.
  - eexists; eexists; reflexivity.
  - destruct (Hf x (or_introl eq_refl) w) as (y & w1 & E1).
    destruct (IH (fun x' Hx' => Hf x' (or_intror Hx')) w1) as (ys & w2 & E2).
    unfold bindM, ret. rewrite E1, E2. eexists; eexists; reflexivity.
Qed.

Section CacheIndependence.

Variable re_compile : string -> result (string -> bool).
Variable gen_cache_key : string -> string -> ReleaseMatchSetting -> string.
Variable PrecomputedDB : Type.
Variable fetch_histories :
  MetadataDB -> PrecomputedDB -> list (string * list (Z * ReleaseDF.t)) ->
  result (list (string * (string -> option Z))).
Variable mdb : MetadataDB.
Variable pdb : PrecomputedDB.

Lemma map_prs_to_releases_value (prs : list PullRequestDF.t)
    (releases : list ReleaseDF.t) (w : World) :
  exists w',
    _map_prs_to_releases fetch_histories mdb pdb prs releases w
    = (histories <- fetch_histories mdb pdb (group_releases releases) ;;
       released_prs <-
         mapM (released_prs_of_repo prs (group_releases releases) histories)
              (groupby_keys (map PullRequestDF.repository_full_name prs)) ;;
       mapM (clamp_published_at prs) (List.concat released_prs), w').
Proof.
  unfold _map_prs_to_releases, bindM, emit, lift. simpl.
  destruct (fetch_histories mdb pdb (group_releases releases)) as [histories|e];
    simpl; [|eexists; reflexivity].
  destruct (mapM _ (groupby_keys _)) as [released|e]; simpl; eexists; reflexivity.
Qed.

Lemma mapped_rows_repository (prs : list PullRequestDF.t)
    (releases : list ReleaseDF.t) (w w' : World) (out : list PRRelease.t) :
  _map_prs_to_releases fetch_histories mdb pdb prs releases w = (Ok out, w') ->
  forall row, In row out ->
              exists p, In p prs
                        /\ PRRelease.repository_full_name row
                           = PullRequestDF.repository_full_name p.
Proof.
  intros H row' Hrow'. unfold _map_prs_to_releases in H.
  apply bindM_Ok in H as ([] & w1 & _ & H).
  apply bindM_Ok in H as (histories & w2 & _ & H).
  apply bindM_Ok in H as (released & w3 & Hrel & H).
  apply lift_Ok in Hrel as (Hrel & _). apply lift_Ok in H as (Hclamp & _).
  apply mapM_Ok in Hclamp.
  destruct (Forall2_In_r _ _ _ _ Hclamp Hrow') as (row & Hrow & Hc).
  apply mapM_Ok in Hrel.
  destruct (Forall2_concat_In _ _ _ _ Hrel Hrow) as (repo & rows & _ & Hrows & Hin).
  unfold released_prs_of_repo in Hrows.
  destruct (dict_get repo (group_releases releases)) as [repo_releases|];
    [|injection Hrows as <-; contradiction].
  destruct (dict_get repo histories) as [history|];
    [|injection Hrows as <-; contradiction].
  apply bind_Ok in Hrows as (found & Hfound & Hrows). injection Hrows as <-.
  apply mapM_Ok in Hfound.
  destruct (Forall2_concat_In _ _ _ _ Hfound Hin) as (p & prows & Hp & Hprows & Hin').
  apply filter_In in Hp as (Hp & Hprepo). apply String.eqb_eq in Hprepo.
  destruct (released_pr_row _ _ _ _ _ _ Hprows Hin')
    as (ri & r & _ & _ & _ & _ & _ & Hrepo & _).
  unfold clamp_published_at in Hc. apply bind_Ok in Hc as (merged & _ & Hc).
  injection Hc as <-. simpl. exists p. split; [exact Hp | congruence].
Qed.

Lemma load_pr_releases_from_cache_Ok (prs : list (string * string))
    (matched_bys : list (string * Z)) (release_settings : Settings) (w : World) :
  (forall pr, In pr prs ->
              dict_get (PREFIXES_github ++ snd pr) release_settings <> None) ->
  exists records w',
    _load_pr_releases_from_cache gen_cache_key prs matched_bys release_settings w
    = (Ok records, w').
Proof.
  intro Hconf. unfold _load_pr_releases_from_cache.
  assert (Hkeys : exists keys,
             mapM (fun pr => _gen_released_pr_cache_key gen_cache_key (fst pr) (snd pr)
                               release_settings) prs = Ok keys).
  { induction prs as [|pr prs IH]; simpl; [eexists; reflexivity|].
    destruct IH as (keys & ->); [intros; apply Hconf; right; assumption|].
    unfold _gen_released_pr_cache_key, dict_item.
    destruct (dict_get (PREFIXES_github ++ snd pr) release_settings) eqn:E;
      [simpl; eexists; reflexivity|].
    exfalso. apply (Hconf pr); [left; reflexivity | exact E]. }
  destruct Hkeys as (keys & Hkeys). unfold bindM at 1, lift. rewrite Hkeys.
  destruct (forM_Ok cache_multi_get (batches 32 keys)
              (fun b _ w0 => ex_intro _ _ (ex_intro _ _ eq_refl)) w)
    as (vals & w' & E).
  unfold bindM, ret. rewrite E. eexists; eexists; reflexivity.
Qed.

Lemma cache_pr_releases_Ok (releases : list PRRelease.t)
    (release_settings : Settings) (w : World) :
  (forall r, In r releases ->
             dict_get (PREFIXES_github ++ PRRelease.repository_full_name r)
               release_settings <> None) ->
  exists w', _cache_pr_releases gen_cache_key releases release_settings w = (Ok tt, w').
Proof.
  intro Hconf. unfold _cache_pr_releases.
  match goal with
  | |- context [forM ?f releases] =>
      destruct (forM_Ok f releases) with (w := w) as (l & w' & E)
  end.
  - intros r Hr w0.
    unfold bindM, lift, cache_set, _gen_released_pr_cache_key, dict_item.
    destruct (dict_get (PREFIXES_github ++ PRRelease.repository_full_name r)
                release_settings) eqn:E;
      [simpl; eexists; eexists; reflexivity|].
    exfalso. exact (Hconf r Hr E).
  - rewrite (bindM_run_Ok _ _ _ _ _ E). eexists; reflexivity.
Qed.

(** X8: once the releases are loaded, whether [map_prs_to_releases] was
    given a cache client changes nothing of what it returns.  With a cache
    that holds releases of pull requests as [_cache_pr_releases] writes
    them, and settings that have the repository of every pull request, the
    rest of [map_prs_to_releases] gives the rows, or raises the exception,
    that it gives without a cache: the frame read from the cache is
    appended with [append], which is not in place, so it is dropped and
    every pull request is mapped anew. *)
Theorem cached_pr_releases_are_dropped
    (prs : list PullRequestDF.t) (releases : list ReleaseDF.t)
    (release_settings : Settings) (w1 w2 : World) :
  (forall p, In p prs ->
             dict_get (PREFIXES_github ++ PullRequestDF.repository_full_name p)
               release_settings <> None) ->
  fst (map_loaded_releases gen_cache_key fetch_histories mdb pdb
         prs releases release_settings true w1)
  = fst (map_loaded_releases gen_cache_key fetch_histories mdb pdb
           prs releases release_settings false w2).
Proof.
  intro Hconf. unfold map_loaded_releases.
  destruct (load_pr_releases_from_cache_Ok
              (map (fun p => (PullRequestDF.node_id p,
                              PullRequestDF.repository_full_name p)) prs)
              (_extract_matched_bys_from_releases releases) release_settings w1)
    as (records & wa1 & Ec).
  { intros pr0 Hin. apply in_map_iff in Hin as (p & <- & Hp). now apply Hconf. }
  rewrite (bindM_run_Ok _ _ _ _ _ Ec).
  rewrite (bindM_run_Ok (ret (@nil PRRelease.t)) _ w2 w2 [] eq_refl).
  match goal with
  | |- context [_map_prs_to_releases _ _ _ ?merged releases] =>
      destruct (map_prs_to_releases_value merged releases wa1) as (wa2 & Ea);
      destruct (map_prs_to_releases_value merged releases w2) as (wb2 & Eb);
      assert (Hmerged : incl merged prs) by (intros p Hp; apply filter_In in Hp; tauto)
  end.
  match type of Ea with
  | _ = (?v, _) => destruct v as [missed|e] eqn:Ev
  end.
  - rewrite (bindM_run_Ok _ _ _ _ _ Ea), (bindM_run_Ok _ _ _ _ _ Eb).
    destruct (cache_pr_releases_Ok missed release_settings wa2) as (wa3 & Ew).
    { intros row Hrow.
      destruct (mapped_rows_repository _ _ _ _ _ Ea row Hrow) as (p & Hp & ->).
      apply Hconf, Hmerged, Hp. }
    rewrite (bindM_run_Ok _ _ _ _ _ Ew).
    rewrite (bindM_run_Ok (ret tt) _ wb2 wb2 tt eq_refl).
    reflexivity.
  - rewrite (bindM_run_Raise _ _ _ _ _ Ea), (bindM_run_Raise _ _ _ _ _ Eb).
    reflexivity.
Qed.

End CacheIndependence.

(** With the release of [PR1] cached as published at 999, the mapping of the
    two pull requests of the example to the three loaded releases is the one
    made without a cache: [PR1] is released at 350 and [PR2] at 450. *)
Lemma cached_pr_releases_are_dropped_witness :
  exists out,
    fst (map_loaded_releases example_gen_cache_key Example.fetch_release_histories
           Example.db tt [Example.pr1; Example.pr2]
           (map tag_release (github_releases Example.db))
           (Example.settings Match.tag) true world_with_cached_release)
    = Ok out
    /\ fst (map_loaded_releases example_gen_cache_key Example.fetch_release_histories
              Example.db tt [Example.pr1; Example.pr2]
              (map tag_release (github_releases Example.db))
              (Example.settings Match.tag) false Example.world)
       = Ok out
    /\ map PRRelease.published_at out = [350; 450].
Proof.
  eexists. split; [|split].
  - etransitivity.
    + apply (cached_pr_releases_are_dropped example_gen_cache_key unit
               Example.fetch_release_histories Example.db tt
               [Example.pr1; Example.pr2]
               (map tag_release (github_releases Example.db))
               (Example.settings Match.tag) world_with_cached_release Example.world).
      intros p [<-|[<-|[]]]; discriminate.
    + vm_compute. reflexivity.
  - vm_compute. reflexivity.
  - reflexivity.
Defined.

(** * Properties of the pull request metrics *)

Section MetricsProperties.

Import PullRequestFacts pull_request_metrics.

Lemma is_some_mark (b : bool) : is_some (mark b) = b.
Proof.
  now destruct b.
Qed.

Lemma count_marked_cons (x : option Z) (a : list (option Z)) :
  count_marked (x :: a) = (if is_some x then 1 else 0) + count_marked a.
Proof.
  unfold count_marked. simpl. destruct (is_some x); simpl List.length; lia.
Qed.

(** A mask that is the disjoint union of two masks marks as many rows as
    the two together. *)
Lemma count_marked_split {A : Type} (p q r : A -> bool) (l : list A) :
  (forall x, In x l -> p x = q x || r x) ->
  (forall x, In x l -> q x && r x = false) ->
  count_marked (map (fun x => mark (p x)) l)
  = count_marked (map (fun x => mark (q x)) l)
    + count_marked (map (fun x => mark (r x)) l).
Proof.
  induction l as [|x l IH]; intros Hu Hd; [reflexivity|].
  simpl map. rewrite !count_marked_cons, !is_some_mark.
  rewrite IH by (intros; first [apply Hu | apply Hd]; right; assumption).
  specialize (Hu x (or_introl eq_refl)). specialize (Hd x (or_introl eq_refl)).
  destruct (p x), (q x), (r x); simpl in Hu, Hd; try congruence; lia.
Qed.

Lemma in_range_union (t0 t1 t2 : Z) (x : option Z) :
  t0 <= t1 -> t1 <= t2 ->
  in_range t0 t2 x = in_range t0 t1 x || in_range t1 t2 x.
Proof.
  intros H01 H12. destruct x as [v|]; [|reflexivity]. simpl.
  destruct (t0 <=? v) eqn:E0, (v <? t2) eqn:E2, (v <? t1) eqn:E1,
           (t1 <=? v) eqn:E1'; simpl; try reflexivity; lia.
Qed.

Lemma in_range_disjoint (t0 t1 t2 : Z) (x : option Z) :
  in_range t0 t1 x && in_range t1 t2 x = false.
Proof.
  destruct x as [v|]; [|reflexivity]. simpl.
  destruct (t0 <=? v), (v <? t2), (v <? t1) eqn:E1, (t1 <=? v) eqn:E1';
    simpl; try reflexivity; lia.
Qed.

Lemma in_range_bounds (t0 t1 : Z) (x : option Z) :
  in_range t0 t1 x = true -> exists v, x = Some v /\ t0 <= v < t1.
Proof.
  destruct x as [v|]; [|discriminate]. simpl. intro H.
  apply andb_true_iff in H as (H0 & H1). exists v. split; [reflexivity|lia].
Qed.

Ltac split_bins H01 H12 :=
  apply count_marked_split; intros f _;
  [ rewrite (in_range_union _ _ _ _ H01 H12);
    repeat match goal with |- context [is_some ?x] => destruct (is_some x) end;
    simpl; rewrite ?orb_false_r; reflexivity
  | repeat match goal with |- context [is_some ?x] => destruct (is_some x) end;
    simpl; rewrite ?andb_false_r; try reflexivity; apply in_range_disjoint ].

(** X9: the counting calculators add up over adjacent bins: what
    [OpenedCalculator], [MergedCalculator], [RejectedCalculator],
    [ClosedCalculator] and [ReleasedCalculator] mark in the window from [t0]
    to [t2] is what they mark from [t0] to [t1] and from [t1] to [t2]
    together, no pull request being marked in both. *)
Theorem counters_add_up_over_adjacent_bins (facts : list PullRequestFacts.t)
    (t0 t1 t2 : Z) :
  t0 <= t1 -> t1 <= t2 ->
  count_marked (OpenedCalculator._analyze facts t0 t2)
  = count_marked (OpenedCalculator._analyze facts t0 t1)
    + count_marked (OpenedCalculator._analyze facts t1 t2)
  /\ count_marked (MergedCalculator._analyze facts t0 t2)
     = count_marked (MergedCalculator._analyze facts t0 t1)
       + count_marked (MergedCalculator._analyze facts t1 t2)
  /\ count_marked (RejectedCalculator._analyze facts t0 t2)
     = count_marked (RejectedCalculator._analyze facts t0 t1)
       + count_marked (RejectedCalculator._analyze facts t1 t2)
  /\ count_marked (ClosedCalculator._analyze facts t0 t2)
     = count_marked (ClosedCalculator._analyze facts t0 t1)
       + count_marked (ClosedCalculator._analyze facts t1 t2)
  /\ count_marked (ReleasedCalculator._analyze facts t0 t2)
     = count_marked (ReleasedCalculator._analyze facts t0 t1)
       + count_marked (ReleasedCalculator._analyze facts t1 t2).
Proof.
  intros H01 H12.
  unfold OpenedCalculator._analyze, MergedCalculator._analyze,
    RejectedCalculator._analyze, ClosedCalculator._analyze,
    ReleasedCalculator._analyze.
  repeat split; split_bins H01 H12.
Qed.

Lemma counters_add_up_over_adjacent_bins_witness :
  count_marked (ClosedCalculator._analyze ExampleFacts.facts 0 10)
  = count_marked (ClosedCalculator._analyze ExampleFacts.facts 0 6)
    + count_marked (ClosedCalculator._analyze ExampleFacts.facts 6 10).
Proof.
  apply (counters_add_up_over_adjacent_bins ExampleFacts.facts 0 6 10); lia.
Defined.

(** X10: when merging a pull request closes it at that instant, the pull
    requests that [ClosedCalculator] marks in a window are those that
    [MergedCalculator] marks and those that [RejectedCalculator] marks, and
    none is marked by both. *)
Theorem closed_is_merged_plus_rejected (facts : list PullRequestFacts.t)
    (min_time max_time : Z) :
  (forall f, In f facts -> merged f <> None -> closed f = merged f) ->
  count_marked (ClosedCalculator._analyze facts min_time max_time)
  = count_marked (MergedCalculator._analyze facts min_time max_time)
    + count_marked (RejectedCalculator._analyze facts min_time max_time).
Proof.
  intro Hclosed.
  unfold ClosedCalculator._analyze, MergedCalculator._analyze,
    RejectedCalculator._analyze.
  apply count_marked_split; intros f Hf; specialize (Hclosed f Hf);
    destruct (merged f) as [m|]; simpl.
  - rewrite Hclosed by discriminate. simpl. now rewrite orb_false_r.
  - destruct (is_some (closed f)); reflexivity.
  - destruct (is_some (closed f)); simpl; now rewrite andb_false_r.
  - reflexivity.
Qed.

Lemma closed_is_merged_plus_rejected_witness :
  count_marked (ClosedCalculator._analyze ExampleFacts.facts 0 10)
  = count_marked (MergedCalculator._analyze ExampleFacts.facts 0 10)
    + count_marked (RejectedCalculator._analyze ExampleFacts.facts 0 10).
Proof.
  apply (closed_is_merged_plus_rejected ExampleFacts.facts 0 10).
  intros f [<-|[<-|[<-|[]]]]; simpl; congruence.
Defined.

Lemma nth_error_map_Some {A B : Type} (g : A -> B) (l : list A) (i : nat) (y : B) :
  nth_error (map g l) i = Some y -> exists x, In x l /\ nth_error l i = Some x /\ y = g x.
Proof.
  rewrite nth_error_map. destruct (nth_error l i) as [x|] eqn:E; [|discriminate].
  intro H. injection H as <-. exists x. split; [|auto].
  eapply nth_error_In; eassumption.
Qed.

Ltac reflect_Z :=
  rewrite ?Z.geb_leb in *;
  repeat match goal with
         | H : context [?a <? ?b] |- _ => destruct (Z.ltb_spec a b)
         | H : context [?a <=? ?b] |- _ => destruct (Z.leb_spec a b)
         | |- context [?a <? ?b] => destruct (Z.ltb_spec a b)
         | |- context [?a <=? ?b] => destruct (Z.leb_spec a b)
         end.

Lemma all_counter_row (f : PullRequestFacts.t) (min_time max_time : Z) :
  chronological f ->
  in_range min_time max_time (created f) = true
  \/ in_range min_time max_time (merged f) = true
  \/ in_range min_time max_time (closed f) = true
  \/ in_range min_time max_time (released f) = true ->
  negb (lt_opt (released f) min_time
        || lt_opt (closed f) min_time && negb (is_some (merged f))
        || ge_opt (created f) max_time
        || lt_opt (merged f) min_time && negb (is_some (released f))) = true.
Proof.
  unfold chronological, le_opt. intros (Hcc & Hcm & Hcr & Hmr & Hmc & Hrm) H.
  destruct (created f) as [c|], (merged f) as [m|], (closed f) as [cl|],
           (released f) as [r|];
    simpl in *;
    try (specialize (Hmc ltac:(discriminate)); try discriminate Hmc;
         injection Hmc as ->);
    try (exfalso; apply Hrm; [discriminate | reflexivity]);
    reflect_Z; simpl in *; try reflexivity;
    try (exfalso; intuition (discriminate || lia)).
Qed.

(** X11: on facts in the order of time, [AllCounter] marks every pull
    request that one of [OpenedCalculator], [MergedCalculator],
    [RejectedCalculator], [ClosedCalculator] and [ReleasedCalculator] marks
    in the same window. *)
Theorem all_counter_marks_every_counted_pull_request
    (facts : list PullRequestFacts.t) (min_time max_time : Z) (i : nat) :
  Forall chronological facts ->
  nth_error (OpenedCalculator._analyze facts min_time max_time) i = Some (Some 1)
  \/ nth_error (MergedCalculator._analyze facts min_time max_time) i = Some (Some 1)
  \/ nth_error (RejectedCalculator._analyze facts min_time max_time) i = Some (Some 1)
  \/ nth_error (ClosedCalculator._analyze facts min_time max_time) i = Some (Some 1)
  \/ nth_error (ReleasedCalculator._analyze facts min_time max_time) i = Some (Some 1) ->
  nth_error (AllCounter._analyze facts min_time max_time) i = Some (Some 1).
Proof.
  intros Hchrono H.
  unfold OpenedCalculator._analyze, MergedCalculator._analyze,
    RejectedCalculator._analyze, ClosedCalculator._analyze,
    ReleasedCalculator._analyze, AllCounter._analyze in *.
  assert (Hrow : exists f, In f facts /\ nth_error facts i = Some f
                           /\ (in_range min_time max_time (created f) = true
                               \/ in_range min_time max_time (merged f) = true
                               \/ in_range min_time max_time (closed f) = true
                               \/ in_range min_time max_time (released f) = true)).
  { destruct H as [H|[H|[H|[H|H]]]];
      apply nth_error_map_Some in H as (f & Hf & Hi & H); exists f;
      (split; [exact Hf|split; [exact Hi|]]);
      unfold mark in H;
      match type of H with
      | _ = (if ?b then _ else _) => destruct b eqn:E; [|discriminate]
      end;
      repeat (apply andb_true_iff in E as (E & ?)); auto. }
  destruct Hrow as (f & Hf & Hi & Hrow).
  rewrite nth_error_map, Hi. simpl.
  rewrite all_counter_row; [reflexivity| |exact Hrow].
  rewrite Forall_forall in Hchrono. now apply Hchrono.
Qed.

Lemma all_counter_marks_every_counted_pull_request_witness :
  nth_error (AllCounter._analyze ExampleFacts.facts 4 6) 0%nat = Some (Some 1).
Proof.
  apply (all_counter_marks_every_counted_pull_request ExampleFacts.facts 4 6 0).
  - repeat constructor; simpl; try lia; congruence.
  - right. left. reflexivity.
Defined.

Lemma Forall2_map_same {A B C : Type} (R : B -> C -> Prop) (g : A -> B) (h : A -> C)
    (l : list A) :
  (forall x, In x l -> R (g x) (h x)) -> Forall2 R (map g l) (map h l).
Proof.
  induction l as [|x l IH]; intro H; simpl; constructor.
  - apply H. now left.
  - apply IH. intros. apply H. now right.
Qed.

(** X12: the time calculators sample the pull requests that the counting
    calculators mark: [LeadTimeCalculator] gives a time to exactly the pull
    requests that [ReleasedCalculator] marks in the same window; every pull
    request to which [ReleaseTimeCalculator] gives a time is marked by
    [ReleasedCalculator], and every one to which [MergingTimeCalculator]
    gives a time is marked by [ClosedCalculator]. *)
Theorem timed_pull_requests_are_counted (astype_s : option Z -> Z)
    (facts : list PullRequestFacts.t) (min_time max_time : Z) :
  map is_some (LeadTimeCalculator._analyze astype_s facts min_time max_time)
  = map is_some (ReleasedCalculator._analyze facts min_time max_time)
  /\ Forall2 (fun time count => time <> None -> count = Some 1)
       (ReleaseTimeCalculator._analyze astype_s facts min_time max_time)
       (ReleasedCalculator._analyze facts min_time max_time)
  /\ Forall2 (fun time count => time <> None -> count = Some 1)
       (MergingTimeCalculator._analyze astype_s facts min_time max_time)
       (ClosedCalculator._analyze facts min_time max_time).
Proof.
  unfold LeadTimeCalculator._analyze, ReleasedCalculator._analyze,
    ReleaseTimeCalculator._analyze, MergingTimeCalculator._analyze,
    ClosedCalculator._analyze.
  split; [|split].
  - rewrite !map_map. apply map_ext. intro f.
    destruct (released f) as [r|]; simpl; [|reflexivity].
    now destruct ((min_time <=? r) && (r <? max_time)).
  - apply Forall2_map_same. intros f _.
    destruct (released f) as [r|]; simpl.
    + destruct ((min_time <=? r) && (r <? max_time)); simpl;
        [reflexivity | rewrite andb_false_r; congruence].
    + rewrite andb_false_r. congruence.
  - apply Forall2_map_same. intros f _.
    destruct (closed f) as [c|]; simpl.
    + destruct ((min_time <=? c) && (c <? max_time)); simpl;
        [reflexivity | rewrite !andb_false_r; congruence].
    + rewrite !andb_false_r. congruence.
Qed.

(** ** The cycle time *)

Lemma add_peek_length (sumval peek s : list (option Z)) :
  CycleTimeCalculator.add_peek sumval peek = Ok s ->
  List.length s = List.length sumval.
Proof.
  unfold CycleTimeCalculator.add_peek. cbv zeta.
  destruct (List.length sumval =? List.length peek)%nat eqn:E.
  - apply Nat.eqb_eq in E. intro H. injection H as <-.
    rewrite length_map, length_combine. lia.
  - destruct (_ || _); [intro H; injection H as <-; reflexivity|].
    destruct (_ || _); discriminate.
Qed.

Lemma add_peek_nth (sumval peek : list (option Z)) (i : nat) :
  List.length peek = List.length sumval ->
  exists s, CycleTimeCalculator.add_peek sumval peek = Ok s
            /\ nth i s None
               = match nth i sumval None, nth i peek None with
                 | None, Some p => Some p
                 | Some v, Some p => Some (v + p)
                 | v, None => v
                 end.
Proof.
  intro Hlen. unfold CycleTimeCalculator.add_peek. cbv zeta.
  rewrite <- Hlen, Nat.eqb_refl. eexists. split; [reflexivity|].
  set (g := fun sp : option Z * option Z =>
              match fst sp, snd sp with
              | None, Some p => Some p
              | Some s, Some p => Some (s + p)
              | s, None => s
              end).
  change (@None Z) with (g (None, None)) at 1.
  rewrite map_nth, combine_nth by auto. reflexivity.
Qed.

Lemma add_peeks_nth (peeks : list (list (option Z))) :
  forall (sumval : list (option Z)) (n : nat),
    List.length sumval = n ->
    Forall (fun peek => List.length peek = n) peeks ->
    exists s, CycleTimeCalculator.add_peeks sumval peeks = Ok s
              /\ List.length s = n
              /\ forall i,
                   nth i s None
                   = match nth i sumval None with
                     | Some v =>
                         Some (v + fold_right Z.add 0
                                     (map present_or_0
                                          (map (fun peek => nth i peek None) peeks)))
                     | None => sum_present (map (fun peek => nth i peek None) peeks)
                     end.
Proof.
  induction peeks as [|peek peeks IH]; intros sumval n Hn Hall; simpl.
  - exists sumval. repeat split; auto. intro i.
    destruct (nth i sumval None); [f_equal; lia | reflexivity].
  - inversion Hall as [|? ? Hpeek Hrest]; subst.
    destruct (add_peek_nth sumval peek 0 Hpeek) as (s1 & E1 & _).
    rewrite E1. simpl.
    pose proof (add_peek_length _ _ _ E1) as Hs1.
    destruct (IH s1 (List.length sumval) Hs1 Hrest) as (s & Es & Hs & Hnth).
    exists s. repeat split; auto. intro i. rewrite Hnth.
    destruct (add_peek_nth sumval peek i Hpeek) as (s1' & E1' & Hi).
    rewrite E1 in E1'. injection E1' as <-. rewrite Hi.
    unfold sum_present. simpl.
    destruct (nth i sumval None) as [v|], (nth i peek None) as [p|]; simpl;
      try reflexivity; f_equal; lia.
Qed.

(** X13: when the [peek] of every dependency has one entry per row of
    [facts], [CycleTimeCalculator._analyze] returns an array with one entry
    per row, and the entry of a row is the sum of the entries that the
    dependencies have for the row, not counting those that are [None]; it
    is [None] when all of them are. *)
Theorem cycle_time_is_the_sum_of_the_stages (peeks : list (list (option Z)))
    (facts : list PullRequestFacts.t) :
  Forall (fun peek => List.length peek = List.length facts) peeks ->
  exists sumval,
    CycleTimeCalculator._analyze peeks facts = Ok sumval
    /\ List.length sumval = List.length facts
    /\ forall i, nth i sumval None
                 = sum_present (map (fun peek => nth i peek None) peeks).
Proof.
  intro Hall. unfold CycleTimeCalculator._analyze.
  assert (Hrepeat : List.length (repeat (@None Z) (List.length facts))
                    = List.length facts) by apply repeat_length.
  destruct (add_peeks_nth peeks _ _ Hrepeat Hall) as (s & E & Hlen & Hnth).
  exists s. split; [exact E|]. split; [exact Hlen|].
  intro i. rewrite Hnth.
  replace (nth i (repeat None (List.length facts)) None) with (@None Z);
    [reflexivity|].
  clear. generalize (List.length facts). intro n. revert i.
  induction n as [|n IH]; intros [|i]; simpl; auto.
Qed.

(** Two rows and three dependencies: the first row has the times 3 and 4,
    the second has none. *)
Lemma cycle_time_is_the_sum_of_the_stages_witness :
  exists sumval,
    CycleTimeCalculator._analyze
      [[Some 3; None]; [None; None]; [Some 4; None]]
      [ExampleFacts.merged_pr; ExampleFacts.rejected_pr] = Ok sumval
    /\ sumval = [Some 7; None]
    /\ List.length sumval = 2%nat
    /\ forall i, nth i sumval None
                 = sum_present
                     (map (fun peek => nth i peek None)
                          [[Some 3; None]; [None; None]; [Some 4; None]]).
Proof.
  destruct (cycle_time_is_the_sum_of_the_stages
              [[Some 3; None]; [None; None]; [Some 4; None]]
              [ExampleFacts.merged_pr; ExampleFacts.rejected_pr])
    as (sumval & E & Hlen & Hnth).
  - repeat constructor.
  - exists sumval. split; [exact E|]. split; [|split; [exact Hlen | exact Hnth]].
    vm_compute in E. injection E as <-. reflexivity.
Defined.

Lemma value_loop_sums (vals : list (Metric.t Z)) :
  forall a,
    Forall carries_value vals ->
    CycleTimeCalculator._value_loop a vals
    = Ok {| CycleTimeCalculator.exists_ :=
              CycleTimeCalculator.exists_ a
              || existsb (fun v => Metric.exists_ v) vals;
            CycleTimeCalculator.ct :=
              CycleTimeCalculator.ct a + sum_existing Metric.value vals;
            CycleTimeCalculator.ct_conf_min :=
              CycleTimeCalculator.ct_conf_min a
              + sum_existing Metric.confidence_min vals;
            CycleTimeCalculator.ct_conf_max :=
              CycleTimeCalculator.ct_conf_max a
              + sum_existing Metric.confidence_max vals |}.
Proof.
  unfold sum_existing.
  induction vals as [|val vals IH]; intros a Hall; simpl.
  - destruct a. simpl. rewrite orb_false_r, !Z.add_0_r. reflexivity.
  - inversion Hall as [|? ? Hval Hrest]; subst.
    destruct (Metric.exists_ val) eqn:E.
    + destruct (Hval E) as (Hv & Hmin & Hmax).
      destruct (Metric.value val) as [v|] eqn:Ev; [|contradiction].
      destruct (Metric.confidence_min val) as [cmin|] eqn:Emin; [|contradiction].
      destruct (Metric.confidence_max val) as [cmax|] eqn:Emax; [|contradiction].
      simpl. rewrite IH by assumption. simpl.
      rewrite orb_true_r, !Z.add_assoc, Ev, Emin, Emax. reflexivity.
    + simpl. now rewrite IH.
Qed.

(** X14: [CycleTimeCalculator._value] exists when one of its dependencies
    does, and is then the sum of the values, and of the bounds of the
    confidence intervals, of the dependencies that exist; those that do not
    exist count for nothing, whatever they hold. *)
Theorem cycle_time_value_sums_what_exists (vals : list (Metric.t Z)) :
  Forall carries_value vals ->
  CycleTimeCalculator._value vals
  = Ok (if existsb (fun v => Metric.exists_ v) vals
        then Metric.Build_t true
               (Some (sum_existing Metric.value vals))
               (Some (sum_existing Metric.confidence_min vals))
               (Some (sum_existing Metric.confidence_max vals))
        else Metric.Build_t false None None None).
Proof.
  intro Hall. unfold CycleTimeCalculator._value.
  rewrite value_loop_sums by assumption. reflexivity.
Qed.

Lemma cycle_time_value_sums_what_exists_witness :
  CycleTimeCalculator._value
    [ Metric.Build_t true (Some 3) (Some 2) (Some 5);
      Metric.Build_t false (Some 100) None None;
      Metric.Build_t true (Some 4) (Some 4) (Some 4) ]
  = Ok (Metric.Build_t true (Some 7) (Some 6) (Some 9)).
Proof.
  apply (cycle_time_value_sums_what_exists
           [ Metric.Build_t true (Some 3) (Some 2) (Some 5);
             Metric.Build_t false (Some 100) None None;
             Metric.Build_t true (Some 4) (Some 4) (Some 4) ]).
  repeat constructor; simpl; intros; try discriminate; repeat split; discriminate.
Defined.

Lemma add_peek_map {A : Type} (g h : A -> option Z) (l : list A) :
  CycleTimeCalculator.add_peek (map g l) (map h l)
  = Ok (map (fun x => match g x, h x with
                      | None, Some p => Some p
                      | Some s, Some p => Some (s + p)
                      | s, None => s
                      end) l).
Proof.
  unfold CycleTimeCalculator.add_peek. rewrite !length_map, Nat.eqb_refl.
  f_equal. induction l as [|x l IH]; simpl; [reflexivity|]. now rewrite IH.
Qed.

Lemma repeat_map {A B : Type} (b : B) (l : list A) :
  repeat b (List.length l) = map (fun _ => b) l.
Proof.
  induction l as [|x l IH]; simpl; [reflexivity|]. now rewrite IH.
Qed.

(** X15: for pull requests that went through every stage in the window, the
    cycle time is the lead time: when the cast of a time to seconds is
    additive (as it is on whole seconds), [WorkInProgressTimeCalculator]
    returns, and [CycleTimeCalculator._analyze] on its analysis and those of
    [ReviewTimeCalculator], [MergingTimeCalculator] and
    [ReleaseTimeCalculator] of the same facts and window, keyword arguments
    left at their defaults, returns what [LeadTimeCalculator._analyze]
    returns. *)
Theorem cycle_time_is_lead_time (astype_s : option Z -> Z)
    (facts : list PullRequestFacts.t) (min_time max_time : Z) :
  (forall x y, astype_s (Some (x + y)) = astype_s (Some x) + astype_s (Some y)) ->
  Forall (went_through_all_stages min_time max_time) facts ->
  exists wip,
    WorkInProgressTimeCalculator._analyze astype_s facts min_time max_time None
    = Ok wip
    /\ CycleTimeCalculator._analyze
         [ wip;
           ReviewTimeCalculator._analyze astype_s facts min_time max_time false None;
           MergingTimeCalculator._analyze astype_s facts min_time max_time;
           ReleaseTimeCalculator._analyze astype_s facts min_time max_time ]
         facts
       = Ok (LeadTimeCalculator._analyze astype_s facts min_time max_time).
Proof.
  intros Hadd Hall. rewrite Forall_forall in Hall.
  unfold WorkInProgressTimeCalculator._analyze. cbv zeta.
  assert (Hno_null :
            existsb (fun e : option (option Z) =>
                       match e with
                       | Some None => true
                       | _ => false
                       end)
                    (map (fun f => WorkInProgressTimeCalculator.wip_end f None) facts)
            = false).
  { apply not_true_is_false. intro H. apply existsb_exists in H as (e & He & Hnull).
    apply in_map_iff in He as (f & <- & Hf).
    destruct (Hall f Hf) as (_ & Hlr & _ & Hrq & _).
    unfold WorkInProgressTimeCalculator.wip_end in Hnull.
    destruct (last_review f); [|contradiction]. simpl in Hnull.
    destruct (first_review_request f); discriminate. }
  rewrite Hno_null. eexists. split; [reflexivity|].
  unfold CycleTimeCalculator._analyze,
    ReviewTimeCalculator._analyze, MergingTimeCalculator._analyze,
    ReleaseTimeCalculator._analyze, LeadTimeCalculator._analyze.
  rewrite repeat_map. simpl CycleTimeCalculator.add_peeks.
  rewrite add_peek_map. simpl bind.
  rewrite add_peek_map. simpl bind.
  rewrite add_peek_map. simpl bind.
  rewrite add_peek_map. simpl bind.
  f_equal. apply map_ext_in. intros f Hf.
  destruct (Hall f Hf) as (Hwb & Hlr & Hcl & Hrq & Hap & Hmg & Hrl).
  unfold WorkInProgressTimeCalculator.wip_end, ReviewTimeCalculator.review_end.
  rewrite Hcl.
  apply in_range_bounds in Hrq as Hrq'. destruct Hrq' as (rq & Erq & _).
  apply in_range_bounds in Hap as Hap'. destruct Hap' as (ap & Eap & _).
  apply in_range_bounds in Hmg as Hmg'. destruct Hmg' as (mg & Emg & _).
  apply in_range_bounds in Hrl as Hrl'. destruct Hrl' as (rl & Erl & _).
  destruct (work_began f) as [wb|]; [|contradiction].
  destruct (last_review f) as [lr|]; [|contradiction].
  rewrite Erq, Eap, Emg, Erl in *. cbn -[in_range Z.add Z.sub].
  rewrite Hrq, Hap, Hmg, Hrl. cbn -[in_range Z.add Z.sub].
  f_equal. rewrite <- !Hadd. f_equal. f_equal. lia.
Qed.

Lemma cycle_time_is_lead_time_witness :
  exists wip,
    WorkInProgressTimeCalculator._analyze ExampleFacts.astype_s
      [ExampleFacts.released_pr] 0 10 None = Ok wip
    /\ CycleTimeCalculator._analyze
         [ wip;
           ReviewTimeCalculator._analyze ExampleFacts.astype_s
             [ExampleFacts.released_pr] 0 10 false None;
           MergingTimeCalculator._analyze ExampleFacts.astype_s
             [ExampleFacts.released_pr] 0 10;
           ReleaseTimeCalculator._analyze ExampleFacts.astype_s
             [ExampleFacts.released_pr] 0 10 ]
         [ExampleFacts.released_pr]
       = Ok (LeadTimeCalculator._analyze ExampleFacts.astype_s
               [ExampleFacts.released_pr] 0 10).
Proof.
  apply (cycle_time_is_lead_time ExampleFacts.astype_s
           [ExampleFacts.released_pr] 0 10).
  - reflexivity.
  - repeat constructor; simpl; discriminate.
Defined.

(** ** The review time and the size *)

(** X16: allowing unclosed pull requests only adds samples to the review
    time: every pull request that [ReviewTimeCalculator._analyze] gives a
    time with [allow_unclosed=False] has the same time with
    [allow_unclosed=True]. *)
Theorem review_time_allow_unclosed_keeps_samples (astype_s : option Z -> Z)
    (facts : list PullRequestFacts.t) (min_time max_time : Z)
    (override_event_time : option Z) :
  Forall2 (fun closed_only unclosed_too =>
             closed_only <> None -> unclosed_too = closed_only)
    (ReviewTimeCalculator._analyze astype_s facts min_time max_time false
       override_event_time)
    (ReviewTimeCalculator._analyze astype_s facts min_time max_time true
       override_event_time).
Proof.
  unfold ReviewTimeCalculator._analyze. apply Forall2_map_same. intros f _.
  unfold ReviewTimeCalculator.review_end.
  destruct override_event_time as [t|]; [reflexivity|].
  destruct (closed f) as [c|]; simpl; [reflexivity|].
  rewrite !andb_false_r. simpl. congruence.
Qed.

(** X17: [SizeCalculator._shift_log] keeps the order of the sizes that are
    not negative and makes them positive: the size 0 is shifted to 1. *)
Theorem shift_log_is_positive_and_monotone (a b : Z) :
  0 <= a <= b ->
  0 < SizeCalculator._shift_log a <= SizeCalculator._shift_log b.
Proof.
  unfold SizeCalculator._shift_log. intro H.
  destruct (Z.gtb_spec a 0), (Z.gtb_spec b 0); lia.
Qed.

Lemma shift_log_is_positive_and_monotone_witness :
  0 < SizeCalculator._shift_log 0 <= SizeCalculator._shift_log 1.
Proof.
  apply (shift_log_is_positive_and_monotone 0 1). lia.
Defined.

(** X18: on the [peek] of [AllCounter] for the same facts,
    [SizeCalculator._analyze] returns, and it samples the size of exactly
    the pull requests that [AllCounter] marks in the window. *)
Theorem size_is_sampled_where_all_counter_marks (facts : list PullRequestFacts.t)
    (min_time max_time : Z) :
  exists sizes,
    SizeCalculator._analyze (AllCounter._analyze facts min_time max_time) facts
    = Ok sizes
    /\ Forall2 (fun f s =>
                  s = if is_some (nth 0 (AllCounter._analyze [f] min_time max_time) None)
                      then Some (size f) else None) facts sizes.
Proof.
  unfold SizeCalculator._analyze, AllCounter._analyze.
  rewrite length_map, Nat.eqb_refl. eexists. split; [reflexivity|].
  induction facts as [|f facts IH]; simpl; constructor; [|exact IH].
  now destruct (mark _).
Qed.

(** X19: the release time has no negative values on facts in the order of
    time, when the cast to seconds keeps the sign: every time that
    [ReleaseTimeCalculator._analyze] gives is zero or more. *)
Theorem release_time_is_not_negative (astype_s : option Z -> Z)
    (facts : list PullRequestFacts.t) (min_time max_time : Z) :
  (forall d, 0 <= d -> 0 <= astype_s (Some d)) ->
  Forall chronological facts ->
  forall t, In (Some t) (ReleaseTimeCalculator._analyze astype_s facts
                           min_time max_time) ->
            0 <= t.
Proof.
  intros Hsign Hall t Ht. unfold ReleaseTimeCalculator._analyze in Ht.
  apply in_map_iff in Ht as (f & Et & Hf).
  rewrite Forall_forall in Hall.
  destruct (Hall f Hf) as (_ & _ & _ & Hmr & _).
  unfold le_opt in Hmr.
  destruct (merged f) as [m|]; simpl in Et; [|discriminate].
  destruct (released f) as [r|]; simpl in Et; [|discriminate].
  destruct ((min_time <=? r) && (r <? max_time)); simpl in Et; [|discriminate].
  injection Et as <-. apply Hsign. lia.
Qed.

Lemma release_time_is_not_negative_witness :
  In (Some 1) (ReleaseTimeCalculator._analyze ExampleFacts.astype_s
                 [ExampleFacts.released_pr] 0 10)
  /\ 0 <= 1.
Proof.
  split; [left; reflexivity|].
  apply (release_time_is_not_negative ExampleFacts.astype_s
           [ExampleFacts.released_pr] 0 10).
  - intros d Hd. exact Hd.
  - repeat constructor; simpl; try lia; congruence.
  - left. reflexivity.
Defined.

End MetricsProperties.
